(** * Shopping-cart domain model (libs/cart-shared/src/domain)

    A shallow embedding of the value objects [Money], [Quantity],
    [ProductId], [CartId], of the [CartItem] entity and of the [Cart]
    aggregate root, together with the properties of the aggregate.

    Modelling conventions.
    - A JavaScript [number] is an IEEE-754 binary64 value: [number] is a
      finite rational, an infinity or NaN, and [+], [-], [*], [/] are the
      correctly rounded operations (round to nearest, ties to even, with
      subnormals and overflow).  The sign of zero is not represented: no
      operation of this domain distinguishes -0 from +0.
    - Where the source keeps a number that its constructor has checked
      with [Number.isInteger] (cents, quantities) or that is a length or
      an index, the embedding keeps the [Z] it denotes; [Number_of_Z]
      turns it back into the number when it takes part in floating-point
      arithmetic.  A decimal literal of the source is the rational it
      spells, turned into the nearest number by [Number_of_literal].
      Quantities are at most 999 and a cart has at most 100 lines, so
      sums of quantities and lengths stay far below [2^53], where the
      operations on numbers are exact: they are written on [Z].
    - A JavaScript string is a [string]; each character stands for one
      code unit below 256, so [String.length] is the [length] property.
    - A [throw] is the left injection of [Result]; every method that can
      throw returns a [Result].
    - [new Date()] and [randomUUID()] are arguments ([now], [fresh]) of the
      operations that call them; a parameter with a default value is
      always passed.
    - Objects are immutable in the source (private readonly fields, no
      assignment after construction), so a method is a function of its
      receiver and the receiver is never part of what it returns. *)

From Stdlib Require Import ZArith QArith Qround Qabs Qreduction Qpower List String Ascii Bool Lia Lqa.
Import ListNotations.
Open Scope string_scope.
Open Scope Z_scope.

(** ** JavaScript values and helpers *)

Set Warnings "-register-all".
Inductive JsValue : Type :=
| JStr (s : string)
| JNum (q : Q)
| JInfinity (negative : bool)
| JNaN
| JArr (l : list JsValue)
| JObj (l : list (string * JsValue)).
Set Warnings "register-all".

Definition Context : Type := list (string * JsValue).

(** *** Numbers

    The Number type of ECMAScript: the finite binary64 values (as the
    rationals they denote), the two infinities and NaN. *)
Inductive number : Type :=
| Finite (q : Q)
| Infinity (negative : bool)
| NaN.

Definition pow2 (e : Z) : Q :=
  if 0 <=? e then inject_Z (2 ^ e) else 1 # Z.to_pos (2 ^ (- e)).

Definition pow10 (e : Z) : Q :=
  if 0 <=? e then inject_Z (10 ^ e) else 1 # Z.to_pos (10 ^ (- e)).

(** The binary exponent of a non-zero rational: [2^e <= |q| < 2^(e+1)]. *)
Definition ilog2 (q : Q) : Z :=
  let e0 := Z.log2 (Z.abs (Qnum q)) - Z.log2 (Z.pos (Qden q)) in
  if Qle_bool (pow2 e0) (Qabs q) then e0 else e0 - 1.

Definition roundHalfEven (q : Q) : Z :=
  let f := Qfloor q in
  match Qcompare (q - inject_Z f)%Q (1 # 2) with
  | Lt => f
  | Gt => f + 1
  | Eq => if Z.even f then f else f + 1
  end.

(** The Number value for a rational: the nearest binary64 value, ties to
    the even significand; 53 bits of precision, least exponent -1022
    (below it the spacing stays [2^-1074]), overflow to an infinity. *)
Definition roundQ (q : Q) : number :=
  if Qeq_bool q 0 then Finite 0
  else
    let e := Z.max (ilog2 q) (-1022) in
    let ulp := pow2 (e - 52) in
    let v := Qred (inject_Z (roundHalfEven (Qabs q / ulp)%Q) * ulp)%Q in
    if Qle_bool (pow2 1024) v then Infinity (Qnum q <? 0)
    else Finite (if Qnum q <? 0 then (- v)%Q else v).

(** An integer held by the program, as the number it is. *)
Definition Number_of_Z (z : Z) : number := Finite (inject_Z z).

(** A decimal literal of the source text. *)
Definition Number_of_literal (q : Q) : number := roundQ q.

Coercion Number_of_Z : Z >-> number.
Coercion Number_of_literal : Q >-> number.

Definition isNegative (q : Q) : bool := Qnum q <? 0.

Definition Number_add (x y : number) : number :=
  match x, y with
  | Finite a, Finite b => roundQ (a + b)%Q
  | NaN, _ | _, NaN => NaN
  | Infinity s, Infinity s' => if Bool.eqb s s' then Infinity s else NaN
  | Infinity s, Finite _ | Finite _, Infinity s => Infinity s
  end.

Definition Number_sub (x y : number) : number :=
  match x, y with
  | Finite a, Finite b => roundQ (a - b)%Q
  | NaN, _ | _, NaN => NaN
  | Infinity s, Infinity s' => if Bool.eqb s s' then NaN else Infinity s
  | Infinity s, Finite _ => Infinity s
  | Finite _, Infinity s => Infinity (negb s)
  end.

Definition Number_mul (x y : number) : number :=
  match x, y with
  | Finite a, Finite b => roundQ (a * b)%Q
  | NaN, _ | _, NaN => NaN
  | Infinity s, Infinity s' => Infinity (xorb s s')
  | Infinity s, Finite a | Finite a, Infinity s =>
      if Qeq_bool a 0 then NaN else Infinity (xorb s (isNegative a))
  end.

Definition Number_div (x y : number) : number :=
  match x, y with
  | Finite a, Finite b =>
      if Qeq_bool b 0 then (if Qeq_bool a 0 then NaN else Infinity (isNegative a))
      else roundQ (a / b)%Q
  | NaN, _ | _, NaN => NaN
  | Infinity _, Infinity _ => NaN
  | Infinity s, Finite b => Infinity (xorb s (isNegative b))
  | Finite _, Infinity _ => Finite 0
  end.

(** [x < y]: false as soon as one side is NaN. *)
Definition Number_ltb (x y : number) : bool :=
  match x, y with
  | NaN, _ | _, NaN => false
  | Finite a, Finite b => negb (Qle_bool b a)
  | Infinity s, Infinity s' => s && negb s'
  | Infinity s, Finite _ => s
  | Finite _, Infinity s => negb s
  end.

(** [Number.isInteger]. *)
Definition Number_isInteger (x : number) : bool :=
  match x with
  | Finite q => Qeq_bool q (inject_Z (Qfloor q))
  | _ => false
  end.

(** The integer a number denotes, once [Number.isInteger] has accepted
    it. *)
Definition Number_toZ (x : number) : Z :=
  match x with
  | Finite q => Qfloor q
  | _ => 0
  end.

(** [Math.round]: the nearest integer, ties towards +infinity; the
    infinities and NaN are returned as they are. *)
Definition Math_round (x : number) : number :=
  match x with
  | Finite q => Finite (inject_Z (Qfloor (q + (1 # 2))%Q))
  | _ => x
  end.

(** [Number.MAX_SAFE_INTEGER], [2^53 - 1]. *)
Definition MAX_SAFE_INTEGER : Z := 9007199254740991.

(** *** Number::toString (radix 10)

    The digits [s], their count [k] and the decimal exponent [n] with
    [10^(k-1) <= s < 10^k], the Number value for [s * 10^(n-k)] being
    [x], and [k] as small as possible; among several [s], the one
    closest to [x]. *)
Fixpoint digitsOf (fuel : nat) (n : Z) (acc : string) : string :=
  match fuel with
  | O => acc
  | S f =>
      let acc' := String (ascii_of_nat (48 + Z.to_nat (n mod 10))) acc in
      if n / 10 =? 0 then acc' else digitsOf f (n / 10) acc'
  end.

Definition decimalDigits (n : Z) : string :=
  digitsOf (S (Z.to_nat (Z.log2 n))) n "".

(** The decimal exponent of a positive rational: [10^p <= q < 10^(p+1)]. *)
Definition ilog10 (q : Q) : Z :=
  let p0 := (ilog2 q * 30103) / 100000 in
  let p1 := if Qle_bool (pow10 (p0 + 1)) q then p0 + 1 else p0 in
  let p2 := if Qle_bool (pow10 (p1 + 1)) q then p1 + 1 else p1 in
  let p3 := if Qle_bool (pow10 p2) q then p2 else p2 - 1 in
  if Qle_bool (pow10 p3) q then p3 else p3 - 1.

Definition Qeqb_number (x : number) (q : Q) : bool :=
  match x with Finite a => Qeq_bool a q | _ => false end.

(** The [k]-digit decimals next to [x] that round to [x], as pairs
    [(s, n)]. *)
Definition candidates (x : Q) (k : Z) (p : Z) : list (Z * Z) :=
  flat_map (fun n =>
     let scale := pow10 (n - k) in
     let f := Qfloor (x / scale)%Q in
     filter (fun sn => let s := fst sn in
               (10 ^ (k - 1) <=? s) && (s <? 10 ^ k)
               && Qeqb_number (roundQ (inject_Z s * scale)%Q) x)
            [(f, n); (f + 1, n)])
    [p + 1; p + 2].

Definition closer (x : Q) (k : Z) (a b : Z * Z) : Z * Z :=
  let va := (inject_Z (fst a) * pow10 (snd a - k))%Q in
  let vb := (inject_Z (fst b) * pow10 (snd b - k))%Q in
  match Qcompare (Qabs (va - x)%Q) (Qabs (vb - x)%Q) with
  | Lt => a
  | Gt => b
  | Eq => if Z.even (fst a) then a else b
  end.

(** Seventeen digits always suffice for a binary64 value. *)
Fixpoint shortest (x : Q) (p : Z) (fuel : nat) (k : Z) : Z * Z * Z :=
  match fuel with
  | O => (0, 0, k)
  | S f =>
      match candidates x k p with
      | [] => shortest x p f (k + 1)
      | c :: r => let best := fold_left (closer x k) r c in (fst best, snd best, k)
      end
  end.

Fixpoint zeros (n : nat) : string :=
  match n with O => "" | S m => String "0" (zeros m) end.

Definition formatPositive (x : Q) : string :=
  let '(s, n, k) := shortest x (ilog10 x) 17 1 in
  let ds := decimalDigits s in
  if (k <=? n) && (n <=? 21) then ds ++ zeros (Z.to_nat (n - k))
  else if (0 <? n) && (n <=? 21) then
    substring 0 (Z.to_nat n) ds ++ "." ++ substring (Z.to_nat n) (Z.to_nat (k - n)) ds
  else if (-6 <? n) && (n <=? 0) then "0." ++ zeros (Z.to_nat (- n)) ++ ds
  else
    let e := n - 1 in
    let es := (if e <? 0 then "-" else "+") ++ decimalDigits (Z.abs e) in
    if k =? 1 then ds ++ "e" ++ es
    else substring 0 1 ds ++ "." ++ substring 1 (Z.to_nat (k - 1)) ds ++ "e" ++ es.

(** [String(x)], the conversion a template literal applies. *)
Definition Number_toString (x : number) : string :=
  match x with
  | NaN => "NaN"
  | Infinity s => if s then "-Infinity" else "Infinity"
  | Finite q =>
      if Qeq_bool q 0 then "0"
      else if isNegative q then "-" ++ formatPositive (- q)%Q
      else formatPositive q
  end.

(** Rounding and printing are evaluated only on demand (by conversion
    or [vm_compute]), never by [simpl] or [cbn]. *)
Arguments roundQ : simpl never.
Arguments Number_add : simpl never.
Arguments Number_sub : simpl never.
Arguments Number_mul : simpl never.
Arguments Number_div : simpl never.
Opaque Number_toString.

(** A number as a value of an error context. *)
Definition JsValue_of_number (x : number) : JsValue :=
  match x with
  | Finite q => JNum q
  | Infinity s => JInfinity s
  | NaN => JNaN
  end.

(** [Array.prototype.findIndex]: index of the first match, or -1. *)
Fixpoint findIndex {A : Type} (p : A -> bool) (l : list A) : Z :=
  match l with
  | [] => -1
  | x :: r => if p x then 0
              else let i := findIndex p r in
                   if i <? 0 then -1 else i + 1
  end.

(** [arr.slice(0, i)] and [arr.slice(i)] for [0 <= i]. *)
Definition slice_to {A : Type} (l : list A) (i : Z) : list A := firstn (Z.to_nat i) l.
Definition slice_from {A : Type} (l : list A) (i : Z) : list A := skipn (Z.to_nat i) l.

(** [arr[i]]: [None] stands for [undefined]. *)
Definition at_index {A : Type} (l : list A) (i : Z) : option A :=
  if i <? 0 then None else nth_error l (Z.to_nat i).

Definition length_Z {A : Type} (l : list A) : Z := Z.of_nat (List.length l).

(** White space of [String.prototype.trim] among the code units below 256:
    TAB, LF, VT, FF, CR, SP and NBSP. *)
Definition isWhiteSpace (c : ascii) : bool :=
  let n := nat_of_ascii c in
  (Nat.eqb n 9 || Nat.eqb n 10 || Nat.eqb n 11 || Nat.eqb n 12 || Nat.eqb n 13
   || Nat.eqb n 32 || Nat.eqb n 160)%bool.

Fixpoint trimStart_chars (l : list ascii) : list ascii :=
  match l with
  | [] => []
  | c :: r => if isWhiteSpace c then trimStart_chars r else l
  end.

Definition trimEnd_chars (l : list ascii) : list ascii :=
  rev (trimStart_chars (rev l)).

Definition trim (s : string) : string :=
  string_of_list_ascii (trimEnd_chars (trimStart_chars (list_ascii_of_string s))).

Definition strlen (s : string) : Z := Z.of_nat (String.length s).

(** ** types/cart.types.ts *)

Inductive CartStatus : Type := ACTIVE | ABANDONED | CHECKED_OUT.

Inductive Currency : Type := EUR | USD | GBP.

Definition CartStatus_eqb (a b : CartStatus) : bool :=
  match a, b with
  | ACTIVE, ACTIVE | ABANDONED, ABANDONED | CHECKED_OUT, CHECKED_OUT => true
  | _, _ => false
  end.

Definition Currency_eqb (a b : Currency) : bool :=
  match a, b with
  | EUR, EUR | USD, USD | GBP, GBP => true
  | _, _ => false
  end.

Definition CartStatus_toString (s : CartStatus) : string :=
  match s with
  | ACTIVE => "ACTIVE"
  | ABANDONED => "ABANDONED"
  | CHECKED_OUT => "CHECKED_OUT"
  end.

Definition Currency_toString (c : Currency) : string :=
  match c with EUR => "EUR" | USD => "USD" | GBP => "GBP" end.

Module DOMAIN_CONSTANTS.
Definition MAX_CART_ITEMS : Z := 100.
Definition MAX_ITEM_QUANTITY : Z := 999.
Definition DEFAULT_CURRENCY : Currency := EUR.
Definition SUPPORTED_CURRENCIES : list Currency := [EUR; USD; GBP].
End DOMAIN_CONSTANTS.

Definition includes (l : list Currency) (c : Currency) : bool :=
  existsb (Currency_eqb c) l.

(** ** errors/domain.error.ts and errors/cart.errors.ts *)

(** The serialisable part of a [DomainError]: [cause] is never supplied by
    the domain layer and the stack is not part of [toJSON]. *)
Record DomainError : Type := mkDomainError {
  name : string;
  message : string;
  code : string;
  context : option Context
}.

(** What a [throw] carries: a [DomainError] subclass instance or a plain
    [Error] (only a message). *)
Inductive Thrown : Type :=
| ThrowDomain (e : DomainError)
| ThrowError (msg : string).

Definition Result (A : Type) : Type := (Thrown + A)%type.

Definition ok {A : Type} (a : A) : Result A := inr a.
Definition throw {A : Type} (e : Thrown) : Result A := inl e.

Definition bind {A B : Type} (r : Result A) (k : A -> Result B) : Result B :=
  match r with
  | inl e => inl e
  | inr a => k a
  end.

Notation "x <- e ;; k" := (bind e (fun x => k))
  (at level 61, e at next level, right associativity).
Notation "e ;;; k" := (bind e (fun _ => k))
  (at level 61, right associativity).

Definition is_ok {A : Type} (r : Result A) : bool :=
  match r with inr _ => true | inl _ => false end.

(** The machine-readable code and the context of what was thrown; a plain
    [Error] has neither. *)
Definition thrown_code (t : Thrown) : option string :=
  match t with
  | ThrowDomain e => Some (code e)
  | ThrowError _ => None
  end.

Definition thrown_context (t : Thrown) : option Context :=
  match t with
  | ThrowDomain e => context e
  | ThrowError _ => None
  end.

Definition thrown_name (t : Thrown) : string :=
  match t with
  | ThrowDomain e => name e
  | ThrowError _ => "Error"
  end.

(** The subclasses of [DomainError] declared in cart.errors.ts, with the
    class name ([this.constructor.name]) and the code each passes to
    [super]. *)
Inductive ErrorKind : Type :=
| CartNotFound | InvalidCart | InvalidCartItem | InvalidQuantity | InvalidMoney
| MaxCartItemsExceeded | CartNotActive | ProductNotFound | InvalidProduct
| ProductNotActive.

Definition className (k : ErrorKind) : string :=
  match k with
  | CartNotFound => "CartNotFoundError"
  | InvalidCart => "InvalidCartError"
  | InvalidCartItem => "InvalidCartItemError"
  | InvalidQuantity => "InvalidQuantityError"
  | InvalidMoney => "InvalidMoneyError"
  | MaxCartItemsExceeded => "MaxCartItemsExceededError"
  | CartNotActive => "CartNotActiveError"
  | ProductNotFound => "ProductNotFoundError"
  | InvalidProduct => "InvalidProductError"
  | ProductNotActive => "ProductNotActiveError"
  end.

Definition classCode (k : ErrorKind) : string :=
  match k with
  | CartNotFound => "CART_NOT_FOUND"
  | InvalidCart => "INVALID_CART"
  | InvalidCartItem => "INVALID_CART_ITEM"
  | InvalidQuantity => "INVALID_QUANTITY"
  | InvalidMoney => "INVALID_MONEY"
  | MaxCartItemsExceeded => "MAX_CART_ITEMS_EXCEEDED"
  | CartNotActive => "CART_NOT_ACTIVE"
  | ProductNotFound => "PRODUCT_NOT_FOUND"
  | InvalidProduct => "INVALID_PRODUCT"
  | ProductNotActive => "PRODUCT_NOT_ACTIVE"
  end.

Definition domainError (k : ErrorKind) (msg : string) (ctx : option Context) : Thrown :=
  ThrowDomain (mkDomainError (className k) msg (classCode k) ctx).

Definition CartNotFoundError (cartId : string) : Thrown :=
  domainError CartNotFound
    ("Cart with ID '" ++ cartId ++ "' was not found")
    (Some [("cartId", JStr cartId)]).

Definition InvalidCartError (msg : string) (ctx : option Context) : Thrown :=
  domainError InvalidCart msg ctx.

Definition InvalidCartItemError (msg : string) (ctx : option Context) : Thrown :=
  domainError InvalidCartItem msg ctx.

Definition InvalidQuantityError (quantity : Z) : Thrown :=
  domainError InvalidQuantity
    ("Invalid quantity: " ++ Number_toString quantity
       ++ ". Must be a positive integer.")
    (Some [("quantity", JNum (inject_Z quantity))]).

Definition InvalidMoneyError (amount : number) (currency : string) : Thrown :=
  domainError InvalidMoney
    ("Invalid money: " ++ Number_toString amount ++ " " ++ currency
       ++ ". Amount must be non-negative.")
    (Some [("amount", JsValue_of_number amount); ("currency", JStr currency)]).

Definition MaxCartItemsExceededError (maxItems : Z) : Thrown :=
  domainError MaxCartItemsExceeded
    ("Cannot add more items. Maximum " ++ Number_toString maxItems
       ++ " items allowed per cart.")
    (Some [("maxItems", JNum (inject_Z maxItems))]).

Definition CartNotActiveError (cartId : string) (status : string) : Thrown :=
  domainError CartNotActive
    ("Cannot modify cart '" ++ cartId ++ "' with status '" ++ status
       ++ "'. Cart must be active.")
    (Some [("cartId", JStr cartId); ("status", JStr status)]).

Definition ProductNotFoundError (productId : string) : Thrown :=
  domainError ProductNotFound
    ("Product with ID '" ++ productId ++ "' was not found")
    (Some [("productId", JStr productId)]).

Definition InvalidProductError (msg : string) (ctx : option Context) : Thrown :=
  domainError InvalidProduct msg ctx.

Definition ProductNotActiveError (productId : string) : Thrown :=
  domainError ProductNotActive
    ("Cannot add product '" ++ productId ++ "' to cart. Product is not active.")
    (Some [("productId", JStr productId)]).

(** ** value-objects/money.vo.ts *)

Module Money.

Record t : Type := mk {
  _amountInCents : Z;
  _currency : Currency
}.

(** The private field holds a number that the constructor has checked
    with [Number.isInteger]: the record keeps the integer it denotes. *)
Definition validate (amountInCents : number) (currency : Currency) : Result unit :=
  if negb (Number_isInteger amountInCents) then
    throw (InvalidMoneyError (Number_div amountInCents 100) (Currency_toString currency))
  else if Number_ltb amountInCents 0 then
    throw (InvalidMoneyError (Number_div amountInCents 100) (Currency_toString currency))
  else if negb (includes DOMAIN_CONSTANTS.SUPPORTED_CURRENCIES currency) then
    throw (InvalidMoneyError (Number_div amountInCents 100) (Currency_toString currency))
  else ok tt.

(** The private constructor. *)
Definition new (amountInCents : number) (currency : Currency) : Result t :=
  validate amountInCents currency ;;;
  ok (mk (Number_toZ amountInCents) currency).

Definition from (amount : number) (currency : Currency) : Result t :=
  let amountInCents := Math_round (Number_mul amount 100) in
  new amountInCents currency.

Definition fromCents (cents : number) (currency : Currency) : Result t :=
  new cents currency.

Definition zero (currency : Currency) : Result t :=
  new 0 currency.

Definition amount (this : t) : number := Number_div (_amountInCents this) 100.
Definition amountInCents (this : t) : Z := _amountInCents this.
Definition currency (this : t) : Currency := _currency this.

Definition ensureSameCurrency (this other : t) : Result unit :=
  if negb (Currency_eqb (_currency this) (_currency other)) then
    throw (ThrowError ("Cannot operate on different currencies: "
                         ++ Currency_toString (_currency this) ++ " and "
                         ++ Currency_toString (_currency other)))
  else ok tt.

Definition add (this other : t) : Result t :=
  ensureSameCurrency this other ;;;
  fromCents (Number_add (_amountInCents this) (_amountInCents other)) (_currency this).

Definition subtract (this other : t) : Result t :=
  ensureSameCurrency this other ;;;
  fromCents (Number_sub (_amountInCents this) (_amountInCents other)) (_currency this).

Definition multiply (this : t) (factor : number) : Result t :=
  let result := Math_round (Number_mul (_amountInCents this) factor) in
  fromCents result (_currency this).

Definition isGreaterThan (this other : t) : Result bool :=
  ensureSameCurrency this other ;;;
  ok (_amountInCents this >? _amountInCents other).

Definition isLessThan (this other : t) : Result bool :=
  ensureSameCurrency this other ;;;
  ok (_amountInCents this <? _amountInCents other).

Definition isZero (this : t) : bool := _amountInCents this =? 0.

Definition equals (this other : t) : bool :=
  (_amountInCents this =? _amountInCents other)
  && Currency_eqb (_currency this) (_currency other).

Definition toJSON (this : t) : JsValue :=
  JObj [("amount", JsValue_of_number (amount this));
        ("currency", JStr (Currency_toString (_currency this)))].

(** A [Money] object exists only once its constructor has validated it. *)
Definition wf (m : t) : bool := is_ok (validate (_amountInCents m) (_currency m)).

End Money.

(** ** value-objects/quantity.vo.ts *)

Module Quantity.

Record t : Type := mk { _value : Z }.

(** [Number.isInteger(value)] holds by typing: the argument is a [Z]. *)
Definition validate (value : Z) : Result unit :=
  if value <=? 0 then throw (InvalidQuantityError value)
  else if value >? DOMAIN_CONSTANTS.MAX_ITEM_QUANTITY then
    throw (InvalidQuantityError value)
  else ok tt.

Definition new (value : Z) : Result t :=
  validate value ;;; ok (mk value).

Definition from (value : Z) : Result t := new value.

Definition value (this : t) : Z := _value this.

Definition add (this other : t) : Result t :=
  from (_value this + _value other).

Definition subtract (this other : t) : Result t :=
  from (_value this - _value other).

Definition isGreaterThan (this other : t) : bool := _value this >? _value other.
Definition isLessThan (this other : t) : bool := _value this <? _value other.
Definition equals (this other : t) : bool := _value this =? _value other.

(** A [Quantity] object exists only once its constructor has validated
    it. *)
Definition wf (q : t) : bool := is_ok (validate (_value q)).

End Quantity.

(** ** value-objects/product-id.vo.ts *)

Module ProductId.

Record t : Type := mk { _value : string }.

(** The character class [[A-Z0-9-]]. *)
Definition isIdChar (c : ascii) : bool :=
  let n := nat_of_ascii c in
  ((Nat.leb 65 n && Nat.leb n 90) || (Nat.leb 48 n && Nat.leb n 57) || Nat.eqb n 45)%bool.

(** [/^[A-Z0-9-]{3,50}$/.test(value)] *)
Definition isValid (value : string) : bool :=
  forallb isIdChar (list_ascii_of_string value)
  && (3 <=? strlen value) && (strlen value <=? 50).

Definition from (value : string) : Result t :=
  if negb (isValid value) then
    throw (ThrowError ("Invalid product ID format: " ++ value
             ++ ". Must be alphanumeric with hyphens, 3-50 characters."))
  else ok (mk value).

Definition value (this : t) : string := _value this.
Definition equals (this other : t) : bool := String.eqb (_value this) (_value other).
Definition toString (this : t) : string := _value this.

End ProductId.

(** ** value-objects/cart-id.vo.ts *)

Module CartId.

Record t : Type := mk { _value : string }.

Inductive UuidClass : Type := Hex | Dash | Four | Variant.

Definition isHex (c : ascii) : bool :=
  let n := nat_of_ascii c in
  ((Nat.leb 48 n && Nat.leb n 57) || (Nat.leb 97 n && Nat.leb n 102)
   || (Nat.leb 65 n && Nat.leb n 70))%bool.

Definition inClass (k : UuidClass) (c : ascii) : bool :=
  let n := nat_of_ascii c in
  match k with
  | Hex => isHex c
  | Dash => Nat.eqb n 45
  | Four => Nat.eqb n 52
  | Variant => (Nat.eqb n 56 || Nat.eqb n 57 || Nat.eqb n 97 || Nat.eqb n 98
                || Nat.eqb n 65 || Nat.eqb n 66)%bool
  end.

(** The shape 8-4-4-4-12 with the version and variant nibbles. *)
Definition uuidV4Pattern : list UuidClass :=
  (repeat Hex 8 ++ [Dash] ++ repeat Hex 4 ++ [Dash] ++ [Four] ++ repeat Hex 3
     ++ [Dash] ++ [Variant] ++ repeat Hex 3 ++ [Dash] ++ repeat Hex 12)%list.

Fixpoint matches (pat : list UuidClass) (cs : list ascii) : bool :=
  match pat, cs with
  | [], [] => true
  | k :: pat', c :: cs' => inClass k c && matches pat' cs'
  | _, _ => false
  end.

(** The case-insensitive UUID v4 regular expression. *)
Definition isValid (value : string) : bool :=
  matches uuidV4Pattern (list_ascii_of_string value).

(** [randomUUID()] is the argument [uuid]. *)
Definition generate (uuid : string) : t := mk uuid.

Definition from (value : string) : Result t :=
  if negb (isValid value) then
    throw (ThrowError ("Invalid cart ID format: " ++ value ++ ". Must be a valid UUID v4."))
  else ok (mk value).

Definition value (this : t) : string := _value this.
Definition equals (this other : t) : bool := String.eqb (_value this) (_value other).
Definition toString (this : t) : string := _value this.

End CartId.

(** ** entities/cart-item.entity.ts *)

Module CartItemProps.
Record t : Type := mk {
  productId : ProductId.t;
  productName : string;
  quantity : Quantity.t;
  unitPrice : Money.t
}.
End CartItemProps.

Module CartItem.

Record t : Type := mk { props : CartItemProps.t }.

Definition validate (props : CartItemProps.t) : Result unit :=
  let productName := CartItemProps.productName props in
  let pid := ProductId.value (CartItemProps.productId props) in
  if (strlen productName =? 0) || (strlen (trim productName) =? 0) then
    throw (InvalidCartItemError "Product name cannot be empty"
             (Some [("productId", JStr pid)]))
  else if strlen productName >? 200 then
    throw (InvalidCartItemError "Product name cannot exceed 200 characters"
             (Some [("productId", JStr pid); ("productName", JStr productName)]))
  else if Money.isZero (CartItemProps.unitPrice props) then
    throw (InvalidCartItemError "Unit price must be greater than zero"
             (Some [("productId", JStr pid);
                    ("unitPrice", Money.toJSON (CartItemProps.unitPrice props))]))
  else ok tt.

(** The private constructor. *)
Definition new (props : CartItemProps.t) : Result t :=
  validate props ;;; ok (mk props).

Definition create (props : CartItemProps.t) : Result t := new props.

Definition productId (this : t) : ProductId.t := CartItemProps.productId (props this).
Definition productName (this : t) : string := CartItemProps.productName (props this).
Definition quantity (this : t) : Quantity.t := CartItemProps.quantity (props this).
Definition unitPrice (this : t) : Money.t := CartItemProps.unitPrice (props this).

Definition lineTotal (this : t) : Result Money.t :=
  Money.multiply (unitPrice this) (Quantity.value (quantity this)).

Definition updateQuantity (this : t) (newQuantity : Quantity.t) : Result t :=
  create (CartItemProps.mk (productId this) (productName this) newQuantity (unitPrice this)).

Definition increaseQuantity (this : t) (amount : Quantity.t) : Result t :=
  newQuantity <- Quantity.add (quantity this) amount ;;
  updateQuantity this newQuantity.

Definition decreaseQuantity (this : t) (amount : Quantity.t) : Result t :=
  newQuantity <- Quantity.subtract (quantity this) amount ;;
  updateQuantity this newQuantity.

Definition equals (this other : t) : bool :=
  ProductId.equals (productId this) (productId other).

(** A [CartItem] object exists only once its constructor has validated
    its properties, which are themselves constructed value objects. *)
Definition wf (i : t) : bool :=
  is_ok (validate (props i)) && Money.wf (unitPrice i) && Quantity.wf (quantity i).

End CartItem.

(** ** entities/cart.entity.ts *)

(** A [Date], as milliseconds since the epoch. *)
Definition Date : Type := Z.

Module CartProps.
Record t : Type := mk {
  cartId : CartId.t;
  userId : string;
  items : list CartItem.t;
  status : CartStatus;
  currency : Currency;
  createdAt : Date;
  updatedAt : Date
}.
End CartProps.

Module Cart.

Record t : Type := mk { props : CartProps.t }.

Definition validate (props : CartProps.t) : Result unit :=
  let cid := CartId.value (CartProps.cartId props) in
  let userId := CartProps.userId props in
  let items := CartProps.items props in
  if (strlen userId =? 0) || (strlen (trim userId) =? 0) then
    throw (InvalidCartError "User ID is required" (Some [("cartId", JStr cid)]))
  else if length_Z items >? DOMAIN_CONSTANTS.MAX_CART_ITEMS then
    throw (InvalidCartError
             ("Cart cannot have more than "
                ++ Number_toString DOMAIN_CONSTANTS.MAX_CART_ITEMS ++ " items")
             (Some [("cartId", JStr cid);
                    ("itemCount", JNum (inject_Z (length_Z items)))]))
  else
    let invalidItems :=
      filter (fun item =>
                negb (Currency_eqb (Money.currency (CartItem.unitPrice item))
                                   (CartProps.currency props))) items in
    if length_Z invalidItems >? 0 then
      throw (InvalidCartError "All items must have the same currency as the cart"
               (Some [("cartId", JStr cid);
                      ("cartCurrency", JStr (Currency_toString (CartProps.currency props)));
                      ("invalidItems",
                       JArr (map (fun item => JStr (ProductId.value (CartItem.productId item)))
                                 invalidItems))]))
    else ok tt.

(** The private constructor. *)
Definition new (props : CartProps.t) : Result t :=
  validate props ;;; ok (mk props).

(** [params.currency ?? DEFAULT_CURRENCY]; [fresh] is the random UUID and
    [now] the clock. *)
Definition create (fresh : string) (now : Date) (userId : string)
           (currency : option Currency) : Result t :=
  new (CartProps.mk (CartId.generate fresh) userId [] ACTIVE
         (match currency with
          | Some c => c
          | None => DOMAIN_CONSTANTS.DEFAULT_CURRENCY
          end)
         now now).

Definition fromProps (props : CartProps.t) : Result t := new props.

Definition cartId (this : t) : CartId.t := CartProps.cartId (props this).
Definition userId (this : t) : string := CartProps.userId (props this).
Definition items (this : t) : list CartItem.t := CartProps.items (props this).
Definition status (this : t) : CartStatus := CartProps.status (props this).
Definition currency (this : t) : Currency := CartProps.currency (props this).
Definition createdAt (this : t) : Date := CartProps.createdAt (props this).
Definition updatedAt (this : t) : Date := CartProps.updatedAt (props this).

Definition total (this : t) : Result Money.t :=
  if length_Z (items this) =? 0 then Money.zero (currency this)
  else
    z <- Money.zero (currency this) ;;
    fold_left (fun (sum : Result Money.t) item =>
                 s <- sum ;;
                 lt <- CartItem.lineTotal item ;;
                 Money.add s lt)
              (items this) (ok z).

Definition itemCount (this : t) : Z :=
  fold_left (fun sum item => sum + Quantity.value (CartItem.quantity item)) (items this) 0.

Definition isEmpty (this : t) : bool := length_Z (items this) =? 0.

Definition isActive (this : t) : bool := CartStatus_eqb (status this) ACTIVE.

Definition ensureActive (this : t) : Result unit :=
  if negb (isActive this) then
    throw (CartNotActiveError (CartId.value (cartId this))
                              (CartStatus_toString (status this)))
  else ok tt.

(** [new Cart({ ...this.props, items: newItems, updatedAt: new Date() })] *)
Definition withUpdatedItems (now : Date) (this : t) (newItems : list CartItem.t) : Result t :=
  new (CartProps.mk (cartId this) (userId this) newItems (status this)
         (currency this) (createdAt this) now).

Definition addItem (now : Date) (this : t) (itemProps : CartItemProps.t) : Result t :=
  ensureActive this ;;;
  if negb (Currency_eqb (Money.currency (CartItemProps.unitPrice itemProps)) (currency this))
  then
    throw (InvalidCartError "Item currency must match cart currency"
             (Some [("cartId", JStr (CartId.value (cartId this)));
                    ("cartCurrency", JStr (Currency_toString (currency this)));
                    ("itemCurrency",
                     JStr (Currency_toString
                             (Money.currency (CartItemProps.unitPrice itemProps))))]))
  else
    newItem <- CartItem.create itemProps ;;
    let existingItemIndex :=
      findIndex (fun item => ProductId.equals (CartItem.productId item)
                                              (CartItem.productId newItem))
                (items this) in
    newItems <-
      (if existingItemIndex >=? 0 then
         match at_index (items this) existingItemIndex with
         | Some existingItem =>
             mergedItem <- CartItem.increaseQuantity existingItem (CartItem.quantity newItem) ;;
             ok (slice_to (items this) existingItemIndex
                   ++ [mergedItem]
                   ++ slice_from (items this) (existingItemIndex + 1))%list
         | None =>
             (* not reached: [findIndex] answers an index of the array *)
             throw (ThrowError "TypeError")
         end
       else if length_Z (items this) >=? DOMAIN_CONSTANTS.MAX_CART_ITEMS then
         throw (MaxCartItemsExceededError DOMAIN_CONSTANTS.MAX_CART_ITEMS)
       else ok (items this ++ [newItem])%list) ;;
    withUpdatedItems now this newItems.

Definition removeItem (now : Date) (this : t) (productId : ProductId.t) : Result t :=
  ensureActive this ;;;
  let itemIndex :=
    findIndex (fun item => ProductId.equals (CartItem.productId item) productId)
              (items this) in
  if itemIndex =? -1 then
    throw (InvalidCartError "Item not found in cart"
             (Some [("cartId", JStr (CartId.value (cartId this)));
                    ("productId", JStr (ProductId.value productId))]))
  else
    let newItems :=
      (slice_to (items this) itemIndex ++ slice_from (items this) (itemIndex + 1))%list in
    withUpdatedItems now this newItems.

Definition updateItemQuantity (now : Date) (this : t) (productId : ProductId.t)
           (newQuantity : Quantity.t) : Result t :=
  ensureActive this ;;;
  let itemIndex :=
    findIndex (fun item => ProductId.equals (CartItem.productId item) productId)
              (items this) in
  if itemIndex =? -1 then
    throw (InvalidCartError "Item not found in cart"
             (Some [("cartId", JStr (CartId.value (cartId this)));
                    ("productId", JStr (ProductId.value productId))]))
  else
    match at_index (items this) itemIndex with
    | Some item =>
        updatedItem <- CartItem.updateQuantity item newQuantity ;;
        let newItems :=
          (slice_to (items this) itemIndex
             ++ [updatedItem]
             ++ slice_from (items this) (itemIndex + 1))%list in
        withUpdatedItems now this newItems
    | None =>
        (* not reached: [findIndex] answers an index of the array *)
        throw (ThrowError "TypeError")
    end.

Definition clearItems (now : Date) (this : t) : Result t :=
  ensureActive this ;;;
  withUpdatedItems now this [].

(** [new Cart({ ...this.props, status: 'ABANDONED', updatedAt: new Date() })] *)
Definition abandon (now : Date) (this : t) : Result t :=
  new (CartProps.mk (cartId this) (userId this) (items this) ABANDONED
         (currency this) (createdAt this) now).

Definition checkout (now : Date) (this : t) : Result t :=
  if isEmpty this then
    throw (InvalidCartError "Cannot checkout empty cart"
             (Some [("cartId", JStr (CartId.value (cartId this)))]))
  else
    new (CartProps.mk (cartId this) (userId this) (items this) CHECKED_OUT
           (currency this) (createdAt this) now).

(** A [Cart] object exists only once its constructor has validated its
    properties; its items are constructed [CartItem] objects. *)
Definition wf (c : t) : bool :=
  is_ok (validate (props c)) && forallb CartItem.wf (items c).

End Cart.

(** ** entities/product.entity.ts *)

Module ProductProps.
Record t : Type := mk {
  productId : ProductId.t;
  name : string;
  description : option string;
  price : Money.t;
  isActive : bool
}.
End ProductProps.

Module Product.

Record t : Type := mk { props : ProductProps.t }.

(** [props.description && props.description.length > 1000]: an absent or
    empty description is falsy. *)
Definition validate (props : ProductProps.t) : Result unit :=
  let name := ProductProps.name props in
  let pid := ProductId.value (ProductProps.productId props) in
  if (strlen name =? 0) || (strlen (trim name) =? 0) then
    throw (InvalidProductError "Product name cannot be empty"
             (Some [("productId", JStr pid)]))
  else if strlen name >? 200 then
    throw (InvalidProductError "Product name cannot exceed 200 characters"
             (Some [("productId", JStr pid); ("name", JStr name)]))
  else if match ProductProps.description props with
          | Some d => negb (strlen d =? 0) && (strlen d >? 1000)
          | None => false
          end then
    throw (InvalidProductError "Product description cannot exceed 1000 characters"
             (Some [("productId", JStr pid)]))
  else if Money.isZero (ProductProps.price props) then
    throw (InvalidProductError "Product price must be greater than zero"
             (Some [("productId", JStr pid);
                    ("price", Money.toJSON (ProductProps.price props))]))
  else ok tt.

(** The private constructor. *)
Definition new (props : ProductProps.t) : Result t :=
  validate props ;;; ok (mk props).

Definition create (props : ProductProps.t) : Result t := new props.

Definition productId (this : t) : ProductId.t := ProductProps.productId (props this).
Definition name (this : t) : string := ProductProps.name (props this).
Definition description (this : t) : option string := ProductProps.description (props this).
Definition price (this : t) : Money.t := ProductProps.price (props this).
Definition isActive (this : t) : bool := ProductProps.isActive (props this).

Definition equals (this other : t) : bool :=
  ProductId.equals (productId this) (productId other).

End Product.

(** ** Specification-side notions *)

(** A string is blank when every character is white space. *)
Definition isBlank (s : string) : bool :=
  forallb isWhiteSpace (list_ascii_of_string s).

(** The aggregate invariant: at most 100 line items, every line item
    priced in the currency of the cart, a user id that is not blank. *)
Definition cart_invariant (c : Cart.t) : Prop :=
  length_Z (Cart.items c) <= 100
  /\ Forall (fun i => Money.currency (CartItem.unitPrice i) = Cart.currency c) (Cart.items c)
  /\ isBlank (Cart.userId c) = false.

(** The carts that the public interface can build: by [create], by
    [fromProps], or as the result of an operation on such a cart. *)
Inductive constructed : Cart.t -> Prop :=
| by_create fresh now userId currency c :
    Cart.create fresh now userId currency = ok c -> constructed c
| by_fromProps props c :
    Cart.fromProps props = ok c -> constructed c
| by_addItem now this itemProps c :
    constructed this -> Cart.addItem now this itemProps = ok c -> constructed c
| by_removeItem now this productId c :
    constructed this -> Cart.removeItem now this productId = ok c -> constructed c
| by_updateItemQuantity now this productId newQuantity c :
    constructed this -> Cart.updateItemQuantity now this productId newQuantity = ok c ->
    constructed c
| by_clearItems now this c :
    constructed this -> Cart.clearItems now this = ok c -> constructed c
| by_abandon now this c :
    constructed this -> Cart.abandon now this = ok c -> constructed c
| by_checkout now this c :
    constructed this -> Cart.checkout now this = ok c -> constructed c.

(** The carts reached from [create] by the operations of the aggregate
    alone (no [fromProps]). *)
Inductive fromCreate : Cart.t -> Prop :=
| fc_create fresh now userId currency c :
    Cart.create fresh now userId currency = ok c -> fromCreate c
| fc_addItem now this itemProps c :
    fromCreate this -> Cart.addItem now this itemProps = ok c -> fromCreate c
| fc_removeItem now this productId c :
    fromCreate this -> Cart.removeItem now this productId = ok c -> fromCreate c
| fc_updateItemQuantity now this productId newQuantity c :
    fromCreate this -> Cart.updateItemQuantity now this productId newQuantity = ok c ->
    fromCreate c
| fc_clearItems now this c :
    fromCreate this -> Cart.clearItems now this = ok c -> fromCreate c
| fc_abandon now this c :
    fromCreate this -> Cart.abandon now this = ok c -> fromCreate c
| fc_checkout now this c :
    fromCreate this -> Cart.checkout now this = ok c -> fromCreate c.

(** The line items of a cart that carry product [p]. *)
Definition hasProduct (p : ProductId.t) (i : CartItem.t) : bool :=
  ProductId.equals (CartItem.productId i) p.

Definition linesFor (p : ProductId.t) (l : list CartItem.t) : list CartItem.t :=
  filter (hasProduct p) l.

(** The line items carry pairwise different products. *)
Fixpoint distinctProducts (l : list CartItem.t) : bool :=
  match l with
  | [] => true
  | i :: r => negb (existsb (hasProduct (CartItem.productId i)) r) && distinctProducts r
  end.

(** Sum of unit price in cents times quantity over the line items. *)
Fixpoint sumCents (l : list CartItem.t) : Z :=
  match l with
  | [] => 0
  | i :: r =>
      Money.amountInCents (CartItem.unitPrice i) * Quantity.value (CartItem.quantity i)
      + sumCents r
  end.

Fixpoint sumQuantities (l : list CartItem.t) : Z :=
  match l with
  | [] => 0
  | i :: r => Quantity.value (CartItem.quantity i) + sumQuantities r
  end.

(** What [CartItem.validate] accepts: a name that is not blank and has at
    most 200 characters, and a unit price that is not zero. *)
Definition acceptableItem (productName : string) (unitPrice : Money.t) : bool :=
  negb (isBlank productName) && (strlen productName <=? 200)
  && negb (Money.isZero unitPrice).

(** ** Sample values *)

Definition sampleUuid : string := "123e4567-e89b-42d3-a456-426614174000".

Definition itemProps (pid name : string) (qty cents : Z) (cur : Currency) : CartItemProps.t :=
  CartItemProps.mk (ProductId.mk pid) name (Quantity.mk qty) (Money.mk cents cur).

Definition cartOf (items : list CartItem.t) (status : CartStatus) (cur : Currency) : Cart.t :=
  Cart.mk (CartProps.mk (CartId.mk sampleUuid) "user-123" items status cur 0 0).

(** The line item [PROD-n]: one unit at 10.00 EUR. *)
Definition numbered (n : nat) : CartItem.t :=
  CartItem.mk (itemProps ("PROD-" ++ Number_toString (Z.of_nat n)) "Product" 1 1000 EUR).

Definition fullCart : Cart.t := cartOf (map numbered (seq 0 100)) ACTIVE EUR.
Definition almostFullCart : Cart.t := cartOf (map numbered (seq 0 99)) ACTIVE EUR.

(** A cart whose only line holds 999 units of [PROD-123]. *)
Definition saturatedCart : Cart.t :=
  cartOf [CartItem.mk (itemProps "PROD-123" "Blue Widget" 999 1999 EUR)] ACTIVE EUR.

(** create(EUR), add(PROD-001, 2, 29.99), add(PROD-002, 1, 15.50), then the
    amount of the total and the item count. *)
Definition basicTotalScenario : Result (number * Z) :=
  c0 <- Cart.create sampleUuid 0 "user-123" (Some EUR) ;;
  p1 <- ProductId.from "PROD-001" ;;
  q1 <- Quantity.from 2 ;;
  m1 <- Money.from 29.99%Q EUR ;;
  c1 <- Cart.addItem 1 c0 (CartItemProps.mk p1 "Blue Widget" q1 m1) ;;
  p2 <- ProductId.from "PROD-002" ;;
  q2 <- Quantity.from 1 ;;
  m2 <- Money.from 15.50%Q EUR ;;
  c2 <- Cart.addItem 2 c1 (CartItemProps.mk p2 "Red Widget" q2 m2) ;;
  t <- Cart.total c2 ;;
  ok (Money.amount t, Cart.itemCount c2).

(** create, add one item, checkout, abandon, checkout again: the statuses
    seen after each of the last three steps. *)
Definition lifecycleScenario : Result (CartStatus * CartStatus * CartStatus) :=
  c0 <- Cart.create sampleUuid 0 "user-123" None ;;
  p <- ProductId.from "PROD-123" ;;
  q <- Quantity.from 2 ;;
  m <- Money.from 19.99%Q EUR ;;
  c1 <- Cart.addItem 1 c0 (CartItemProps.mk p "Blue Widget" q m) ;;
  c2 <- Cart.checkout 2 c1 ;;
  c3 <- Cart.abandon 3 c2 ;;
  c4 <- Cart.checkout 4 c3 ;;
  ok (Cart.status c2, Cart.status c3, Cart.status c4).

(** create(EUR), add(PROD-001, 3 units at 9007199254740991 cents): the
    cents of the line total and of the total, next to the exact sum of
    unit price times quantity over the lines. *)
Definition largeTotalScenario : Result (Z * Z * Z) :=
  c0 <- Cart.create sampleUuid 0 "user-123" (Some EUR) ;;
  p <- ProductId.from "PROD-001" ;;
  q <- Quantity.from 3 ;;
  m <- Money.fromCents 9007199254740991 EUR ;;
  i <- CartItem.create (CartItemProps.mk p "Blue Widget" q m) ;;
  c1 <- Cart.addItem 1 c0 (CartItemProps.mk p "Blue Widget" q m) ;;
  lt <- CartItem.lineTotal i ;;
  t <- Cart.total c1 ;;
  ok (Money.amountInCents lt, Money.amountInCents t, sumCents (Cart.items c1)).

(** The cart that scenario ends with. *)
Definition largeCart : Cart.t :=
  cartOf [CartItem.mk (itemProps "PROD-001" "Blue Widget" 3 9007199254740991 EUR)]
         ACTIVE EUR.

(** ** Helper lemmas *)

Section ResultFacts.
Context {A : Type}.

Lemma is_ok_unit (r : Result unit) : is_ok r = true -> r = ok tt.
Proof. destruct r as [e | []]; simpl; [discriminate | reflexivity]. Qed.

Lemma bind_ok {B : Type} (r : Result A) (k : A -> Result B) (b : B) :
  bind r k = ok b -> exists a, r = ok a /\ k a = ok b.
Proof. destruct r as [e | a]; simpl; [discriminate | eauto]. Qed.
End ResultFacts.

Lemma Currency_eqb_eq (a b : Currency) : Currency_eqb a b = true <-> a = b.
Proof. destruct a, b; simpl; split; congruence. Qed.

Lemma Currency_eqb_refl (a : Currency) : Currency_eqb a a = true.
Proof. destruct a; reflexivity. Qed.

Lemma Currency_eqb_neq (a b : Currency) : Currency_eqb a b = false <-> a <> b.
Proof. destruct a, b; simpl; split; congruence. Qed.

Lemma supported_currency (c : Currency) :
  includes DOMAIN_CONSTANTS.SUPPORTED_CURRENCIES c = true.
Proof. destruct c; reflexivity. Qed.

(** A closed goal settled by evaluating both sides. *)
Ltac by_evaluation :=
  first [ vm_compute; reflexivity
        | apply Z.leb_le; vm_compute; reflexivity
        | apply Z.ltb_lt; vm_compute; reflexivity ].

(** *** Numbers: integers up to [2^53] are computed exactly *)

Lemma Qred_inject_Z (a : Z) : Qred (inject_Z a) = inject_Z a.
Proof.
  unfold Qred, inject_Z. cbn [Qnum Qden].
  pose proof (Z.ggcd_gcd a 1) as Hg.
  pose proof (Z.ggcd_correct_divisors a 1) as Hd.
  destruct (Z.ggcd a 1) as [g [aa bb]]. cbn [fst snd] in *.
  rewrite Z.gcd_1_r in Hg. subst g. destruct Hd as [Ha Hb].
  rewrite Z.mul_1_l in Ha, Hb. subst aa bb. reflexivity.
Qed.

Lemma pow2_nonneg_exp (e : Z) : 0 <= e -> pow2 e = inject_Z (2 ^ e).
Proof. intros H. unfold pow2. apply Z.leb_le in H. rewrite H. reflexivity. Qed.

Lemma pow2_pos (e : Z) : (0 < pow2 e)%Q.
Proof.
  unfold pow2. destruct (0 <=? e) eqn:E.
  - apply Z.leb_le in E. unfold Qlt, inject_Z. cbn. 
    assert (0 < 2 ^ e) by (apply Z.pow_pos_nonneg; lia). lia.
  - unfold Qlt. cbn. lia.
Qed.

Lemma roundHalfEven_int (q : Q) (k : Z) : q == inject_Z k -> roundHalfEven q = k.
Proof.
  intros H. unfold roundHalfEven.
  rewrite (Qfloor_comp _ _ H), Qfloor_Z.
  assert (Hc : ((q - inject_Z k) ?= 1 # 2)%Q = Lt).
  { rewrite <- Qlt_alt. rewrite H. unfold Qlt, Qminus, Qplus, Qopp, inject_Z. cbn. lia. }
  rewrite Hc. reflexivity.
Qed.

Lemma roundQ_int (z : Z) :
  Z.abs z <= 2 ^ 53 -> roundQ (inject_Z z) = Finite (inject_Z z).
Proof.
  intros Hz. unfold roundQ.
  destruct (Z.eq_dec z 0) as [-> | Hnz]; [reflexivity |].
  assert (Hq0 : Qeq_bool (inject_Z z) 0 = false).
  { destruct (Qeq_bool (inject_Z z) 0) eqn:E; [| reflexivity].
    apply Qeq_bool_eq in E. unfold Qeq, inject_Z in E. cbn in E. lia. }
  rewrite Hq0.
  set (a := Z.abs z) in *.
  assert (Ha : 0 < a) by (unfold a; lia).
  pose proof (Z.log2_spec a Ha) as [Hlo Hhi].
  pose proof (Z.log2_nonneg a) as HL.
  set (L := Z.log2 a) in *.
  assert (HL53 : L <= 53).
  { destruct (Z_le_gt_dec L 53) as [H | H]; [exact H |].
    assert (2 ^ 54 <= 2 ^ L) by (apply Z.pow_le_mono_r; lia).
    assert (2 ^ 53 < 2 ^ 54) by (apply Z.pow_lt_mono_r; lia). lia. }
  assert (Habs : Qabs (inject_Z z) = inject_Z a).
  { unfold Qabs, inject_Z. reflexivity. }
  assert (Hlog : ilog2 (inject_Z z) = L).
  { unfold ilog2. cbn [Qnum Qden inject_Z]. fold a. fold L.
    change (Z.log2 1) with 0. rewrite Z.sub_0_r.
    rewrite pow2_nonneg_exp by exact HL. 
    rewrite Habs.
    replace (Qle_bool (inject_Z (2 ^ L)) (inject_Z a)) with true; [reflexivity |].
    symmetry. apply Qle_bool_iff. rewrite <- Zle_Qle. exact Hlo. }
  rewrite Hlog. rewrite Z.max_l by lia.
  rewrite Habs.
  assert (Hk : exists k, (inject_Z a / pow2 (L - 52) == inject_Z k)%Q
                         /\ (inject_Z k * pow2 (L - 52) == inject_Z a)%Q).
  { destruct (Z_le_gt_dec 52 L) as [H | H].
    - rewrite pow2_nonneg_exp by lia.
      assert (HL' : L = 52 \/ L = 53) by lia. destruct HL' as [-> | ->].
      + exists a. change (2 ^ (52 - 52)) with 1. split; field.
      + assert (a = 2 ^ 53) by lia.
        exists (2 ^ 52). rewrite H0. change (2 ^ (53 - 52)) with 2.
        split; [| rewrite <- inject_Z_mult; reflexivity].
        apply Qeq_bool_eq. vm_compute. reflexivity.
    - exists (a * 2 ^ (52 - L)). unfold pow2.
      replace (0 <=? L - 52) with false by (symmetry; apply Z.leb_gt; lia).
      replace (- (L - 52)) with (52 - L) by lia.
      assert (Hp : 0 < 2 ^ (52 - L)) by (apply Z.pow_pos_nonneg; lia).
      split.
      + unfold Qeq, Qdiv, Qmult, Qinv, inject_Z. cbn [Qnum Qden].
        destruct (2 ^ (52 - L)) as [| p | p] eqn:E; try lia.
        cbn. lia.
      + unfold Qeq, Qmult, inject_Z. cbn [Qnum Qden].
        destruct (2 ^ (52 - L)) as [| p | p] eqn:E; try lia.
        cbn. lia. }
  destruct Hk as (k & Hk1 & Hk2).
  rewrite (roundHalfEven_int _ k Hk1).
  rewrite (Qred_complete _ _ Hk2), Qred_inject_Z.
  assert (Hov : Qle_bool (pow2 1024) (inject_Z a) = false).
  { destruct (Qle_bool (pow2 1024) (inject_Z a)) eqn:E; [| reflexivity].
    apply Qle_bool_iff in E. rewrite pow2_nonneg_exp in E by lia.
    rewrite <- Zle_Qle in E.
    assert (2 ^ 53 < 2 ^ 1024) by (apply Z.pow_lt_mono_r; lia). lia. }
  rewrite Hov. cbn [Qnum inject_Z].
  destruct (z <? 0) eqn:E.
  - apply Z.ltb_lt in E. unfold Qopp, inject_Z. cbn [Qnum Qden]. unfold a.
    rewrite Z.abs_neq by lia. rewrite Z.opp_involutive. reflexivity.
  - apply Z.ltb_ge in E. unfold a. rewrite Z.abs_eq by lia. reflexivity.
Qed.

Lemma Qplus_inject_Z (a b : Z) : (inject_Z a + inject_Z b)%Q = inject_Z (a + b).
Proof.
  unfold Qplus, inject_Z. cbn [Qnum Qden]. rewrite !Z.mul_1_r. reflexivity.
Qed.

Lemma Qminus_inject_Z (a b : Z) : (inject_Z a - inject_Z b)%Q = inject_Z (a - b).
Proof.
  unfold Qminus, Qplus, Qopp, inject_Z. cbn [Qnum Qden].
  rewrite !Z.mul_1_r. reflexivity.
Qed.

Lemma Qmult_inject_Z (a b : Z) : (inject_Z a * inject_Z b)%Q = inject_Z (a * b).
Proof. reflexivity. Qed.

Lemma Number_add_Z (a b : Z) :
  Z.abs (a + b) <= 2 ^ 53 -> Number_add a b = Number_of_Z (a + b).
Proof.
  intros H. unfold Number_add, Number_of_Z.
  rewrite Qplus_inject_Z. apply roundQ_int. exact H.
Qed.

Lemma Number_sub_Z (a b : Z) :
  Z.abs (a - b) <= 2 ^ 53 -> Number_sub a b = Number_of_Z (a - b).
Proof.
  intros H. unfold Number_sub, Number_of_Z.
  rewrite Qminus_inject_Z. apply roundQ_int. exact H.
Qed.

Lemma Number_mul_Z (a b : Z) :
  Z.abs (a * b) <= 2 ^ 53 -> Number_mul a b = Number_of_Z (a * b).
Proof.
  intros H. unfold Number_mul, Number_of_Z.
  rewrite Qmult_inject_Z. apply roundQ_int. exact H.
Qed.

Lemma Math_round_Z (z : Z) : Math_round z = Number_of_Z z.
Proof.
  unfold Math_round, Number_of_Z, Qfloor, Qplus, inject_Z; simpl.
  replace (z * 2 + 1) with (1 + z * 2) by lia.
  rewrite Z.div_add by lia. reflexivity.
Qed.

Lemma Number_isInteger_Z (z : Z) : Number_isInteger z = true.
Proof.
  unfold Number_isInteger, Number_of_Z. rewrite Qfloor_Z.
  apply Qeq_bool_iff. reflexivity.
Qed.

Lemma Number_ltb_Z_0 (z : Z) : Number_ltb z 0 = (z <? 0).
Proof.
  unfold Number_ltb, Number_of_Z, Qle_bool, inject_Z. cbn [Qnum Qden].
  rewrite !Z.mul_1_r. rewrite Z.ltb_antisym. reflexivity.
Qed.

Lemma Number_toZ_Z (z : Z) : Number_toZ z = z.
Proof. unfold Number_toZ, Number_of_Z. apply Qfloor_Z. Qed.

Lemma MAX_SAFE_INTEGER_lt : MAX_SAFE_INTEGER < 2 ^ 53.
Proof. reflexivity. Qed.

(** *** Numbers: the error of one rounding

    A rational below [2^E] in absolute value is rounded to a number at
    most [2^(E-54)] away from it, half the spacing of the numbers of that
    binade. *)

Lemma pow2_Qpower (e : Z) : (pow2 e == 2 ^ e)%Q.
Proof.
  unfold pow2. destruct (0 <=? e) eqn:E.
  - apply Z.leb_le in E. rewrite Zpower_Qpower by exact E. reflexivity.
  - apply Z.leb_gt in E.
    assert (Hp : 0 < 2 ^ (- e)) by (apply Z.pow_pos_nonneg; lia).
    assert (He : (2 ^ e == / inject_Z (2 ^ (- e)))%Q).
    { rewrite Zpower_Qpower by lia. rewrite <- Qpower_opp.
      rewrite Z.opp_involutive. reflexivity. }
    rewrite He. destruct (2 ^ (- e)) as [| p | p]; try lia. reflexivity.
Qed.

Lemma pow2_add (a b : Z) : (pow2 (a + b) == pow2 a * pow2 b)%Q.
Proof.
  rewrite !pow2_Qpower. apply Qpower_plus. intros H. discriminate H.
Qed.

Lemma pow2_le (a b : Z) : a <= b -> (pow2 a <= pow2 b)%Q.
Proof.
  intros H. rewrite !pow2_Qpower. apply Qpower_le_compat_l; [exact H |].
  unfold Qle. cbn. lia.
Qed.

Lemma ilog2_le (q : Q) : ~ (q == 0)%Q -> (pow2 (ilog2 q) <= Qabs q)%Q.
Proof.
  intros Hq. unfold ilog2.
  set (n := Z.abs (Qnum q)). set (d := Z.pos (Qden q)).
  destruct (Qle_bool (pow2 (Z.log2 n - Z.log2 d)) (Qabs q)) eqn:E.
  - apply Qle_bool_iff. exact E.
  - assert (Hn : 0 < n).
    { unfold n. destruct q as [qn qd]. unfold Qeq in Hq. cbn in *. lia. }
    assert (Hd : 0 < d) by (unfold d; lia).
    pose proof (Z.log2_spec n Hn) as [Hn1 _].
    pose proof (Z.log2_spec d Hd) as [_ Hd2].
    pose proof (Z.log2_nonneg n) as Hln. pose proof (Z.log2_nonneg d) as Hld.
    replace (Z.log2 n - Z.log2 d - 1) with (Z.log2 n + - (Z.succ (Z.log2 d))) by lia.
    rewrite pow2_add. rewrite (pow2_Qpower (- _)), Qpower_opp, <- pow2_Qpower.
    rewrite !pow2_nonneg_exp by lia.
    set (A := 2 ^ Z.log2 n) in *. set (B := 2 ^ Z.succ (Z.log2 d)) in *.
    assert (HB : 0 < B) by (unfold B; apply Z.pow_pos_nonneg; lia).
    apply Qle_shift_div_r.
    + unfold Qlt. cbn. lia.
    + destruct q as [qn qd]. unfold Qabs, Qle, Qmult, inject_Z. cbn [Qnum Qden].
      rewrite Pos.mul_1_r. change (A * d <= n * B * 1).
      clearbody A B n d. nia.
Qed.

Lemma ilog2_lt (q : Q) (E : Z) :
  ~ (q == 0)%Q -> (Qabs q < pow2 E)%Q -> ilog2 q < E.
Proof.
  intros Hq Hlt. pose proof (ilog2_le q Hq) as Hle.
  destruct (Z_lt_ge_dec (ilog2 q) E) as [H | H]; [exact H |].
  assert (pow2 E <= pow2 (ilog2 q))%Q by (apply pow2_le; lia).
  exfalso. apply (Qlt_irrefl (Qabs q)).
  eapply Qlt_le_trans; [exact Hlt |]. eapply Qle_trans; eassumption.
Qed.

Lemma roundHalfEven_error (y : Q) :
  (Qabs (inject_Z (roundHalfEven y) - y) <= 1 # 2)%Q.
Proof.
  unfold roundHalfEven.
  pose proof (Qfloor_le y) as Hle. pose proof (Qlt_floor y) as Hlt.
  rewrite inject_Z_plus in Hlt. change (inject_Z 1) with 1%Q in Hlt.
  apply Qabs_Qle_condition.
  destruct (Qcompare (y - inject_Z (Qfloor y)) (1 # 2)) eqn:C.
  - apply Qeq_alt in C.
    destruct (Z.even (Qfloor y)); [| rewrite inject_Z_plus; change (inject_Z 1) with 1%Q];
      split; lra.
  - apply Qlt_alt in C. split; lra.
  - apply Qgt_alt in C. rewrite inject_Z_plus. change (inject_Z 1) with 1%Q.
    split; lra.
Qed.

Lemma roundQ_error (q : Q) (E : Z) :
  -1021 <= E <= 1023 ->
  (Qabs q < pow2 E)%Q ->
  exists v, roundQ q = Finite v /\ (Qabs (v - q) <= pow2 (E - 54))%Q.
Proof.
  intros HE Hq. unfold roundQ.
  destruct (Qeq_bool q 0) eqn:Hz.
  - apply Qeq_bool_iff in Hz. exists 0%Q. split; [reflexivity |].
    rewrite Hz. apply Qlt_le_weak, pow2_pos.
  - assert (Hnz : ~ (q == 0)%Q).
    { intros H. apply Qeq_bool_iff in H. congruence. }
    pose proof (ilog2_lt q E Hnz Hq) as Hlog.
    set (e := Z.max (ilog2 q) (-1022)).
    assert (He : e <= E - 1) by (unfold e; lia).
    set (ulp := pow2 (e - 52)).
    assert (Hulp : (0 < ulp)%Q) by apply pow2_pos.
    set (k := roundHalfEven (Qabs q / ulp)).
    pose proof (roundHalfEven_error (Qabs q / ulp)) as Hk. fold k in Hk.
    set (v := Qred (inject_Z k * ulp)).
    assert (Hv : (v == inject_Z k * ulp)%Q) by apply Qred_correct.
    assert (Hhalf : (ulp * (1 # 2) <= pow2 (E - 54))%Q).
    { assert (H1 : (ulp * (1 # 2) == pow2 (e - 53))%Q).
      { unfold ulp. replace (e - 52) with ((e - 53) + 1) by lia.
        rewrite pow2_add. change (pow2 1) with 2%Q. field. }
      rewrite H1. apply pow2_le. lia. }
    assert (Herr : (Qabs (v - Qabs q) <= ulp * (1 # 2))%Q).
    { assert (H1 : (v - Qabs q == (inject_Z k - Qabs q / ulp) * ulp)%Q).
      { rewrite Hv. field. lra. }
      rewrite H1, Qabs_Qmult. rewrite (Qabs_pos ulp) by lra.
      rewrite (Qmult_comm ulp). apply Qmult_le_compat_r; [exact Hk | lra]. }
    assert (Hov : Qle_bool (pow2 1024) v = false).
    { destruct (Qle_bool (pow2 1024) v) eqn:B; [| reflexivity].
      apply Qle_bool_iff in B. exfalso.
      apply Qabs_Qle_condition in Herr.
      assert (H2 : (pow2 (E - 54) <= pow2 1023)%Q) by (apply pow2_le; lia).
      assert (H3 : (pow2 E <= pow2 1023)%Q) by (apply pow2_le; lia).
      assert (H4 : (pow2 1024 == 2 * pow2 1023)%Q).
      { change 1024 with (1 + 1023). rewrite pow2_add. reflexivity. }
      lra. }
    rewrite Hov.
    eexists. split; [reflexivity |].
    eapply Qle_trans; [| exact Hhalf]. eapply Qle_trans; [| exact Herr].
    destruct q as [qn qd]. cbn [Qnum] in *.
    destruct (qn <? 0) eqn:S.
    + apply Z.ltb_lt in S.
      assert (Hneg : (Qabs (qn # qd) == - (qn # qd))%Q).
      { apply Qabs_neg. unfold Qle. cbn. lia. }
      rewrite Hneg.
      assert (H1 : (- v - (qn # qd) == - (v - - (qn # qd)))%Q) by ring.
      rewrite H1, Qabs_opp. apply Qle_refl.
    + apply Z.ltb_ge in S.
      assert (Hpos : (Qabs (qn # qd) == (qn # qd))%Q).
      { apply Qabs_pos. unfold Qle. cbn. lia. }
      rewrite Hpos. apply Qle_refl.
Qed.

Lemma Qfloor_unique (y : Q) (z : Z) :
  (inject_Z z <= y)%Q -> (y < inject_Z z + 1)%Q -> Qfloor y = z.
Proof.
  intros Hle Hlt.
  pose proof (Qfloor_le y) as H1. pose proof (Qlt_floor y) as H2.
  assert (H3 : (inject_Z (Qfloor y) < inject_Z (z + 1))%Q).
  { rewrite inject_Z_plus. change (inject_Z 1) with 1%Q. lra. }
  assert (H4 : (inject_Z z < inject_Z (Qfloor y + 1))%Q) by lra.
  rewrite <- Zlt_Qlt in H3, H4. lia.
Qed.

(** Two error classes never share a code. *)
Lemma classCode_injective (k1 k2 : ErrorKind) :
  classCode k1 = classCode k2 -> k1 = k2.
Proof. destruct k1, k2; simpl; intros H; try reflexivity; discriminate. Qed.

(** *** Money and Quantity constructors *)

Lemma Money_new_ok (z : Z) (c : Currency) :
  0 <= z -> Money.new z c = ok (Money.mk z c).
Proof.
  intros Hz. unfold Money.new, Money.validate.
  rewrite Number_isInteger_Z, Number_ltb_Z_0, Number_toZ_Z.
  destruct (z <? 0) eqn:E; [apply Z.ltb_lt in E; lia |].
  rewrite supported_currency. reflexivity.
Qed.

Lemma Money_new_neg (z : Z) (c : Currency) :
  z < 0 ->
  Money.new z c = throw (InvalidMoneyError (Number_div z 100) (Currency_toString c)).
Proof.
  intros Hz. unfold Money.new, Money.validate.
  rewrite Number_isInteger_Z, Number_ltb_Z_0.
  apply Z.ltb_lt in Hz. rewrite Hz. reflexivity.
Qed.

Lemma Quantity_from_ok (v : Z) :
  1 <= v <= 999 -> Quantity.from v = ok (Quantity.mk v).
Proof.
  intros Hv. unfold Quantity.from, Quantity.new, Quantity.validate.
  unfold DOMAIN_CONSTANTS.MAX_ITEM_QUANTITY.
  destruct (v <=? 0) eqn:E1; [apply Z.leb_le in E1; lia |].
  destruct (v >? 999) eqn:E2; [apply Z.gtb_lt in E2; lia |].
  reflexivity.
Qed.

Lemma Quantity_from_over (v : Z) :
  999 < v -> Quantity.from v = throw (InvalidQuantityError v).
Proof.
  intros Hv. unfold Quantity.from, Quantity.new, Quantity.validate.
  unfold DOMAIN_CONSTANTS.MAX_ITEM_QUANTITY.
  destruct (v <=? 0) eqn:E1; [reflexivity |].
  destruct (v >? 999) eqn:E2; [reflexivity |].
  rewrite Z.gtb_ltb in E2. apply Z.ltb_ge in E2. lia.
Qed.

Lemma Quantity_wf_range (q : Quantity.t) :
  Quantity.wf q = true <-> 1 <= Quantity.value q <= 999.
Proof.
  unfold Quantity.wf, Quantity.validate, Quantity.value,
    DOMAIN_CONSTANTS.MAX_ITEM_QUANTITY.
  destruct (Quantity._value q <=? 0) eqn:E1;
    [apply Z.leb_le in E1 | apply Z.leb_gt in E1].
  - simpl. split; [discriminate | lia].
  - rewrite Z.gtb_ltb.
    destruct (999 <? Quantity._value q) eqn:E2;
      [apply Z.ltb_lt in E2 | apply Z.ltb_ge in E2]; simpl.
    + split; [discriminate | lia].
    + split; [lia | reflexivity].
Qed.

Lemma Money_wf_nonneg (m : Money.t) :
  Money.wf m = true <-> 0 <= Money.amountInCents m.
Proof.
  unfold Money.wf, Money.validate, Money.amountInCents.
  rewrite supported_currency, Number_isInteger_Z, Number_ltb_Z_0.
  destruct (Money._amountInCents m <? 0) eqn:E;
    [apply Z.ltb_lt in E | apply Z.ltb_ge in E]; simpl.
  - split; [discriminate | lia].
  - split; [lia | reflexivity].
Qed.

(** *** [trim] and blank strings *)

Lemma trimStart_nil_iff (l : list ascii) :
  trimStart_chars l = [] <-> forallb isWhiteSpace l = true.
Proof.
  induction l as [| c r IH]; simpl.
  - tauto.
  - destruct (isWhiteSpace c); simpl; [exact IH |].
    split; discriminate.
Qed.

Lemma trimStart_idem (l : list ascii) :
  trimStart_chars (trimStart_chars l) = trimStart_chars l.
Proof.
  induction l as [| c r IH]; simpl; [reflexivity |].
  destruct (isWhiteSpace c) eqn:E; [exact IH |].
  simpl. rewrite E. reflexivity.
Qed.

Lemma forallb_rev {A : Type} (p : A -> bool) (l : list A) :
  forallb p (rev l) = forallb p l.
Proof.
  induction l as [| x r IH]; simpl; [reflexivity |].
  rewrite forallb_app, IH. simpl. rewrite andb_true_r. apply andb_comm.
Qed.

Lemma trim_chars_nil_iff (l : list ascii) :
  trimEnd_chars (trimStart_chars l) = [] <-> forallb isWhiteSpace l = true.
Proof.
  unfold trimEnd_chars.
  rewrite <- trimStart_nil_iff.
  split.
  - intros H. apply (f_equal (@rev ascii)) in H. rewrite rev_involutive in H.
    simpl in H. apply trimStart_nil_iff in H. rewrite forallb_rev in H.
    apply trimStart_nil_iff in H. rewrite trimStart_idem in H. exact H.
  - intros H. rewrite H. reflexivity.
Qed.

Lemma length_string_of_list_ascii (l : list ascii) :
  String.length (string_of_list_ascii l) = List.length l.
Proof. induction l; simpl; congruence. Qed.

Lemma length_list_ascii_of_string (s : string) :
  List.length (list_ascii_of_string s) = String.length s.
Proof. induction s; simpl; congruence. Qed.

(** The guard [!s || s.trim().length === 0] holds exactly on blank
    strings. *)
Lemma blank_guard (s : string) :
  (strlen s =? 0) || (strlen (trim s) =? 0) = isBlank s.
Proof.
  unfold isBlank, strlen, trim.
  rewrite length_string_of_list_ascii, <- length_list_ascii_of_string.
  set (l := list_ascii_of_string s).
  destruct (forallb isWhiteSpace l) eqn:E.
  - apply trim_chars_nil_iff in E. rewrite E. simpl. apply orb_true_r.
  - assert (Hne : trimEnd_chars (trimStart_chars l) <> []).
    { intros H. apply trim_chars_nil_iff in H. congruence. }
    assert (Hl : l <> []) by (intros ->; simpl in E; discriminate).
    destruct l as [| c r]; [congruence |].
    destruct (trimEnd_chars (trimStart_chars (c :: r))) as [| c' r'] eqn:E';
      [congruence |].
    reflexivity.
Qed.

(** *** [findIndex] *)

Section FindIndex.
Context {A : Type} (p : A -> bool).

Lemma findIndex_range (l : list A) :
  findIndex p l = -1 \/ 0 <= findIndex p l < length_Z l.
Proof.
  unfold length_Z.
  induction l as [| x r IH]; simpl List.length; simpl findIndex.
  - left; reflexivity.
  - destruct (p x); [right; lia |].
    destruct IH as [IH | IH].
    + rewrite IH. left; reflexivity.
    + destruct (findIndex p r <? 0) eqn:E; [apply Z.ltb_lt in E; lia |].
      right; lia.
Qed.

Lemma findIndex_absent (l : list A) :
  Forall (fun x => p x = false) l -> findIndex p l = -1.
Proof.
  induction 1 as [| x r Hx _ IH]; simpl; [reflexivity |].
  rewrite Hx, IH. reflexivity.
Qed.

Lemma findIndex_absent_inv (l : list A) :
  findIndex p l = -1 -> Forall (fun x => p x = false) l.
Proof.
  induction l as [| x r IH]; simpl; intros H; [constructor |].
  destruct (p x) eqn:E; [discriminate |].
  destruct (findIndex_range r) as [Hr | Hr].
  - constructor; auto.
  - destruct (findIndex p r <? 0) eqn:E'; [apply Z.ltb_lt in E' |]; lia.
Qed.

Lemma findIndex_first (pre post : list A) (x : A) :
  Forall (fun y => p y = false) pre -> p x = true ->
  findIndex p (pre ++ x :: post) = length_Z pre.
Proof.
  unfold length_Z.
  intros Hpre Hx. induction Hpre as [| y r Hy _ IH]; simpl List.length; simpl findIndex.
  - rewrite Hx. reflexivity.
  - rewrite Hy, IH.
    destruct (Z.of_nat (List.length r) <? 0) eqn:E; [apply Z.ltb_lt in E |]; lia.
Qed.

(** A non-negative answer splits the array at the first match. *)
Lemma findIndex_found (l : list A) :
  0 <= findIndex p l ->
  exists pre x post,
    l = (pre ++ x :: post)%list /\ Forall (fun y => p y = false) pre /\ p x = true
    /\ findIndex p l = length_Z pre.
Proof.
  unfold length_Z.
  induction l as [| y r IH]; simpl findIndex; intros H; [lia |].
  destruct (p y) eqn:E.
  - exists [], y, r. repeat split; auto.
  - destruct (findIndex p r <? 0) eqn:E'; [lia |].
    apply Z.ltb_ge in E'. destruct (IH E') as (pre & x & post & -> & Hpre & Hx & Hi).
    exists (y :: pre), x, post. repeat split; auto.
    simpl List.length. lia.
Qed.

Lemma at_index_middle (pre post : list A) (x : A) :
  at_index (pre ++ x :: post) (length_Z pre) = Some x.
Proof.
  unfold at_index, length_Z.
  destruct (Z.of_nat (List.length pre) <? 0) eqn:E; [apply Z.ltb_lt in E; lia |].
  rewrite Nat2Z.id, nth_error_app2 by lia.
  rewrite Nat.sub_diag. reflexivity.
Qed.

Lemma slice_to_middle (pre post : list A) (x : A) :
  slice_to (pre ++ x :: post) (length_Z pre) = pre.
Proof.
  unfold slice_to, length_Z. rewrite Nat2Z.id.
  rewrite firstn_app, Nat.sub_diag, firstn_all. simpl. apply app_nil_r.
Qed.

Lemma slice_from_middle (pre post : list A) (x : A) :
  slice_from (pre ++ x :: post) (length_Z pre + 1) = post.
Proof.
  unfold slice_from, length_Z.
  replace (Z.to_nat (Z.of_nat (List.length pre) + 1)) with (List.length pre + 1)%nat by lia.
  rewrite skipn_app.
  replace (List.length pre + 1 - List.length pre)%nat with 1%nat by lia.
  rewrite skipn_all2 by lia. reflexivity.
Qed.
End FindIndex.

(** *** Validation of line items and carts *)

Lemma CartItem_validate_ok_iff (p : CartItemProps.t) :
  CartItem.validate p = ok tt
  <-> acceptableItem (CartItemProps.productName p) (CartItemProps.unitPrice p) = true.
Proof.
  unfold CartItem.validate, acceptableItem. rewrite blank_guard.
  destruct (isBlank (CartItemProps.productName p)); simpl; [split; discriminate |].
  rewrite Z.gtb_ltb.
  destruct (200 <? strlen (CartItemProps.productName p)) eqn:E.
  - apply Z.ltb_lt in E.
    destruct (strlen (CartItemProps.productName p) <=? 200) eqn:E';
      [apply Z.leb_le in E'; lia |]. simpl. split; discriminate.
  - apply Z.ltb_ge in E. apply Z.leb_le in E. rewrite E. simpl.
    destruct (Money.isZero (CartItemProps.unitPrice p)); simpl; split;
      (discriminate || reflexivity).
Qed.

Lemma CartItem_create_ok (p : CartItemProps.t) :
  CartItem.validate p = ok tt -> CartItem.create p = ok (CartItem.mk p).
Proof. intros H. unfold CartItem.create, CartItem.new. rewrite H. reflexivity. Qed.

Lemma CartItem_wf_parts (i : CartItem.t) :
  CartItem.wf i = true ->
  CartItem.validate (CartItem.props i) = ok tt
  /\ 0 <= Money.amountInCents (CartItem.unitPrice i)
  /\ 1 <= Quantity.value (CartItem.quantity i) <= 999.
Proof.
  unfold CartItem.wf. rewrite !andb_true_iff. intros [[Hv Hm] Hq].
  repeat split.
  - apply is_ok_unit; exact Hv.
  - apply Money_wf_nonneg in Hm. exact Hm.
  - apply Quantity_wf_range in Hq; lia.
  - apply Quantity_wf_range in Hq; lia.
Qed.

(** Replacing the quantity of a constructed line item always succeeds. *)
Lemma CartItem_updateQuantity_ok (i : CartItem.t) (q : Quantity.t) :
  CartItem.validate (CartItem.props i) = ok tt ->
  CartItem.updateQuantity i q
  = ok (CartItem.mk (CartItemProps.mk (CartItem.productId i) (CartItem.productName i) q
                                      (CartItem.unitPrice i))).
Proof.
  intros H. unfold CartItem.updateQuantity. apply CartItem_create_ok.
  apply CartItem_validate_ok_iff. apply CartItem_validate_ok_iff in H. exact H.
Qed.

Lemma same_currency_filter (cur : Currency) (l : list CartItem.t) :
  filter (fun item => negb (Currency_eqb (Money.currency (CartItem.unitPrice item)) cur)) l = []
  <-> Forall (fun i => Money.currency (CartItem.unitPrice i) = cur) l.
Proof.
  induction l as [| x r IH]; simpl.
  - split; auto.
  - destruct (Currency_eqb (Money.currency (CartItem.unitPrice x)) cur) eqn:E; simpl.
    + apply Currency_eqb_eq in E. rewrite IH. split.
      * intros H; constructor; auto.
      * intros H; inversion H; auto.
    + apply Currency_eqb_neq in E. split; [discriminate |].
      intros H; inversion H; contradiction.
Qed.

Lemma Cart_validate_ok_iff (p : CartProps.t) :
  Cart.validate p = ok tt <-> cart_invariant (Cart.mk p).
Proof.
  unfold Cart.validate, cart_invariant, Cart.items, Cart.currency, Cart.userId.
  cbn [Cart.props]. rewrite blank_guard.
  unfold DOMAIN_CONSTANTS.MAX_CART_ITEMS.
  destruct (isBlank (CartProps.userId p)); simpl.
  { split; [discriminate | intros (_ & _ & H); discriminate]. }
  rewrite Z.gtb_ltb.
  destruct (100 <? length_Z (CartProps.items p)) eqn:E.
  { apply Z.ltb_lt in E. split; [discriminate | intros (H & _); lia]. }
  apply Z.ltb_ge in E.
  rewrite <- same_currency_filter.
  destruct (filter _ (CartProps.items p)) as [| x r] eqn:F.
  - simpl. split; auto.
  - rewrite Z.gtb_ltb.
    replace (0 <? length_Z (x :: r)) with true
      by (symmetry; apply Z.ltb_lt; unfold length_Z; simpl List.length; lia).
    split; [discriminate | intros (_ & H & _); discriminate].
Qed.

Lemma Cart_validate_result (p : CartProps.t) (u : unit) :
  Cart.validate p = ok u -> Cart.validate p = ok tt.
Proof. destruct u; auto. Qed.

Lemma Cart_new_inv (p : CartProps.t) (c : Cart.t) :
  Cart.new p = ok c -> c = Cart.mk p /\ cart_invariant c.
Proof.
  unfold Cart.new. intros H. apply bind_ok in H. destruct H as ([] & Hv & Hc).
  inversion Hc; subst. split; [reflexivity |]. apply Cart_validate_ok_iff; exact Hv.
Qed.

Lemma Cart_new_intro (p : CartProps.t) :
  cart_invariant (Cart.mk p) -> Cart.new p = ok (Cart.mk p).
Proof.
  intros H. apply Cart_validate_ok_iff in H. unfold Cart.new. rewrite H. reflexivity.
Qed.

Lemma Cart_wf_parts (c : Cart.t) :
  Cart.wf c = true ->
  cart_invariant c /\ Forall (fun i => CartItem.wf i = true) (Cart.items c).
Proof.
  unfold Cart.wf. rewrite andb_true_iff. intros [Hv Hi]. split.
  - apply is_ok_unit in Hv. apply Cart_validate_ok_iff in Hv. destruct c; exact Hv.
  - apply Forall_forall. apply forallb_forall. exact Hi.
Qed.

Lemma ensureActive_ok (c : Cart.t) :
  Cart.isActive c = true -> Cart.ensureActive c = ok tt.
Proof. intros H. unfold Cart.ensureActive. rewrite H. reflexivity. Qed.

Lemma ensureActive_inactive (c : Cart.t) :
  Cart.status c <> ACTIVE ->
  Cart.ensureActive c
  = throw (CartNotActiveError (CartId.value (Cart.cartId c))
                              (CartStatus_toString (Cart.status c))).
Proof.
  intros H. unfold Cart.ensureActive, Cart.isActive.
  destruct (Cart.status c); simpl; congruence.
Qed.

(** * Properties *)

(** ** Money *)

(** C10. [Money.equals] is a total boolean function of two [Money] values:
    it never throws, whatever the currencies, and it answers [true] exactly
    when both the amounts in cents and the currencies are equal. *)
Theorem Money_equals_iff (a b : Money.t) :
  Money.equals a b = true
  <-> Money.amountInCents a = Money.amountInCents b /\ Money.currency a = Money.currency b.
Proof.
  unfold Money.equals, Money.amountInCents, Money.currency.
  rewrite andb_true_iff, Z.eqb_eq, Currency_eqb_eq. tauto.
Qed.

Lemma ensureSameCurrency_mismatch (a b : Money.t) :
  Money.currency a <> Money.currency b ->
  Money.ensureSameCurrency a b
  = throw (ThrowError ("Cannot operate on different currencies: "
                         ++ Currency_toString (Money.currency a) ++ " and "
                         ++ Currency_toString (Money.currency b))).
Proof.
  intros H. unfold Money.ensureSameCurrency, Money.currency in *.
  apply Currency_eqb_neq in H. rewrite H. reflexivity.
Qed.

(** C6, as the code has it.  For two [Money] values of different
    currencies, [add], [subtract], [isGreaterThan] and [isLessThan] all
    throw the same plain [Error] with the message
    "Cannot operate on different currencies: A and B"; it is not a domain
    error of any of the ten classes, so it has neither a code nor a
    context. *)
Theorem Money_mismatch_throws_plain_error (a b : Money.t) :
  Money.currency a <> Money.currency b ->
  exists msg,
    msg = "Cannot operate on different currencies: "
            ++ Currency_toString (Money.currency a) ++ " and "
            ++ Currency_toString (Money.currency b)
    /\ Money.add a b = throw (ThrowError msg)
    /\ Money.subtract a b = throw (ThrowError msg)
    /\ Money.isGreaterThan a b = throw (ThrowError msg)
    /\ Money.isLessThan a b = throw (ThrowError msg)
    /\ thrown_code (ThrowError msg) = None
    /\ thrown_context (ThrowError msg) = None
    /\ (forall k ctx, ThrowError msg <> domainError k msg ctx).
Proof.
  intros H. eexists. split; [reflexivity |].
  unfold Money.add, Money.subtract, Money.isGreaterThan, Money.isLessThan.
  rewrite (ensureSameCurrency_mismatch a b H). simpl.
  repeat split. intros k ctx. discriminate.
Qed.

Lemma Money_mismatch_throws_plain_error_witness :
  Money.currency (Money.mk 1000 EUR) <> Money.currency (Money.mk 500 USD)
  /\ Money.add (Money.mk 1000 EUR) (Money.mk 500 USD)
     = throw (ThrowError "Cannot operate on different currencies: EUR and USD").
Proof.
  split; [simpl; discriminate |].
  destruct (Money_mismatch_throws_plain_error (Money.mk 1000 EUR) (Money.mk 500 USD))
    as (msg & Hmsg & Hadd & _); [simpl; discriminate |].
  rewrite Hadd, Hmsg. reflexivity.
Defined.

(** C6, as stated, fails: adding 5.00 USD to 10.00 EUR (and likewise
    subtracting or comparing them) throws something that is not a domain
    error, hence carries no machine-readable code. *)
Lemma Money_mismatch_not_domain_error :
  Money.currency (Money.mk 1000 EUR) <> Money.currency (Money.mk 500 USD)
  /\ (forall e, Money.add (Money.mk 1000 EUR) (Money.mk 500 USD) <> throw (ThrowDomain e))
  /\ (forall e, Money.subtract (Money.mk 1000 EUR) (Money.mk 500 USD) <> throw (ThrowDomain e))
  /\ (forall e, Money.isGreaterThan (Money.mk 1000 EUR) (Money.mk 500 USD)
                <> throw (ThrowDomain e))
  /\ (forall e, Money.isLessThan (Money.mk 1000 EUR) (Money.mk 500 USD)
                <> throw (ThrowDomain e))
  /\ (forall t, Money.add (Money.mk 1000 EUR) (Money.mk 500 USD) = throw t ->
                thrown_code t = None).
Proof.
  repeat split; try (simpl; discriminate); try (intros e; vm_compute; discriminate).
  intros t. vm_compute. intros H. inversion H. reflexivity.
Qed.

(** ** Cart: status gating and lifecycle *)

(** C2. On a cart whose status is not ACTIVE, [addItem], [removeItem],
    [updateItemQuantity] and [clearItems] all throw [CartNotActiveError]
    (code CART_NOT_ACTIVE, context: the cart id and the status), whatever
    their arguments.  Nothing is returned, and the receiver, an immutable
    value, is what it was. *)
Theorem inactive_cart_rejects_item_mutators
        (now : Date) (c : Cart.t) (itemProps : CartItemProps.t)
        (productId : ProductId.t) (newQuantity : Quantity.t) :
  Cart.status c <> ACTIVE ->
  exists e,
    e = CartNotActiveError (CartId.value (Cart.cartId c)) (CartStatus_toString (Cart.status c))
    /\ thrown_code e = Some "CART_NOT_ACTIVE"
    /\ Cart.addItem now c itemProps = throw e
    /\ Cart.removeItem now c productId = throw e
    /\ Cart.updateItemQuantity now c productId newQuantity = throw e
    /\ Cart.clearItems now c = throw e.
Proof.
  intros H. eexists. split; [reflexivity |].
  unfold Cart.addItem, Cart.removeItem, Cart.updateItemQuantity, Cart.clearItems.
  rewrite (ensureActive_inactive c H). simpl. repeat split.
Qed.

Lemma inactive_cart_rejects_item_mutators_witness :
  Cart.status (cartOf [] ABANDONED EUR) <> ACTIVE
  /\ Cart.clearItems 7 (cartOf [] ABANDONED EUR)
     = throw (CartNotActiveError sampleUuid "ABANDONED").
Proof.
  split; [simpl; discriminate |].
  destruct (inactive_cart_rejects_item_mutators 7 (cartOf [] ABANDONED EUR)
              (itemProps "PROD-123" "Blue Widget" 2 1999 EUR)
              (ProductId.mk "PROD-123") (Quantity.mk 5))
    as (e & He & _ & _ & _ & _ & Hclear); [simpl; discriminate |].
  rewrite Hclear, He. reflexivity.
Defined.

(** Changing only the status and the timestamp of a constructed cart
    passes validation again. *)
Lemma restamp_ok (c : Cart.t) (s : CartStatus) (now : Date) :
  cart_invariant c ->
  Cart.new (CartProps.mk (Cart.cartId c) (Cart.userId c) (Cart.items c) s
              (Cart.currency c) (Cart.createdAt c) now)
  = ok (Cart.mk (CartProps.mk (Cart.cartId c) (Cart.userId c) (Cart.items c) s
                   (Cart.currency c) (Cart.createdAt c) now)).
Proof. intros H. apply Cart_new_intro. exact H. Qed.

(** C7. [checkout] on a cart without items throws [InvalidCartError] with
    the message "Cannot checkout empty cart"; on a cart with at least one
    item it returns a cart whose status is CHECKED_OUT, with the same
    items. *)
Theorem checkout_guard (now : Date) (c : Cart.t) :
  Cart.wf c = true ->
  (Cart.items c = [] ->
   Cart.checkout now c
   = throw (InvalidCartError "Cannot checkout empty cart"
              (Some [("cartId", JStr (CartId.value (Cart.cartId c)))])))
  /\ (Cart.items c <> [] ->
      exists c', Cart.checkout now c = ok c'
                 /\ Cart.status c' = CHECKED_OUT
                 /\ Cart.items c' = Cart.items c).
Proof.
  intros Hwf. apply Cart_wf_parts in Hwf. destruct Hwf as [Hinv _].
  unfold Cart.checkout, Cart.isEmpty. split; intros H.
  - rewrite H. reflexivity.
  - destruct (Cart.items c) as [| x r] eqn:E; [congruence |].
    replace (length_Z (x :: r) =? 0) with false
      by (symmetry; apply Z.eqb_neq; unfold length_Z; simpl List.length; lia).
    rewrite <- E. rewrite (restamp_ok c CHECKED_OUT now Hinv).
    eexists. split; [reflexivity |]. split; reflexivity.
Qed.

Lemma checkout_guard_witness :
  Cart.wf saturatedCart = true
  /\ exists c', Cart.checkout 9 saturatedCart = ok c' /\ Cart.status c' = CHECKED_OUT.
Proof.
  split; [reflexivity |].
  destruct (checkout_guard 9 saturatedCart) as [_ H]; [reflexivity |].
  destruct H as (c' & Hc & Hs & _); [simpl; discriminate |].
  exists c'. split; assumption.
Defined.

(** C1, on the code.  [abandon] and [checkout] do not look at the status
    of the receiver: a cart built by [create] and [addItem] and then
    checked out is turned into an ABANDONED cart by [abandon], and that
    cart into a CHECKED_OUT cart by [checkout]. *)
Theorem terminal_status_is_left :
  lifecycleScenario = ok (CHECKED_OUT, ABANDONED, CHECKED_OUT).
Proof. vm_compute. reflexivity. Qed.

(** [abandon] succeeds on every constructed cart, whatever its status. *)
Lemma abandon_any_status (now : Date) (c : Cart.t) :
  Cart.wf c = true ->
  exists c', Cart.abandon now c = ok c' /\ Cart.status c' = ABANDONED.
Proof.
  intros Hwf. apply Cart_wf_parts in Hwf. destruct Hwf as [Hinv _].
  unfold Cart.abandon. rewrite (restamp_ok c ABANDONED now Hinv).
  eexists. split; reflexivity.
Qed.

(** ** Cart: the aggregate invariant *)

Lemma withUpdatedItems_inv (now : Date) (this : Cart.t) (l : list CartItem.t) (c : Cart.t) :
  Cart.withUpdatedItems now this l = ok c -> cart_invariant c.
Proof. intros H. apply Cart_new_inv in H. tauto. Qed.

Lemma addItem_inv (now : Date) (this : Cart.t) (ip : CartItemProps.t) (c : Cart.t) :
  Cart.addItem now this ip = ok c -> cart_invariant c.
Proof.
  unfold Cart.addItem. intros H.
  apply bind_ok in H. destruct H as (_ & _ & H).
  destruct (negb _); [discriminate |].
  apply bind_ok in H. destruct H as (newItem & _ & H).
  apply bind_ok in H. destruct H as (newItems & _ & H).
  eapply withUpdatedItems_inv; eauto.
Qed.

Lemma removeItem_inv (now : Date) (this : Cart.t) (p : ProductId.t) (c : Cart.t) :
  Cart.removeItem now this p = ok c -> cart_invariant c.
Proof.
  unfold Cart.removeItem. intros H.
  apply bind_ok in H. destruct H as (_ & _ & H).
  destruct (_ =? -1); [discriminate |].
  eapply withUpdatedItems_inv; eauto.
Qed.

Lemma updateItemQuantity_inv (now : Date) (this : Cart.t) (p : ProductId.t)
      (q : Quantity.t) (c : Cart.t) :
  Cart.updateItemQuantity now this p q = ok c -> cart_invariant c.
Proof.
  unfold Cart.updateItemQuantity. intros H.
  apply bind_ok in H. destruct H as (_ & _ & H).
  destruct (_ =? -1); [discriminate |].
  destruct (at_index _ _); [| discriminate].
  apply bind_ok in H. destruct H as (updated & _ & H).
  eapply withUpdatedItems_inv; eauto.
Qed.

Lemma clearItems_inv (now : Date) (this c : Cart.t) :
  Cart.clearItems now this = ok c -> cart_invariant c.
Proof.
  unfold Cart.clearItems. intros H.
  apply bind_ok in H. destruct H as (_ & _ & H).
  eapply withUpdatedItems_inv; eauto.
Qed.

Lemma checkout_inv (now : Date) (this c : Cart.t) :
  Cart.checkout now this = ok c -> cart_invariant c.
Proof.
  unfold Cart.checkout. intros H.
  destruct (Cart.isEmpty this); [discriminate |].
  apply Cart_new_inv in H. tauto.
Qed.

(** C5. Every cart built by [create] or [fromProps], or returned by
    [addItem], [removeItem], [updateItemQuantity], [clearItems], [abandon]
    or [checkout], satisfies the aggregate invariant: at most 100 line
    items, every unit price in the currency of the cart, a user id that is
    not blank. *)
Theorem constructed_cart_invariant (c : Cart.t) :
  constructed c -> cart_invariant c.
Proof.
  intros H. destruct H as
    [fresh now uid cur c H | p c H | now this ip c _ H | now this p c _ H
    | now this p q c _ H | now this c _ H | now this c _ H | now this c _ H].
  - apply Cart_new_inv in H; tauto.
  - apply Cart_new_inv in H; tauto.
  - eapply addItem_inv; eauto.
  - eapply removeItem_inv; eauto.
  - eapply updateItemQuantity_inv; eauto.
  - eapply clearItems_inv; eauto.
  - apply Cart_new_inv in H; tauto.
  - eapply checkout_inv; eauto.
Qed.

Lemma constructed_cart_invariant_witness :
  constructed (cartOf [] ACTIVE EUR) /\ cart_invariant (cartOf [] ACTIVE EUR).
Proof.
  assert (H : constructed (cartOf [] ACTIVE EUR)).
  { apply (by_create sampleUuid 0 "user-123" (Some EUR)). reflexivity. }
  split; [exact H |].
  apply (constructed_cart_invariant (cartOf [] ACTIVE EUR) H).
Defined.

(** ** Cart: adding items *)

Lemma existsb_false_Forall {A : Type} (p : A -> bool) (l : list A) :
  existsb p l = false <-> Forall (fun x => p x = false) l.
Proof.
  induction l as [| x r IH]; simpl.
  - split; auto.
  - rewrite orb_false_iff, IH. split.
    + intros [Hx Hr]; constructor; auto.
    + intros H; inversion H; auto.
Qed.

Lemma linesFor_absent (p : ProductId.t) (l : list CartItem.t) :
  existsb (hasProduct p) l = false -> linesFor p l = [].
Proof.
  unfold linesFor. induction l as [| x r IH]; simpl; [reflexivity |].
  rewrite orb_false_iff. intros [Hx Hr]. rewrite Hx. auto.
Qed.

Lemma linesFor_first (p : ProductId.t) (pre post : list CartItem.t) (x : CartItem.t) :
  existsb (hasProduct p) pre = false -> hasProduct p x = true ->
  linesFor p (pre ++ x :: post) = x :: linesFor p post.
Proof.
  intros Hpre Hx. unfold linesFor. rewrite filter_app.
  fold (linesFor p pre). rewrite (linesFor_absent p pre Hpre). simpl.
  rewrite Hx. reflexivity.
Qed.

(** Up to the search for the product, [addItem] on an active cart with an
    acceptable item in the currency of the cart. *)
Lemma addItem_checks_pass (now : Date) (c : Cart.t) (ip : CartItemProps.t) :
  Cart.isActive c = true ->
  Money.currency (CartItemProps.unitPrice ip) = Cart.currency c ->
  acceptableItem (CartItemProps.productName ip) (CartItemProps.unitPrice ip) = true ->
  Cart.addItem now c ip
  = (let existingItemIndex := findIndex (hasProduct (CartItemProps.productId ip)) (Cart.items c) in
     newItems <-
       (if existingItemIndex >=? 0 then
          match at_index (Cart.items c) existingItemIndex with
          | Some existingItem =>
              mergedItem <- CartItem.increaseQuantity existingItem (CartItemProps.quantity ip) ;;
              ok (slice_to (Cart.items c) existingItemIndex
                    ++ [mergedItem]
                    ++ slice_from (Cart.items c) (existingItemIndex + 1))%list
          | None => throw (ThrowError "TypeError")
          end
        else if length_Z (Cart.items c) >=? DOMAIN_CONSTANTS.MAX_CART_ITEMS then
          throw (MaxCartItemsExceededError DOMAIN_CONSTANTS.MAX_CART_ITEMS)
        else ok (Cart.items c ++ [CartItem.mk ip])%list) ;;
     Cart.withUpdatedItems now c newItems).
Proof.
  intros Hact Hcur Hacc. unfold Cart.addItem.
  rewrite (ensureActive_ok c Hact). cbn [bind].
  rewrite Hcur, Currency_eqb_refl. cbn [negb].
  apply CartItem_validate_ok_iff in Hacc.
  rewrite (CartItem_create_ok ip Hacc). reflexivity.
Qed.

Lemma addItem_merge_path (now : Date) (c : Cart.t) (ip : CartItemProps.t)
      (pre post : list CartItem.t) (existing : CartItem.t) :
  Cart.isActive c = true ->
  Money.currency (CartItemProps.unitPrice ip) = Cart.currency c ->
  acceptableItem (CartItemProps.productName ip) (CartItemProps.unitPrice ip) = true ->
  Cart.items c = (pre ++ existing :: post)%list ->
  existsb (hasProduct (CartItemProps.productId ip)) pre = false ->
  hasProduct (CartItemProps.productId ip) existing = true ->
  Cart.addItem now c ip
  = (mergedItem <- CartItem.increaseQuantity existing (CartItemProps.quantity ip) ;;
     Cart.withUpdatedItems now c (pre ++ mergedItem :: post)%list).
Proof.
  intros Hact Hcur Hacc Hitems Hpre Hex.
  rewrite (addItem_checks_pass now c ip Hact Hcur Hacc). cbv zeta.
  rewrite Hitems.
  apply existsb_false_Forall in Hpre.
  rewrite (findIndex_first _ pre post existing Hpre Hex).
  replace (length_Z pre >=? 0) with true
    by (symmetry; rewrite Z.geb_leb; apply Z.leb_le; unfold length_Z; lia).
  rewrite at_index_middle, slice_to_middle, slice_from_middle.
  destruct (CartItem.increaseQuantity existing (CartItemProps.quantity ip)); reflexivity.
Qed.

Lemma addItem_append_path (now : Date) (c : Cart.t) (ip : CartItemProps.t) :
  Cart.isActive c = true ->
  Money.currency (CartItemProps.unitPrice ip) = Cart.currency c ->
  acceptableItem (CartItemProps.productName ip) (CartItemProps.unitPrice ip) = true ->
  existsb (hasProduct (CartItemProps.productId ip)) (Cart.items c) = false ->
  Cart.addItem now c ip
  = if length_Z (Cart.items c) >=? 100 then throw (MaxCartItemsExceededError 100)
    else Cart.withUpdatedItems now c (Cart.items c ++ [CartItem.mk ip])%list.
Proof.
  intros Hact Hcur Hacc Habs.
  rewrite (addItem_checks_pass now c ip Hact Hcur Hacc). cbv zeta.
  apply existsb_false_Forall in Habs.
  rewrite (findIndex_absent _ _ Habs).
  replace (-1 >=? 0) with false by reflexivity.
  unfold DOMAIN_CONSTANTS.MAX_CART_ITEMS.
  destruct (length_Z (Cart.items c) >=? 100); reflexivity.
Qed.

Lemma withUpdatedItems_ok (now : Date) (c : Cart.t) (l : list CartItem.t) :
  cart_invariant c ->
  length_Z l <= 100 ->
  Forall (fun i => Money.currency (CartItem.unitPrice i) = Cart.currency c) l ->
  Cart.withUpdatedItems now c l
  = ok (Cart.mk (CartProps.mk (Cart.cartId c) (Cart.userId c) l (Cart.status c)
                   (Cart.currency c) (Cart.createdAt c) now)).
Proof.
  intros (_ & _ & Hu) Hlen Hcur. unfold Cart.withUpdatedItems.
  apply Cart_new_intro. repeat split; assumption.
Qed.

(** C3, as the code has it.  Take an ACTIVE cart whose first line item for
    product P is [existing] (quantity q1, name n1, price p1) and call
    [addItem] for P with quantity q2, a name n2 that is not blank and has at
    most 200 characters, and a non-zero price p2 in the currency of the
    cart.  If q1 + q2 <= 999 the call returns a cart in which that line is
    replaced, at the same position, by a line for P with quantity q1 + q2
    and still the name n1 and the price p1; every other line is the same,
    so [items.length] and the number of lines for P are unchanged (exactly
    one line for P when the cart had exactly one). *)
Theorem addItem_merges_into_existing_line
        (now : Date) (c : Cart.t) (ip : CartItemProps.t)
        (pre post : list CartItem.t) (existing : CartItem.t) :
  Cart.wf c = true ->
  Cart.isActive c = true ->
  Quantity.wf (CartItemProps.quantity ip) = true ->
  Money.currency (CartItemProps.unitPrice ip) = Cart.currency c ->
  acceptableItem (CartItemProps.productName ip) (CartItemProps.unitPrice ip) = true ->
  Cart.items c = (pre ++ existing :: post)%list ->
  existsb (hasProduct (CartItemProps.productId ip)) pre = false ->
  hasProduct (CartItemProps.productId ip) existing = true ->
  Quantity.value (CartItem.quantity existing) + Quantity.value (CartItemProps.quantity ip)
    <= 999 ->
  exists c' merged,
    Cart.addItem now c ip = ok c'
    /\ Cart.items c' = (pre ++ merged :: post)%list
    /\ CartItem.productId merged = CartItem.productId existing
    /\ Quantity.value (CartItem.quantity merged)
       = Quantity.value (CartItem.quantity existing)
         + Quantity.value (CartItemProps.quantity ip)
    /\ CartItem.productName merged = CartItem.productName existing
    /\ CartItem.unitPrice merged = CartItem.unitPrice existing
    /\ linesFor (CartItemProps.productId ip) (Cart.items c)
       = existing :: linesFor (CartItemProps.productId ip) post
    /\ linesFor (CartItemProps.productId ip) (Cart.items c')
       = merged :: linesFor (CartItemProps.productId ip) post
    /\ length_Z (Cart.items c') = length_Z (Cart.items c).
Proof.
  intros Hwf Hact Hq2 Hcur Hacc Hitems Hpre Hex Hsum.
  apply Cart_wf_parts in Hwf. destruct Hwf as [Hinv Hall].
  rewrite Hitems in Hall. apply Forall_app in Hall. destruct Hall as [_ Hall].
  inversion Hall as [| ? ? Hexwf _]; subst.
  apply CartItem_wf_parts in Hexwf. destruct Hexwf as (Hval & _ & Hq1).
  apply Quantity_wf_range in Hq2.
  rewrite (addItem_merge_path now c ip pre post existing Hact Hcur Hacc Hitems Hpre Hex).
  unfold CartItem.increaseQuantity, Quantity.add.
  fold (Quantity.value (CartItem.quantity existing)).
  fold (Quantity.value (CartItemProps.quantity ip)).
  rewrite Quantity_from_ok by lia. cbn [bind ok].
  rewrite (CartItem_updateQuantity_ok existing _ Hval). cbn [bind ok].
  set (merged := CartItem.mk _).
  assert (Hm : hasProduct (CartItemProps.productId ip) merged = true) by exact Hex.
  destruct Hinv as (Hlen & Hsame & Hu).
  assert (Hlen' : length_Z (pre ++ merged :: post) = length_Z (Cart.items c)).
  { rewrite Hitems. unfold length_Z. rewrite !length_app. reflexivity. }
  rewrite withUpdatedItems_ok.
  - eexists. exists merged. split; [reflexivity |].
    unfold Cart.items at 1 3. cbn [Cart.props CartProps.items].
    repeat split; try reflexivity.
    + rewrite Hitems. apply linesFor_first; assumption.
    + apply linesFor_first; assumption.
    + exact Hlen'.
  - repeat split; assumption.
  - lia.
  - rewrite Hitems in Hsame. apply Forall_app in Hsame. destruct Hsame as [Hs1 Hs2].
    apply Forall_app. split; [exact Hs1 |].
    inversion Hs2; subst. constructor; assumption.
Qed.

Lemma addItem_merges_into_existing_line_witness :
  exists c',
    Cart.addItem 3 (cartOf [CartItem.mk (itemProps "PROD-001" "Blue Widget" 2 2999 EUR)] ACTIVE EUR)
                 (itemProps "PROD-001" "Green Widget" 3 3500 EUR) = ok c'
    /\ Cart.items c' = [CartItem.mk (itemProps "PROD-001" "Blue Widget" 5 2999 EUR)].
Proof.
  destruct (addItem_merges_into_existing_line 3
              (cartOf [CartItem.mk (itemProps "PROD-001" "Blue Widget" 2 2999 EUR)] ACTIVE EUR)
              (itemProps "PROD-001" "Green Widget" 3 3500 EUR)
              [] [] (CartItem.mk (itemProps "PROD-001" "Blue Widget" 2 2999 EUR)))
    as (c' & merged & Hadd & Hitems & Hp & Hq & Hn & Hu & _);
    try reflexivity; [simpl; lia |].
  exists c'. split; [exact Hadd |].
  rewrite Hitems. simpl.
  destruct merged as [[mp mn [mq] mu]].
  unfold CartItem.productId, CartItem.productName, CartItem.unitPrice, CartItem.quantity,
    Quantity.value in *; simpl in *.
  subst. reflexivity.
Defined.

(** C3, as stated, fails: on a cart holding 999 units of PROD-123, adding
    one more unit of PROD-123 at a non-zero EUR price yields no cart; the
    call throws [InvalidQuantityError]. *)
Lemma addItem_merge_can_fail :
  Cart.wf saturatedCart = true
  /\ Cart.isActive saturatedCart = true
  /\ linesFor (ProductId.mk "PROD-123") (Cart.items saturatedCart)
     = [CartItem.mk (itemProps "PROD-123" "Blue Widget" 999 1999 EUR)]
  /\ Money.currency (CartItemProps.unitPrice (itemProps "PROD-123" "Blue Widget" 1 1999 EUR))
     = Cart.currency saturatedCart
  /\ Cart.addItem 1 saturatedCart (itemProps "PROD-123" "Blue Widget" 1 1999 EUR)
     = throw (InvalidQuantityError 1000)
  /\ (forall c', Cart.addItem 1 saturatedCart (itemProps "PROD-123" "Blue Widget" 1 1999 EUR)
                 <> ok c').
Proof.
  repeat split; try reflexivity.
  intros c'. vm_compute. discriminate.
Qed.

(** C9, as the code has it.  On an ACTIVE cart whose first line item for
    product P has quantity q1, [addItem] for P with quantity q2, a name
    that is not blank and has at most 200 characters and a non-zero price
    in the currency of the cart throws [InvalidQuantityError] (code
    INVALID_QUANTITY, not MAX_CART_ITEMS_EXCEEDED) for the merged quantity
    whenever q1 + q2 > 999.  No cart is returned. *)
Theorem addItem_merge_over_cap
        (now : Date) (c : Cart.t) (ip : CartItemProps.t)
        (pre post : list CartItem.t) (existing : CartItem.t) :
  Cart.isActive c = true ->
  Money.currency (CartItemProps.unitPrice ip) = Cart.currency c ->
  acceptableItem (CartItemProps.productName ip) (CartItemProps.unitPrice ip) = true ->
  Cart.items c = (pre ++ existing :: post)%list ->
  existsb (hasProduct (CartItemProps.productId ip)) pre = false ->
  hasProduct (CartItemProps.productId ip) existing = true ->
  Quantity.value (CartItem.quantity existing) + Quantity.value (CartItemProps.quantity ip)
    > 999 ->
  Cart.addItem now c ip
  = throw (InvalidQuantityError
             (Quantity.value (CartItem.quantity existing)
              + Quantity.value (CartItemProps.quantity ip)))
  /\ thrown_code (InvalidQuantityError
                    (Quantity.value (CartItem.quantity existing)
                     + Quantity.value (CartItemProps.quantity ip)))
     = Some "INVALID_QUANTITY".
Proof.
  intros Hact Hcur Hacc Hitems Hpre Hex Hsum.
  split; [| reflexivity].
  rewrite (addItem_merge_path now c ip pre post existing Hact Hcur Hacc Hitems Hpre Hex).
  unfold CartItem.increaseQuantity, Quantity.add.
  fold (Quantity.value (CartItem.quantity existing)).
  fold (Quantity.value (CartItemProps.quantity ip)).
  rewrite Quantity_from_over by lia. reflexivity.
Qed.

Lemma addItem_merge_over_cap_witness :
  Cart.addItem 1 saturatedCart (itemProps "PROD-123" "Blue Widget" 1 1999 EUR)
  = throw (InvalidQuantityError 1000).
Proof.
  apply (addItem_merge_over_cap 1 saturatedCart
           (itemProps "PROD-123" "Blue Widget" 1 1999 EUR) [] []
           (CartItem.mk (itemProps "PROD-123" "Blue Widget" 999 1999 EUR)));
    try reflexivity.
Defined.

(** C9, as stated, fails: on an EUR cart holding 999 units of PROD-123,
    [addItem] for PROD-123 with quantity 1 and a price in USD throws
    [InvalidCartError] (currency mismatch), not [InvalidQuantityError]: the
    currency of the price is checked before the quantities are merged. *)
Lemma addItem_over_cap_other_error :
  Cart.isActive saturatedCart = true
  /\ linesFor (ProductId.mk "PROD-123") (Cart.items saturatedCart)
     = [CartItem.mk (itemProps "PROD-123" "Blue Widget" 999 1999 EUR)]
  /\ 999 + Quantity.value (CartItemProps.quantity (itemProps "PROD-123" "Blue Widget" 1 1999 USD))
     > 999
  /\ Cart.addItem 1 saturatedCart (itemProps "PROD-123" "Blue Widget" 1 1999 USD)
     = throw (InvalidCartError "Item currency must match cart currency"
                (Some [("cartId", JStr sampleUuid); ("cartCurrency", JStr "EUR");
                       ("itemCurrency", JStr "USD")]))
  /\ Cart.addItem 1 saturatedCart (itemProps "PROD-123" "Blue Widget" 1 1999 USD)
     <> throw (InvalidQuantityError 1000).
Proof.
  repeat split; try reflexivity.
  vm_compute. discriminate.
Qed.

(** C4, as the code has it.  On an ACTIVE cart, [addItem] for a product
    that is not in the cart, with a name that is not blank and has at most
    200 characters and a non-zero price in the currency of the cart, throws
    [MaxCartItemsExceededError] when the cart holds 100 line items, and
    appends the new line, giving a cart of 100 line items, when it holds
    99. *)
Theorem addItem_item_limit (now : Date) (c : Cart.t) (ip : CartItemProps.t) :
  Cart.wf c = true ->
  Cart.isActive c = true ->
  Money.currency (CartItemProps.unitPrice ip) = Cart.currency c ->
  acceptableItem (CartItemProps.productName ip) (CartItemProps.unitPrice ip) = true ->
  existsb (hasProduct (CartItemProps.productId ip)) (Cart.items c) = false ->
  (length_Z (Cart.items c) = 100 ->
   Cart.addItem now c ip = throw (MaxCartItemsExceededError 100)
   /\ thrown_code (MaxCartItemsExceededError 100) = Some "MAX_CART_ITEMS_EXCEEDED")
  /\ (length_Z (Cart.items c) = 99 ->
      exists c', Cart.addItem now c ip = ok c'
                 /\ Cart.items c' = (Cart.items c ++ [CartItem.mk ip])%list
                 /\ length_Z (Cart.items c') = 100).
Proof.
  intros Hwf Hact Hcur Hacc Habs.
  apply Cart_wf_parts in Hwf. destruct Hwf as [Hinv _].
  rewrite (addItem_append_path now c ip Hact Hcur Hacc Habs).
  split; intros Hlen; rewrite Hlen.
  - split; reflexivity.
  - replace (99 >=? 100) with false by reflexivity.
    assert (Hlen' : length_Z (Cart.items c ++ [CartItem.mk ip]) = 100).
    { unfold length_Z in *. rewrite length_app. simpl List.length. lia. }
    rewrite withUpdatedItems_ok.
    + eexists. split; [reflexivity |]. split; [reflexivity | exact Hlen'].
    + exact Hinv.
    + lia.
    + destruct Hinv as (_ & Hsame & _). apply Forall_app. split; [exact Hsame |].
      constructor; [exact Hcur | constructor].
Qed.

Lemma addItem_item_limit_witness :
  Cart.addItem 1 fullCart (itemProps "PROD-EXTRA" "Product" 1 1000 EUR)
  = throw (MaxCartItemsExceededError 100)
  /\ exists c', Cart.addItem 1 almostFullCart (itemProps "PROD-EXTRA" "Product" 1 1000 EUR)
                = ok c'
                /\ length_Z (Cart.items c') = 100.
Proof.
  split.
  - destruct (addItem_item_limit 1 fullCart (itemProps "PROD-EXTRA" "Product" 1 1000 EUR))
      as [H _]; [vm_compute; reflexivity .. |].
    destruct H as [H _]; [vm_compute; reflexivity | exact H].
  - destruct (addItem_item_limit 1 almostFullCart (itemProps "PROD-EXTRA" "Product" 1 1000 EUR))
      as [_ H]; [vm_compute; reflexivity .. |].
    destruct H as (c' & Hadd & _ & Hlen); [vm_compute; reflexivity |].
    exists c'. split; assumption.
Defined.

(** C4, as stated, fails: on an ACTIVE EUR cart holding 100 line items
    with pairwise distinct products, [addItem] for a product that is not
    in the cart, priced in USD, throws [InvalidCartError] (currency
    mismatch), not [MaxCartItemsExceededError]: the currency of the price
    is checked before the number of items. *)
Lemma addItem_full_cart_other_error :
  Cart.wf fullCart = true
  /\ Cart.isActive fullCart = true
  /\ length_Z (Cart.items fullCart) = 100
  /\ distinctProducts (Cart.items fullCart) = true
  /\ existsb (hasProduct (ProductId.mk "PROD-EXTRA")) (Cart.items fullCart) = false
  /\ Cart.addItem 1 fullCart (itemProps "PROD-EXTRA" "Product" 1 1000 USD)
     = throw (InvalidCartError "Item currency must match cart currency"
                (Some [("cartId", JStr sampleUuid); ("cartCurrency", JStr "EUR");
                       ("itemCurrency", JStr "USD")]))
  /\ Cart.addItem 1 fullCart (itemProps "PROD-EXTRA" "Product" 1 1000 USD)
     <> throw (MaxCartItemsExceededError 100).
Proof.
  repeat split; try (vm_compute; reflexivity).
  vm_compute. discriminate.
Qed.

(** ** Cart: total and item count *)

Lemma lineTotal_exact (i : CartItem.t) :
  CartItem.wf i = true ->
  Money.amountInCents (CartItem.unitPrice i) * Quantity.value (CartItem.quantity i)
  <= MAX_SAFE_INTEGER ->
  CartItem.lineTotal i
  = ok (Money.mk (Money.amountInCents (CartItem.unitPrice i)
                  * Quantity.value (CartItem.quantity i))
                 (Money.currency (CartItem.unitPrice i))).
Proof.
  intros Hwf Hmax. apply CartItem_wf_parts in Hwf. destruct Hwf as (_ & Hm & Hq).
  pose proof MAX_SAFE_INTEGER_lt as Hsafe.
  unfold CartItem.lineTotal, Money.multiply, Money.fromCents.
  fold (Money.amountInCents (CartItem.unitPrice i)).
  fold (Money.currency (CartItem.unitPrice i)).
  rewrite Number_mul_Z by nia. rewrite Math_round_Z.
  apply Money_new_ok. nia.
Qed.

Lemma sumCents_nonneg (l : list CartItem.t) :
  Forall (fun i => CartItem.wf i = true) l -> 0 <= sumCents l.
Proof.
  induction 1 as [| i r Hi _ IH]; simpl; [lia |].
  apply CartItem_wf_parts in Hi. destruct Hi as (_ & Hm & Hq). nia.
Qed.

(** Adding two amounts whose sum is a safe integer. *)
Lemma Money_add_exact (a b : Z) (cur : Currency) :
  0 <= a -> 0 <= b -> a + b <= MAX_SAFE_INTEGER ->
  Money.add (Money.mk a cur) (Money.mk b cur) = ok (Money.mk (a + b) cur).
Proof.
  intros Ha Hb Hmax. pose proof MAX_SAFE_INTEGER_lt as Hsafe.
  unfold Money.add, Money.ensureSameCurrency. cbn [Money._currency].
  rewrite Currency_eqb_refl. cbn [negb bind ok Money._amountInCents].
  unfold Money.fromCents. rewrite Number_add_Z by lia.
  apply Money_new_ok. lia.
Qed.

(** The reduction of [total], started from an accumulator of [acc] cents,
    as long as the sum stays a safe integer. *)
Lemma total_fold (cur : Currency) (l : list CartItem.t) (acc : Z) :
  Forall (fun i => CartItem.wf i = true) l ->
  Forall (fun i => Money.currency (CartItem.unitPrice i) = cur) l ->
  0 <= acc ->
  acc + sumCents l <= MAX_SAFE_INTEGER ->
  fold_left (fun (sum : Result Money.t) item =>
               s <- sum ;;
               lt <- CartItem.lineTotal item ;;
               Money.add s lt)
            l (ok (Money.mk acc cur))
  = ok (Money.mk (acc + sumCents l) cur).
Proof.
  intros Hwf. revert acc.
  induction Hwf as [| i r Hi Hr IH]; intros acc Hcur Hacc Hmax; simpl.
  - rewrite Z.add_0_r. reflexivity.
  - inversion Hcur as [| ? ? Hc Hcr]; subst.
    pose proof (sumCents_nonneg r Hr) as Hr0.
    pose proof (CartItem_wf_parts i Hi) as (_ & Hm & Hq).
    cbn [sumCents] in Hmax.
    rewrite (lineTotal_exact i Hi) by nia. cbn [bind ok].
    rewrite Money_add_exact by nia.
    rewrite IH by (assumption || nia).
    f_equal. f_equal. lia.
Qed.

Lemma lineTotals_exact (cur : Currency) (l : list CartItem.t) :
  Forall (fun i => CartItem.wf i = true) l ->
  Forall (fun i => Money.currency (CartItem.unitPrice i) = cur) l ->
  sumCents l <= MAX_SAFE_INTEGER ->
  Forall (fun i =>
            CartItem.lineTotal i
            = ok (Money.mk (Money.amountInCents (CartItem.unitPrice i)
                            * Quantity.value (CartItem.quantity i))
                           cur))
         l.
Proof.
  intros Hwf.
  induction Hwf as [| i r Hi Hr IH]; intros Hcur Hmax; [constructor |].
  inversion Hcur as [| ? ? Hc Hcr]; subst.
  pose proof (sumCents_nonneg r Hr) as Hr0.
  pose proof (CartItem_wf_parts i Hi) as (_ & Hm & Hq).
  cbn [sumCents] in Hmax.
  constructor.
  - rewrite (lineTotal_exact i Hi) by nia. reflexivity.
  - apply IH; [exact Hcr | nia].
Qed.

Lemma itemCount_fold (l : list CartItem.t) (acc : Z) :
  fold_left (fun sum item => sum + Quantity.value (CartItem.quantity item)) l acc
  = acc + sumQuantities l.
Proof.
  revert acc. induction l as [| i r IH]; intros acc; simpl; [lia |].
  rewrite IH. lia.
Qed.

(** C8. For every cart whose exact sum of unit price in cents times
    quantity over the line items is at most [Number.MAX_SAFE_INTEGER],
    [total] is that sum in the currency of the cart, each [lineTotal]
    being the unit price in cents times the quantity; on every cart,
    [total] is [Money.zero] of the cart currency when there are no items
    and [itemCount] is the sum of the quantities.  In the scenario
    create(EUR), add(PROD-001, 2, 29.99), add(PROD-002, 1, 15.50) the
    amount of the total is the number 75.48 and the item count is 3. *)
Theorem total_is_sum_of_line_totals :
  (forall c : Cart.t,
      Cart.wf c = true ->
      (sumCents (Cart.items c) <= MAX_SAFE_INTEGER ->
       Cart.total c = ok (Money.mk (sumCents (Cart.items c)) (Cart.currency c))
       /\ Forall (fun i =>
                    CartItem.lineTotal i
                    = ok (Money.mk (Money.amountInCents (CartItem.unitPrice i)
                                    * Quantity.value (CartItem.quantity i))
                                   (Cart.currency c)))
                 (Cart.items c))
      /\ (Cart.items c = [] -> Cart.total c = Money.zero (Cart.currency c))
      /\ Cart.itemCount c = sumQuantities (Cart.items c))
  /\ basicTotalScenario = ok (Number_of_literal 75.48, 3).
Proof.
  split.
  - intros c Hwf. apply Cart_wf_parts in Hwf. destruct Hwf as [(Hlen & Hsame & _) Hall].
    split; [| split].
    + intros Hmax. split.
      * unfold Cart.total.
        destruct (Cart.items c) as [| i r] eqn:E.
        -- cbn [length_Z List.length Z.of_nat Z.eqb sumCents].
           unfold Money.zero. apply Money_new_ok. lia.
        -- replace (length_Z (i :: r) =? 0) with false
             by (symmetry; apply Z.eqb_neq; unfold length_Z; simpl List.length; lia).
           unfold Money.zero. rewrite Money_new_ok by lia. cbn [bind ok].
           apply (total_fold (Cart.currency c) (i :: r) 0 Hall Hsame); lia.
      * apply lineTotals_exact; assumption.
    + intros E. unfold Cart.total. rewrite E. reflexivity.
    + unfold Cart.itemCount. apply itemCount_fold.
  - vm_compute. reflexivity.
Qed.

Lemma total_is_sum_of_line_totals_witness :
  Cart.wf saturatedCart = true
  /\ sumCents (Cart.items saturatedCart) <= MAX_SAFE_INTEGER
  /\ Cart.total saturatedCart = ok (Money.mk 1997001 EUR).
Proof.
  split; [vm_compute; reflexivity |].
  split; [apply Z.leb_le; vm_compute; reflexivity |].
  destruct (proj1 total_is_sum_of_line_totals saturatedCart) as [H _];
    [vm_compute; reflexivity |].
  destruct H as [H _]; [apply Z.leb_le; vm_compute; reflexivity |].
  rewrite H. vm_compute. reflexivity.
Defined.

(** C8, as the specification words it, fails outside the safe integers:
    three units at 9007199254740991 cents are worth 27021597764222973
    cents, and both [lineTotal] and [total] return 27021597764222972. *)
Lemma total_differs_from_exact_sum :
  largeTotalScenario
  = ok (27021597764222972, 27021597764222972, 27021597764222973)
  /\ Cart.wf largeCart = true
  /\ Cart.total largeCart
     <> ok (Money.mk (sumCents (Cart.items largeCart)) (Cart.currency largeCart)).
Proof.
  split; [vm_compute; reflexivity |].
  split; [vm_compute; reflexivity |].
  vm_compute. discriminate.
Qed.

(** * Further properties of the domain model *)

(** ** Money: construction and arithmetic *)

Lemma Money_new_inv (n : number) (c : Currency) (m : Money.t) :
  Money.new n c = ok m ->
  m = Money.mk (Number_toZ n) c /\ 0 <= Number_toZ n /\ exists q, n = Finite q.
Proof.
  unfold Money.new, Money.validate.
  destruct n as [q | s |]; cbn [Number_isInteger negb bind throw];
    try discriminate.
  destruct (Qeq_bool q (inject_Z (Qfloor q))); cbn [negb bind throw];
    [| discriminate].
  unfold Number_ltb, Number_of_Z.
  destruct (Qle_bool (inject_Z 0) q) eqn:E; cbn [negb bind throw];
    [| discriminate].
  apply Qle_bool_iff in E.
  rewrite supported_currency. cbn. intros H. inversion H.
  split; [reflexivity |]. split; [| eauto].
  change 0 with (Qfloor (inject_Z 0)). apply Qfloor_resp_le. exact E.
Qed.

Lemma Money_eta (m : Money.t) :
  Money.mk (Money.amountInCents m) (Money.currency m) = m.
Proof. destruct m; reflexivity. Qed.

(** X1. Whatever the arguments, a [Money] returned by [from], [fromCents],
    [zero], [add], [subtract] or [multiply] has a non-negative amount in
    cents, and the binary operations and [multiply] keep the currency of
    the receiver. *)
Theorem Money_results_are_valid :
  (forall a c m, Money.from a c = ok m ->
                 0 <= Money.amountInCents m /\ Money.currency m = c)
  /\ (forall (z : Z) c m, Money.fromCents z c = ok m ->
                    0 <= z /\ Money.amountInCents m = z /\ Money.currency m = c)
  /\ (forall c m, Money.zero c = ok m ->
                  Money.amountInCents m = 0 /\ Money.currency m = c)
  /\ (forall a b m, Money.add a b = ok m ->
                    0 <= Money.amountInCents m /\ Money.currency m = Money.currency a)
  /\ (forall a b m, Money.subtract a b = ok m ->
                    0 <= Money.amountInCents m /\ Money.currency m = Money.currency a)
  /\ (forall a f m, Money.multiply a f = ok m ->
                    0 <= Money.amountInCents m /\ Money.currency m = Money.currency a).
Proof.
  split; [| split; [| split; [| split; [| split]]]].
  - intros a c m H. apply Money_new_inv in H. destruct H as (-> & H & _). auto.
  - intros z c m H. apply Money_new_inv in H. destruct H as (-> & H & _).
    rewrite Number_toZ_Z in *. auto.
  - intros c m H. apply Money_new_inv in H. destruct H as (-> & H & _). auto.
  - intros a b m H. unfold Money.add in H.
    apply bind_ok in H. destruct H as (_ & _ & H).
    apply Money_new_inv in H. destruct H as (-> & H & _). auto.
  - intros a b m H. unfold Money.subtract in H.
    apply bind_ok in H. destruct H as (_ & _ & H).
    apply Money_new_inv in H. destruct H as (-> & H & _). auto.
  - intros a f m H. apply Money_new_inv in H. destruct H as (-> & H & _). auto.
Qed.

Lemma Money_results_are_valid_witness :
  0 <= Money.amountInCents (Money.mk 1999 EUR)
  /\ Money.currency (Money.mk 1999 EUR) = EUR.
Proof.
  apply (proj1 Money_results_are_valid 19.99%Q EUR (Money.mk 1999 EUR)).
  reflexivity.
Defined.

(** X2. Reading the decimal [amount] of a [Money] of at most [2^51] cents
    and building a [Money] from it with [from] gives the same value back:
    the two roundings of [cents / 100 * 100] stay within half a cent.
    Above that bound it can fail: 3518437208883202 cents come back as
    3518437208883203. *)
Theorem Money_from_amount_roundtrip :
  (forall m : Money.t,
      Money.wf m = true ->
      Money.amountInCents m <= 2 ^ 51 ->
      Money.from (Money.amount m) (Money.currency m) = ok m)
  /\ Money.from (Money.amount (Money.mk 3518437208883202 EUR)) EUR
     = ok (Money.mk 3518437208883203 EUR).
Proof.
  split; [| vm_compute; reflexivity].
  intros m Hwf Hmax. apply Money_wf_nonneg in Hwf.
  unfold Money.from, Money.amount. fold (Money.amountInCents m).
  set (c := Money.amountInCents m) in *.
  assert (Hc0 : (0 <= inject_Z c)%Q) by (change 0%Q with (inject_Z 0); rewrite <- Zle_Qle; exact Hwf).
  assert (Hc1 : (inject_Z c <= 2251799813685248)%Q).
  { change 2251799813685248%Q with (inject_Z (2 ^ 51)). rewrite <- Zle_Qle. exact Hmax. }
  unfold Number_div, Number_of_Z.
  change (Qeq_bool (inject_Z 100) 0) with false. cbv iota.
  set (q1 := (inject_Z c / inject_Z 100)%Q).
  assert (Hq1 : (q1 * 100 == inject_Z c)%Q) by (unfold q1; field).
  destruct (roundQ_error q1 45) as (x1 & H1 & E1); [lia | |].
  { apply Qabs_Qlt_condition. change (pow2 45) with 35184372088832%Q. split; lra. }
  rewrite H1. unfold Number_mul.
  change (pow2 (45 - 54)) with (1 # 512)%Q in E1.
  apply Qabs_Qle_condition in E1.
  destruct (roundQ_error (x1 * inject_Z 100) 52) as (x2 & H2 & E2); [lia | |].
  { apply Qabs_Qlt_condition. change (pow2 52) with 4503599627370496%Q.
    change (inject_Z 100) with 100%Q. split; lra. }
  rewrite H2. cbn [Math_round].
  change (pow2 (52 - 54)) with (1 # 4)%Q in E2.
  change (inject_Z 100) with 100%Q in E2.
  apply Qabs_Qle_condition in E2.
  rewrite (Qfloor_unique _ c) by lra.
  change (Finite (inject_Z c)) with (Number_of_Z c).
  rewrite Money_new_ok by exact Hwf.
  unfold c. rewrite Money_eta. reflexivity.
Qed.

Lemma Money_from_amount_roundtrip_witness :
  Money.from (Money.amount (Money.mk 2999 EUR)) EUR = ok (Money.mk 2999 EUR).
Proof.
  apply (proj1 Money_from_amount_roundtrip (Money.mk 2999 EUR));
    [reflexivity | apply Z.leb_le; reflexivity].
Defined.

Lemma Money_add_value (a b : Money.t) :
  Money.wf a = true -> Money.wf b = true -> Money.currency a = Money.currency b ->
  Money.amountInCents a + Money.amountInCents b <= MAX_SAFE_INTEGER ->
  Money.add a b
  = ok (Money.mk (Money.amountInCents a + Money.amountInCents b) (Money.currency a)).
Proof.
  intros Ha Hb Hc Hmax. apply Money_wf_nonneg in Ha, Hb.
  destruct a as [x ca], b as [y cb].
  unfold Money.currency, Money.amountInCents in *. cbn [Money._currency Money._amountInCents] in *.
  subst cb. apply Money_add_exact; assumption.
Qed.

Lemma Money_subtract_value (a b : Money.t) :
  Money.wf a = true -> Money.wf b = true -> Money.currency a = Money.currency b ->
  Money.amountInCents a <= MAX_SAFE_INTEGER ->
  Money.amountInCents b <= MAX_SAFE_INTEGER ->
  Money.subtract a b
  = Money.new (Money.amountInCents a - Money.amountInCents b) (Money.currency a).
Proof.
  intros Ha Hb Hc Hamax Hbmax. apply Money_wf_nonneg in Ha, Hb.
  pose proof MAX_SAFE_INTEGER_lt as Hsafe.
  unfold Money.subtract, Money.ensureSameCurrency, Money.fromCents.
  unfold Money.currency, Money.amountInCents in *.
  rewrite Hc, Currency_eqb_refl. cbn [negb bind ok].
  rewrite Number_sub_Z by lia. reflexivity.
Qed.

(** X3. For two [Money] values of the same currency whose sum in cents is
    at most [Number.MAX_SAFE_INTEGER], [add] returns their sum in that
    currency; it does not depend on the order of the operands, and adding
    a zero amount changes nothing. *)
Theorem Money_add_sum (a b : Money.t) :
  Money.wf a = true -> Money.wf b = true -> Money.currency a = Money.currency b ->
  Money.amountInCents a + Money.amountInCents b <= MAX_SAFE_INTEGER ->
  Money.add a b
  = ok (Money.mk (Money.amountInCents a + Money.amountInCents b) (Money.currency a))
  /\ Money.add b a = Money.add a b
  /\ (z <- Money.zero (Money.currency a) ;; Money.add a z) = ok a.
Proof.
  intros Ha Hb Hc Hmax. split; [| split].
  - apply Money_add_value; assumption.
  - rewrite (Money_add_value a b Ha Hb Hc Hmax).
    rewrite (Money_add_value b a Hb Ha (eq_sym Hc)) by lia.
    rewrite Hc, Z.add_comm. reflexivity.
  - unfold Money.zero. rewrite Money_new_ok by lia. cbn [bind ok].
    assert (Hz : Money.wf (Money.mk 0 (Money.currency a)) = true)
      by (apply Money_wf_nonneg; cbn; lia).
    pose proof (proj1 (Money_wf_nonneg b) Hb) as Hb0.
    rewrite (Money_add_value a (Money.mk 0 (Money.currency a)) Ha Hz eq_refl)
      by (cbn [Money.amountInCents Money._amountInCents]; lia).
    cbn [Money.amountInCents Money._amountInCents].
    rewrite Z.add_0_r. fold (Money.amountInCents a). rewrite Money_eta. reflexivity.
Qed.

Lemma Money_add_sum_witness :
  Money.add (Money.mk 1000 EUR) (Money.mk 550 EUR) = ok (Money.mk 1550 EUR).
Proof.
  apply (Money_add_sum (Money.mk 1000 EUR) (Money.mk 550 EUR));
    try reflexivity.
  apply Z.leb_le. reflexivity.
Defined.

(** X4. For two [Money] values of the same currency, each of at most
    [Number.MAX_SAFE_INTEGER] cents, [subtract] returns the difference
    when the second amount is at most the first, and throws
    [InvalidMoneyError] (code INVALID_MONEY) when it is larger: no
    negative [Money] is ever built. *)
Theorem Money_subtract_guard (a b : Money.t) :
  Money.wf a = true -> Money.wf b = true -> Money.currency a = Money.currency b ->
  Money.amountInCents a <= MAX_SAFE_INTEGER ->
  Money.amountInCents b <= MAX_SAFE_INTEGER ->
  (Money.amountInCents b <= Money.amountInCents a ->
   Money.subtract a b
   = ok (Money.mk (Money.amountInCents a - Money.amountInCents b) (Money.currency a)))
  /\ (Money.amountInCents a < Money.amountInCents b ->
      Money.subtract a b
      = throw (InvalidMoneyError
                 (Number_div (Money.amountInCents a - Money.amountInCents b) 100)
                 (Currency_toString (Money.currency a)))
      /\ thrown_code (InvalidMoneyError
                        (Number_div (Money.amountInCents a - Money.amountInCents b) 100)
                        (Currency_toString (Money.currency a)))
         = Some "INVALID_MONEY").
Proof.
  intros Ha Hb Hc Hamax Hbmax.
  rewrite (Money_subtract_value a b Ha Hb Hc Hamax Hbmax).
  split; intros H.
  - apply Money_new_ok. lia.
  - rewrite Money_new_neg by lia. split; reflexivity.
Qed.

Lemma Money_subtract_guard_witness :
  Money.subtract (Money.mk 500 EUR) (Money.mk 1000 EUR)
  = throw (InvalidMoneyError (Number_div (500 - 1000) 100) "EUR").
Proof.
  destruct (Money_subtract_guard (Money.mk 500 EUR) (Money.mk 1000 EUR)) as [_ H];
    [reflexivity | reflexivity | reflexivity
     | apply Z.leb_le; reflexivity | apply Z.leb_le; reflexivity |].
  destruct H as [H _]; [reflexivity | exact H].
Defined.

(** X5. [subtract] undoes [add] on the safe integers: whenever the sum of
    two amounts in cents is at most [Number.MAX_SAFE_INTEGER] and
    [a.add(b)] returns it, subtracting [b] from that sum returns [a]. *)
Theorem Money_add_subtract_roundtrip (a b s : Money.t) :
  Money.wf a = true -> Money.wf b = true ->
  Money.amountInCents a + Money.amountInCents b <= MAX_SAFE_INTEGER ->
  Money.add a b = ok s ->
  Money.subtract s b = ok a.
Proof.
  intros Ha Hb Hmax Hs.
  assert (Hc : Money.currency a = Money.currency b).
  { unfold Money.add, Money.ensureSameCurrency in Hs.
    destruct (Currency_eqb (Money._currency a) (Money._currency b)) eqn:E;
      [apply Currency_eqb_eq in E; exact E | discriminate]. }
  rewrite (Money_add_value a b Ha Hb Hc Hmax) in Hs. inversion Hs; subst s; clear Hs.
  pose proof Ha as Ha'. pose proof Hb as Hb'.
  apply Money_wf_nonneg in Ha', Hb'.
  rewrite Money_subtract_value;
    try (cbn [Money.amountInCents Money._amountInCents Money.currency Money._currency];
         first [assumption | lia]).
  - cbn [Money.amountInCents Money._amountInCents Money.currency Money._currency].
    rewrite Money_new_ok by lia.
    replace (Money.amountInCents a + Money.amountInCents b - Money.amountInCents b)
      with (Money.amountInCents a) by lia.
    rewrite Money_eta. reflexivity.
  - apply Money_wf_nonneg. cbn. lia.
Qed.

Lemma Money_add_subtract_roundtrip_witness :
  Money.subtract (Money.mk 1550 EUR) (Money.mk 550 EUR) = ok (Money.mk 1000 EUR).
Proof.
  apply (Money_add_subtract_roundtrip (Money.mk 1000 EUR) (Money.mk 550 EUR)
           (Money.mk 1550 EUR)); try reflexivity.
  apply Z.leb_le. reflexivity.
Defined.

(** X6. Whenever [multiply] returns, the result has the currency of the
    receiver and its cents are the floating-point product rounded to the
    nearest integer, a tie going up.  For an integer factor that is not
    negative and a product of at most [Number.MAX_SAFE_INTEGER] cents the
    result is the exact product; for a negative integer factor and a
    non-zero amount, the product being at least [-Number.MAX_SAFE_INTEGER],
    the call throws [InvalidMoneyError]. *)
Theorem Money_multiply_rounds (m : Money.t) :
  Money.wf m = true ->
  (forall (f : number) (r : Money.t),
      Money.multiply m f = ok r ->
      Money.currency r = Money.currency m
      /\ exists p, Number_mul (Money.amountInCents m) f = Finite p
                   /\ (p - (1 # 2) < inject_Z (Money.amountInCents r))%Q
                   /\ (inject_Z (Money.amountInCents r) <= p + (1 # 2))%Q)
  /\ (forall n : Z,
        0 <= n -> Money.amountInCents m * n <= MAX_SAFE_INTEGER ->
        Money.multiply m n
        = ok (Money.mk (Money.amountInCents m * n) (Money.currency m)))
  /\ (forall n : Z,
        n < 0 -> 0 < Money.amountInCents m ->
        - MAX_SAFE_INTEGER <= Money.amountInCents m * n ->
        Money.multiply m n
        = throw (InvalidMoneyError (Number_div (Money.amountInCents m * n) 100)
                   (Currency_toString (Money.currency m)))).
Proof.
  intros Hwf. apply Money_wf_nonneg in Hwf.
  pose proof MAX_SAFE_INTEGER_lt as Hsafe.
  unfold Money.multiply, Money.fromCents.
  fold (Money.amountInCents m). fold (Money.currency m).
  split; [| split].
  - intros f r H. apply Money_new_inv in H. destruct H as (-> & _ & q & Hq).
    split; [reflexivity |].
    destruct (Number_mul (Money.amountInCents m) f) as [p | s |];
      cbn [Math_round] in Hq; try discriminate.
    exists p. split; [reflexivity |].
    cbn [Math_round Number_toZ Money.amountInCents Money._amountInCents].
    rewrite Qfloor_Z.
    pose proof (Qfloor_le (p + (1 # 2))) as Hle.
    pose proof (Qlt_floor (p + (1 # 2))) as Hlt.
    rewrite inject_Z_plus in Hlt. change (inject_Z 1) with 1%Q in Hlt.
    split; lra.
  - intros n Hn Hmax.
    rewrite Number_mul_Z by nia. rewrite Math_round_Z.
    apply Money_new_ok. nia.
  - intros n Hn Hpos Hmin.
    rewrite Number_mul_Z by nia. rewrite Math_round_Z.
    apply Money_new_neg. nia.
Qed.

Lemma Money_multiply_rounds_witness :
  Money.multiply (Money.mk 1001 EUR) 3 = ok (Money.mk 3003 EUR).
Proof.
  destruct (Money_multiply_rounds (Money.mk 1001 EUR)) as (_ & H & _);
    [reflexivity |].
  apply (H 3); [lia | apply Z.leb_le; reflexivity].
Defined.

(** X7. For two [Money] values of the same currency, [isGreaterThan] and
    [isLessThan] both answer, exactly one of "greater", "less" and
    [equals] holds, and [a.isGreaterThan(b)] is [b.isLessThan(a)]. *)
Theorem Money_comparison_trichotomy (a b : Money.t) :
  Money.currency a = Money.currency b ->
  exists g l,
    Money.isGreaterThan a b = ok g
    /\ Money.isLessThan a b = ok l
    /\ Money.isLessThan b a = ok g
    /\ ((g = true /\ l = false /\ Money.equals a b = false)
        \/ (g = false /\ l = true /\ Money.equals a b = false)
        \/ (g = false /\ l = false /\ Money.equals a b = true)).
Proof.
  intros Hc. unfold Money.isGreaterThan, Money.isLessThan, Money.ensureSameCurrency,
    Money.equals. unfold Money.currency in Hc.
  rewrite <- Hc, Currency_eqb_refl. cbn [negb bind ok].
  eexists. eexists. split; [reflexivity |]. split; [reflexivity |].
  split; [rewrite Z.gtb_ltb; reflexivity |].
  rewrite andb_true_r, Z.gtb_ltb.
  destruct (Z.lt_trichotomy (Money._amountInCents a) (Money._amountInCents b))
    as [H | [H | H]].
  - right; left. repeat split.
    + apply Z.ltb_ge. lia.
    + apply Z.ltb_lt. lia.
    + apply Z.eqb_neq. lia.
  - right; right. repeat split.
    + apply Z.ltb_ge. lia.
    + apply Z.ltb_ge. lia.
    + apply Z.eqb_eq. lia.
  - left. repeat split.
    + apply Z.ltb_lt. lia.
    + apply Z.ltb_ge. lia.
    + apply Z.eqb_neq. lia.
Qed.

Lemma Money_comparison_trichotomy_witness :
  exists g l,
    Money.isGreaterThan (Money.mk 1000 EUR) (Money.mk 500 EUR) = ok g
    /\ Money.isLessThan (Money.mk 1000 EUR) (Money.mk 500 EUR) = ok l.
Proof.
  destruct (Money_comparison_trichotomy (Money.mk 1000 EUR) (Money.mk 500 EUR))
    as (g & l & Hg & Hl & _); [reflexivity |].
  exists g, l. split; assumption.
Defined.

(** ** Quantity *)

Lemma Quantity_new_inv (v : Z) (q : Quantity.t) :
  Quantity.new v = ok q -> q = Quantity.mk v /\ 1 <= v <= 999.
Proof.
  unfold Quantity.new, Quantity.validate, DOMAIN_CONSTANTS.MAX_ITEM_QUANTITY.
  destruct (v <=? 0) eqn:E1; [discriminate |]. apply Z.leb_gt in E1.
  rewrite Z.gtb_ltb.
  destruct (999 <? v) eqn:E2; [discriminate |]. apply Z.ltb_ge in E2.
  cbn. intros H. inversion H. split; [reflexivity | lia].
Qed.

Lemma Quantity_from_low (v : Z) :
  v <= 0 -> Quantity.from v = throw (InvalidQuantityError v).
Proof.
  intros Hv. unfold Quantity.from, Quantity.new, Quantity.validate.
  apply Z.leb_le in Hv. rewrite Hv. reflexivity.
Qed.



(** X9. For two constructed quantities, [add] returns the sum when it is
    at most 999 and throws [InvalidQuantityError] otherwise; [subtract]
    returns the difference when the first is larger and throws
    [InvalidQuantityError] otherwise, so a quantity minus itself always
    fails: there is no quantity zero. *)
Theorem Quantity_add_subtract_bounds (a b : Quantity.t) :
  Quantity.wf a = true -> Quantity.wf b = true ->
  (Quantity.value a + Quantity.value b <= 999 ->
   Quantity.add a b = ok (Quantity.mk (Quantity.value a + Quantity.value b)))
  /\ (999 < Quantity.value a + Quantity.value b ->
      Quantity.add a b = throw (InvalidQuantityError (Quantity.value a + Quantity.value b)))
  /\ (Quantity.value b < Quantity.value a ->
      Quantity.subtract a b = ok (Quantity.mk (Quantity.value a - Quantity.value b)))
  /\ (Quantity.value a <= Quantity.value b ->
      Quantity.subtract a b
      = throw (InvalidQuantityError (Quantity.value a - Quantity.value b)))
  /\ Quantity.subtract a a = throw (InvalidQuantityError 0).
Proof.
  intros Ha Hb. apply Quantity_wf_range in Ha, Hb.
  unfold Quantity.add, Quantity.subtract. fold (Quantity.value a). fold (Quantity.value b).
  repeat split; intros.
  - apply Quantity_from_ok. lia.
  - apply Quantity_from_over. lia.
  - apply Quantity_from_ok. lia.
  - apply Quantity_from_low. lia.
  - rewrite Z.sub_diag. apply Quantity_from_low. lia.
Qed.

Lemma Quantity_add_subtract_bounds_witness :
  Quantity.subtract (Quantity.mk 5) (Quantity.mk 5) = throw (InvalidQuantityError 0).
Proof.
  apply (Quantity_add_subtract_bounds (Quantity.mk 5) (Quantity.mk 5)); reflexivity.
Defined.

(** X10. [subtract] undoes [add]: whenever [a.add(b)] returns a sum,
    subtracting [b] from that sum returns [a]. *)
Theorem Quantity_add_subtract_roundtrip (a b s : Quantity.t) :
  Quantity.wf a = true -> Quantity.wf b = true ->
  Quantity.add a b = ok s ->
  Quantity.subtract s b = ok a.
Proof.
  intros Ha Hb Hs. apply Quantity_wf_range in Ha, Hb.
  apply Quantity_new_inv in Hs. destruct Hs as [-> Hs].
  unfold Quantity.subtract. cbn [Quantity._value].
  unfold Quantity.value in *.
  replace (Quantity._value a + Quantity._value b - Quantity._value b)
    with (Quantity._value a) by lia.
  rewrite Quantity_from_ok by lia. destruct a; reflexivity.
Qed.

Lemma Quantity_add_subtract_roundtrip_witness :
  Quantity.subtract (Quantity.mk 8) (Quantity.mk 3) = ok (Quantity.mk 5).
Proof.
  apply (Quantity_add_subtract_roundtrip (Quantity.mk 5) (Quantity.mk 3) (Quantity.mk 8));
    reflexivity.
Defined.

(** ** Identifiers *)

Lemma matches_length (pat : list CartId.UuidClass) (cs : list ascii) :
  CartId.matches pat cs = true -> List.length cs = List.length pat.
Proof.
  revert cs. induction pat as [| k pat IH]; intros [| c cs]; simpl; try discriminate.
  - reflexivity.
  - rewrite andb_true_iff. intros [_ H]. f_equal. apply IH. exact H.
Qed.

Lemma matches_nth (pat : list CartId.UuidClass) (cs : list ascii)
      (i : nat) (k : CartId.UuidClass) (c : ascii) :
  CartId.matches pat cs = true ->
  nth_error pat i = Some k -> nth_error cs i = Some c ->
  CartId.inClass k c = true.
Proof.
  revert cs i. induction pat as [| k' pat IH]; intros [| c' cs] i; simpl; try discriminate.
  - destruct i; discriminate.
  - rewrite andb_true_iff. intros [Hc Hm]. destruct i as [| i]; simpl.
    + intros Hk Hc'. inversion Hk; inversion Hc'; subst. exact Hc.
    + apply IH. exact Hm.
Qed.

Lemma ascii_of_code (c : ascii) (n : nat) :
  Nat.eqb (nat_of_ascii c) n = true -> c = ascii_of_nat n.
Proof.
  intros H. apply Nat.eqb_eq in H. rewrite <- H. symmetry. apply ascii_nat_embedding.
Qed.

(** X11. [CartId.from] returns an id only for a string of exactly 36
    characters with a hyphen at offsets 8, 13, 18 and 23 and the version
    digit 4 at offset 14, and the id then carries that very string; for
    any other string it throws a plain [Error]. *)
Theorem CartId_from_shape (s : string) :
  (forall id, CartId.from s = ok id ->
              CartId.value id = s
              /\ strlen s = 36
              /\ (forall i, In i [8; 13; 18; 23]%nat ->
                            nth_error (list_ascii_of_string s) i = Some "-"%char)
              /\ nth_error (list_ascii_of_string s) 14 = Some "4"%char)
  /\ (CartId.isValid s = false ->
      CartId.from s
      = throw (ThrowError ("Invalid cart ID format: " ++ s ++ ". Must be a valid UUID v4."))).
Proof.
  unfold CartId.from. split.
  - intros id H. destruct (CartId.isValid s) eqn:E; [| discriminate].
    cbn in H. inversion H; subst id; clear H.
    unfold CartId.isValid in E.
    pose proof (matches_length _ _ E) as Hlen.
    split; [reflexivity |].
    split.
    { unfold strlen. rewrite <- length_list_ascii_of_string, Hlen. reflexivity. }
    assert (Hget : forall i k, nth_error CartId.uuidV4Pattern i = Some k ->
                    exists c, nth_error (list_ascii_of_string s) i = Some c
                              /\ CartId.inClass k c = true).
    { intros i k Hk.
      destruct (nth_error (list_ascii_of_string s) i) as [c |] eqn:Hc.
      - exists c. split; [reflexivity |]. eapply matches_nth; eauto.
      - apply nth_error_None in Hc. rewrite Hlen in Hc.
        assert (Hi : (i < List.length CartId.uuidV4Pattern)%nat)
          by (apply nth_error_Some; congruence).
        lia. }
    split.
    + intros i Hi.
      assert (Hk : nth_error CartId.uuidV4Pattern i = Some CartId.Dash).
      { simpl in Hi. destruct Hi as [<- | [<- | [<- | [<- | []]]]]; reflexivity. }
      destruct (Hget i _ Hk) as (c & Hc & Hin). rewrite Hc. f_equal.
      apply (ascii_of_code c 45). exact Hin.
    + destruct (Hget 14%nat CartId.Four eq_refl) as (c & Hc & Hin). rewrite Hc. f_equal.
      apply (ascii_of_code c 52). exact Hin.
  - intros E. rewrite E. reflexivity.
Qed.

Lemma CartId_from_shape_witness :
  CartId.value (CartId.mk sampleUuid) = sampleUuid /\ strlen sampleUuid = 36.
Proof.
  destruct (proj1 (CartId_from_shape sampleUuid) (CartId.mk sampleUuid))
    as (Hv & Hl & _); [reflexivity |].
  split; assumption.
Defined.

(** ** CartItem *)

(** X12. [CartItem.create] checks, in this order, that the product name
    is not blank, that it has at most 200 characters and that the unit
    price is not zero; it throws [InvalidCartItemError] with the message of
    the first check that fails, and otherwise returns an item holding
    exactly the given properties. *)
Theorem CartItem_create_cases (p : CartItemProps.t) :
  (isBlank (CartItemProps.productName p) = true ->
   CartItem.create p
   = throw (InvalidCartItemError "Product name cannot be empty"
              (Some [("productId", JStr (ProductId.value (CartItemProps.productId p)))])))
  /\ (isBlank (CartItemProps.productName p) = false ->
      200 < strlen (CartItemProps.productName p) ->
      CartItem.create p
      = throw (InvalidCartItemError "Product name cannot exceed 200 characters"
                 (Some [("productId", JStr (ProductId.value (CartItemProps.productId p)));
                        ("productName", JStr (CartItemProps.productName p))])))
  /\ (isBlank (CartItemProps.productName p) = false ->
      strlen (CartItemProps.productName p) <= 200 ->
      Money.isZero (CartItemProps.unitPrice p) = true ->
      CartItem.create p
      = throw (InvalidCartItemError "Unit price must be greater than zero"
                 (Some [("productId", JStr (ProductId.value (CartItemProps.productId p)));
                        ("unitPrice", Money.toJSON (CartItemProps.unitPrice p))])))
  /\ (isBlank (CartItemProps.productName p) = false ->
      strlen (CartItemProps.productName p) <= 200 ->
      Money.isZero (CartItemProps.unitPrice p) = false ->
      CartItem.create p = ok (CartItem.mk p)).
Proof.
  unfold CartItem.create, CartItem.new, CartItem.validate. rewrite blank_guard.
  rewrite Z.gtb_ltb.
  split; [| split; [| split]].
  - intros ->. reflexivity.
  - intros -> H. apply Z.ltb_lt in H. rewrite H. reflexivity.
  - intros -> H Hz. apply Z.ltb_ge in H. rewrite H, Hz. reflexivity.
  - intros -> H Hz. apply Z.ltb_ge in H. rewrite H, Hz. reflexivity.
Qed.

Lemma CartItem_create_cases_witness :
  CartItem.create (itemProps "PROD-001" "   " 1 1000 EUR)
  = throw (InvalidCartItemError "Product name cannot be empty"
             (Some [("productId", JStr "PROD-001")])).
Proof.
  apply (proj1 (CartItem_create_cases (itemProps "PROD-001" "   " 1 1000 EUR))).
  reflexivity.
Defined.

Lemma ProductId_equals_refl (p : ProductId.t) : ProductId.equals p p = true.
Proof. unfold ProductId.equals. apply String.eqb_refl. Qed.

Lemma CartItem_updateQuantity_inv (i i' : CartItem.t) (q : Quantity.t) :
  CartItem.updateQuantity i q = ok i' ->
  i' = CartItem.mk (CartItemProps.mk (CartItem.productId i) (CartItem.productName i) q
                                     (CartItem.unitPrice i)).
Proof.
  unfold CartItem.updateQuantity, CartItem.create, CartItem.new. intros H.
  apply bind_ok in H. destruct H as (_ & _ & H). inversion H. reflexivity.
Qed.

(** X13. [updateQuantity], [increaseQuantity] and [decreaseQuantity] never
    touch the identity of a line: whenever one of them returns an item, it
    has the product id, the product name and the unit price of the
    receiver and [equals] it; its quantity is the new quantity, the sum, or
    the difference.  On a constructed item [updateQuantity] always
    succeeds. *)
Theorem CartItem_quantity_changes_keep_identity (i : CartItem.t) (q : Quantity.t) :
  (forall i', CartItem.updateQuantity i q = ok i'
              \/ CartItem.increaseQuantity i q = ok i'
              \/ CartItem.decreaseQuantity i q = ok i' ->
              CartItem.productId i' = CartItem.productId i
              /\ CartItem.productName i' = CartItem.productName i
              /\ CartItem.unitPrice i' = CartItem.unitPrice i
              /\ CartItem.equals i i' = true)
  /\ (forall i', CartItem.updateQuantity i q = ok i' -> CartItem.quantity i' = q)
  /\ (forall i', CartItem.increaseQuantity i q = ok i' ->
                 Quantity.value (CartItem.quantity i')
                 = Quantity.value (CartItem.quantity i) + Quantity.value q)
  /\ (forall i', CartItem.decreaseQuantity i q = ok i' ->
                 Quantity.value (CartItem.quantity i')
                 = Quantity.value (CartItem.quantity i) - Quantity.value q)
  /\ (CartItem.wf i = true -> exists i', CartItem.updateQuantity i q = ok i').
Proof.
  split; [| split; [| split; [| split]]].
  - intros i' H.
    assert (Hi : exists q', i' = CartItem.mk (CartItemProps.mk (CartItem.productId i)
                                      (CartItem.productName i) q' (CartItem.unitPrice i))).
    { destruct H as [H | [H | H]].
      - exists q. apply CartItem_updateQuantity_inv; exact H.
      - unfold CartItem.increaseQuantity in H. apply bind_ok in H.
        destruct H as (q' & _ & H). exists q'. apply CartItem_updateQuantity_inv; exact H.
      - unfold CartItem.decreaseQuantity in H. apply bind_ok in H.
        destruct H as (q' & _ & H). exists q'. apply CartItem_updateQuantity_inv; exact H. }
    destruct Hi as (q' & ->). repeat split.
    unfold CartItem.equals. apply ProductId_equals_refl.
  - intros i' H. apply CartItem_updateQuantity_inv in H. subst i'. reflexivity.
  - intros i' H. unfold CartItem.increaseQuantity in H. apply bind_ok in H.
    destruct H as (q' & Hq & H). apply CartItem_updateQuantity_inv in H. subst i'.
    apply Quantity_new_inv in Hq. destruct Hq as [-> _]. reflexivity.
  - intros i' H. unfold CartItem.decreaseQuantity in H. apply bind_ok in H.
    destruct H as (q' & Hq & H). apply CartItem_updateQuantity_inv in H. subst i'.
    apply Quantity_new_inv in Hq. destruct Hq as [-> _]. reflexivity.
  - intros Hwf. apply CartItem_wf_parts in Hwf. destruct Hwf as (Hv & _).
    eexists. apply CartItem_updateQuantity_ok. exact Hv.
Qed.

Lemma CartItem_quantity_changes_keep_identity_witness :
  exists i', CartItem.updateQuantity (CartItem.mk (itemProps "PROD-001" "Blue Widget" 2 2999 EUR))
                                     (Quantity.mk 5) = ok i'.
Proof.
  apply (CartItem_quantity_changes_keep_identity
           (CartItem.mk (itemProps "PROD-001" "Blue Widget" 2 2999 EUR)) (Quantity.mk 5)).
  reflexivity.
Defined.

Lemma CartItem_eta (i : CartItem.t) :
  CartItem.mk (CartItemProps.mk (CartItem.productId i) (CartItem.productName i)
                                (CartItem.quantity i) (CartItem.unitPrice i)) = i.
Proof. destruct i as [[]]; reflexivity. Qed.

(** X14. On a constructed item, [decreaseQuantity] by an amount that is at
    least the current quantity throws [InvalidQuantityError], and
    [decreaseQuantity] undoes [increaseQuantity]: whenever
    [i.increaseQuantity(d)] returns an item, decreasing that item by [d]
    returns [i]. *)
Theorem CartItem_decrease_guard_and_roundtrip (i : CartItem.t) (d : Quantity.t) :
  CartItem.wf i = true -> Quantity.wf d = true ->
  (Quantity.value (CartItem.quantity i) <= Quantity.value d ->
   CartItem.decreaseQuantity i d
   = throw (InvalidQuantityError (Quantity.value (CartItem.quantity i) - Quantity.value d)))
  /\ (forall i', CartItem.increaseQuantity i d = ok i' ->
                 CartItem.decreaseQuantity i' d = ok i).
Proof.
  intros Hwf Hd. pose proof (CartItem_wf_parts i Hwf) as (Hv & _ & Hq).
  apply Quantity_wf_range in Hd. split.
  - intros Hle. unfold CartItem.decreaseQuantity, Quantity.subtract.
    fold (Quantity.value (CartItem.quantity i)). fold (Quantity.value d).
    rewrite Quantity_from_low by lia. reflexivity.
  - intros i' H. unfold CartItem.increaseQuantity in H. apply bind_ok in H.
    destruct H as (q' & Hq' & H). apply CartItem_updateQuantity_inv in H. subst i'.
    apply Quantity_new_inv in Hq'. destruct Hq' as [-> Hr].
    unfold CartItem.decreaseQuantity, Quantity.subtract.
    unfold CartItem.quantity at 1. cbn [CartItem.props CartItemProps.quantity Quantity._value].
    unfold Quantity.value in *.
    replace (Quantity._value (CartItem.quantity i) + Quantity._value d - Quantity._value d)
      with (Quantity._value (CartItem.quantity i)) by lia.
    rewrite Quantity_from_ok by lia. cbn [bind ok].
    rewrite CartItem_updateQuantity_ok.
    + unfold CartItem.productId, CartItem.productName, CartItem.unitPrice.
      cbn [CartItem.props CartItemProps.productId CartItemProps.productName
           CartItemProps.unitPrice].
      destruct i as [[pid nm [qv] up]]. reflexivity.
    + apply CartItem_validate_ok_iff. apply CartItem_validate_ok_iff in Hv. exact Hv.
Qed.

Lemma CartItem_decrease_guard_and_roundtrip_witness :
  CartItem.decreaseQuantity (CartItem.mk (itemProps "PROD-001" "Blue Widget" 2 2999 EUR))
                            (Quantity.mk 2)
  = throw (InvalidQuantityError (2 - 2)).
Proof.
  apply (CartItem_decrease_guard_and_roundtrip
           (CartItem.mk (itemProps "PROD-001" "Blue Widget" 2 2999 EUR)) (Quantity.mk 2));
    reflexivity.
Defined.

(** ** Cart: construction, metadata and status *)

Lemma Cart_wf_intro (c : Cart.t) :
  cart_invariant c -> Forall (fun i => CartItem.wf i = true) (Cart.items c) ->
  Cart.wf c = true.
Proof.
  intros Hinv Hall. unfold Cart.wf. apply andb_true_iff. split.
  - destruct c as [p]. apply Cart_validate_ok_iff in Hinv.
    cbn [Cart.props]. rewrite Hinv. reflexivity.
  - apply forallb_forall. apply Forall_forall. exact Hall.
Qed.

Lemma withUpdatedItems_eq (now : Date) (this : Cart.t) (l : list CartItem.t) (c : Cart.t) :
  Cart.withUpdatedItems now this l = ok c ->
  c = Cart.mk (CartProps.mk (Cart.cartId this) (Cart.userId this) l (Cart.status this)
                 (Cart.currency this) (Cart.createdAt this) now).
Proof. intros H. apply Cart_new_inv in H. tauto. Qed.

Lemma ensureActive_inv (c : Cart.t) (u : unit) :
  Cart.ensureActive c = ok u -> Cart.status c = ACTIVE.
Proof.
  unfold Cart.ensureActive, Cart.isActive.
  destruct (Cart.status c); simpl; intros H; (reflexivity || discriminate).
Qed.

(** Every item mutator that returns a cart went through [ensureActive]
    and [withUpdatedItems]. *)
Lemma item_mutator_inv (now : Date) (this c : Cart.t) :
  (exists ip, Cart.addItem now this ip = ok c)
  \/ (exists p, Cart.removeItem now this p = ok c)
  \/ (exists p q, Cart.updateItemQuantity now this p q = ok c)
  \/ Cart.clearItems now this = ok c ->
  Cart.status this = ACTIVE
  /\ exists l, Cart.withUpdatedItems now this l = ok c.
Proof.
  intros [[ip H] | [[p H] | [(p & q & H) | H]]].
  - unfold Cart.addItem in H. apply bind_ok in H. destruct H as (u & Hu & H).
    split; [eapply ensureActive_inv; eauto |].
    destruct (negb _); [discriminate |].
    apply bind_ok in H. destruct H as (newItem & _ & H).
    apply bind_ok in H. destruct H as (newItems & _ & H). eauto.
  - unfold Cart.removeItem in H. apply bind_ok in H. destruct H as (u & Hu & H).
    split; [eapply ensureActive_inv; eauto |].
    destruct (_ =? -1); [discriminate |]. eauto.
  - unfold Cart.updateItemQuantity in H. apply bind_ok in H. destruct H as (u & Hu & H).
    split; [eapply ensureActive_inv; eauto |].
    destruct (_ =? -1); [discriminate |].
    destruct (at_index _ _); [| discriminate].
    apply bind_ok in H. destruct H as (updated & _ & H). eauto.
  - unfold Cart.clearItems in H. apply bind_ok in H. destruct H as (u & Hu & H).
    split; [eapply ensureActive_inv; eauto |]. eauto.
Qed.

(** X15. [Cart.create] throws [InvalidCartError] "User ID is required"
    when the user id is blank; otherwise it returns an ACTIVE cart without
    items, for that user, with the given id, in the given currency (EUR
    when none is given), whose two timestamps are the current time, whose
    total is zero in that currency and whose item count is 0. *)
Theorem Cart_create_cases (fresh : string) (now : Date) (userId : string)
        (currency : option Currency) :
  (isBlank userId = true ->
   Cart.create fresh now userId currency
   = throw (InvalidCartError "User ID is required" (Some [("cartId", JStr fresh)])))
  /\ (isBlank userId = false ->
      exists c, Cart.create fresh now userId currency = ok c
                /\ Cart.status c = ACTIVE
                /\ Cart.items c = []
                /\ Cart.userId c = userId
                /\ CartId.value (Cart.cartId c) = fresh
                /\ Cart.currency c = match currency with Some x => x | None => EUR end
                /\ Cart.createdAt c = now /\ Cart.updatedAt c = now
                /\ Cart.total c = ok (Money.mk 0 (Cart.currency c))
                /\ Cart.itemCount c = 0
                /\ Cart.isEmpty c = true).
Proof.
  unfold Cart.create, Cart.new, Cart.validate.
  cbn [CartProps.userId CartProps.items CartProps.cartId CartProps.currency].
  rewrite blank_guard. split.
  - intros ->. reflexivity.
  - intros ->. cbn. eexists. split; [reflexivity |].
    repeat split.
    unfold Cart.total. cbn. unfold Money.zero. apply Money_new_ok. lia.
Qed.

Lemma Cart_create_cases_witness :
  exists c, Cart.create sampleUuid 0 "user-123" None = ok c /\ Cart.currency c = EUR.
Proof.
  destruct (proj2 (Cart_create_cases sampleUuid 0 "user-123" None))
    as (c & Hc & _ & _ & _ & _ & Hcur & _); [reflexivity |].
  exists c. split; assumption.
Defined.

(** X16. On an ACTIVE cart, [addItem] checks the currency of the price
    before anything else about the item: a price in another currency makes
    it throw [InvalidCartError] "Item currency must match cart currency",
    whatever the name, the quantity and the number of items in the cart.
    With the right currency, item properties that [CartItem.create]
    rejects make it throw that same [InvalidCartItemError], even on a full
    cart. *)
Theorem addItem_failure_precedence (now : Date) (c : Cart.t) (ip : CartItemProps.t) :
  Cart.isActive c = true ->
  (Money.currency (CartItemProps.unitPrice ip) <> Cart.currency c ->
   Cart.addItem now c ip
   = throw (InvalidCartError "Item currency must match cart currency"
              (Some [("cartId", JStr (CartId.value (Cart.cartId c)));
                     ("cartCurrency", JStr (Currency_toString (Cart.currency c)));
                     ("itemCurrency",
                      JStr (Currency_toString
                              (Money.currency (CartItemProps.unitPrice ip))))])))
  /\ (Money.currency (CartItemProps.unitPrice ip) = Cart.currency c ->
      acceptableItem (CartItemProps.productName ip) (CartItemProps.unitPrice ip) = false ->
      exists e, CartItem.create ip = throw e
                /\ Cart.addItem now c ip = throw e
                /\ thrown_code e = Some "INVALID_CART_ITEM").
Proof.
  intros Hact. unfold Cart.addItem. rewrite (ensureActive_ok c Hact). cbn [bind ok].
  split.
  - intros Hne. apply Currency_eqb_neq in Hne. rewrite Hne. reflexivity.
  - intros Heq Hacc. rewrite Heq, Currency_eqb_refl. cbn [negb].
    unfold CartItem.create, CartItem.new.
    destruct (CartItem.validate ip) as [e | []] eqn:Hv.
    + exists e. split; [reflexivity |]. split; [reflexivity |].
      unfold CartItem.validate in Hv.
      repeat match type of Hv with
             | (if ?b then _ else _) = _ => destruct b
             end; inversion Hv; reflexivity.
    + apply CartItem_validate_ok_iff in Hv. congruence.
Qed.

Lemma addItem_failure_precedence_witness :
  exists e, Cart.addItem 1 fullCart (itemProps "PROD-EXTRA" "" 1 1000 EUR) = throw e
            /\ thrown_code e = Some "INVALID_CART_ITEM".
Proof.
  destruct (addItem_failure_precedence 1 fullCart (itemProps "PROD-EXTRA" "" 1 1000 EUR))
    as [_ H]; [reflexivity |].
  destruct H as (e & _ & He & Hcode); [reflexivity | reflexivity |].
  exists e. split; assumption.
Defined.

(** X17. Whenever [addItem], [removeItem], [updateItemQuantity] or
    [clearItems] returns a cart, the receiver was ACTIVE and the result has
    the same cart id, user id, currency, creation time and status, and
    [updatedAt] is the current time.  Whenever [abandon] or [checkout]
    returns a cart, it has the same cart id, user id, currency, creation
    time and items, and [updatedAt] is the current time. *)
Theorem operations_preserve_metadata (now : Date) (this c : Cart.t) :
  ((exists ip, Cart.addItem now this ip = ok c)
   \/ (exists p, Cart.removeItem now this p = ok c)
   \/ (exists p q, Cart.updateItemQuantity now this p q = ok c)
   \/ Cart.clearItems now this = ok c ->
   Cart.status this = ACTIVE /\ Cart.status c = ACTIVE
   /\ Cart.cartId c = Cart.cartId this /\ Cart.userId c = Cart.userId this
   /\ Cart.currency c = Cart.currency this /\ Cart.createdAt c = Cart.createdAt this
   /\ Cart.updatedAt c = now)
  /\ (Cart.abandon now this = ok c \/ Cart.checkout now this = ok c ->
      Cart.items c = Cart.items this
      /\ Cart.cartId c = Cart.cartId this /\ Cart.userId c = Cart.userId this
      /\ Cart.currency c = Cart.currency this /\ Cart.createdAt c = Cart.createdAt this
      /\ Cart.updatedAt c = now).
Proof.
  split.
  - intros H. apply item_mutator_inv in H. destruct H as (Hs & l & H).
    apply withUpdatedItems_eq in H. subst c.
    repeat split; try reflexivity; exact Hs.
  - intros [H | H].
    + apply Cart_new_inv in H. destruct H as [-> _]. repeat split.
    + unfold Cart.checkout in H. destruct (Cart.isEmpty this); [discriminate |].
      apply Cart_new_inv in H. destruct H as [-> _]. repeat split.
Qed.

Lemma operations_preserve_metadata_witness :
  Cart.clearItems 7 saturatedCart
  = ok (Cart.mk (CartProps.mk (CartId.mk sampleUuid) "user-123" [] ACTIVE EUR 0 7))
  /\ Cart.updatedAt (Cart.mk (CartProps.mk (CartId.mk sampleUuid) "user-123" [] ACTIVE EUR 0 7))
     = 7.
Proof.
  split; [reflexivity |].
  apply (proj1 (operations_preserve_metadata 7 saturatedCart
                  (Cart.mk (CartProps.mk (CartId.mk sampleUuid) "user-123" [] ACTIVE EUR 0 7)))).
  right; right; right. reflexivity.
Defined.

(** X18. A cart that is not ACTIVE never becomes ACTIVE again and never
    changes its items: whichever of the six operations returns a cart
    from it, that cart is again not ACTIVE and has the same items. *)
Theorem inactive_cart_is_frozen (now : Date) (this c : Cart.t) :
  Cart.status this <> ACTIVE ->
  (exists ip, Cart.addItem now this ip = ok c)
  \/ (exists p, Cart.removeItem now this p = ok c)
  \/ (exists p q, Cart.updateItemQuantity now this p q = ok c)
  \/ Cart.clearItems now this = ok c
  \/ Cart.abandon now this = ok c
  \/ Cart.checkout now this = ok c ->
  Cart.status c <> ACTIVE /\ Cart.items c = Cart.items this.
Proof.
  intros Hs H.
  assert (Hcases :
            ((exists ip, Cart.addItem now this ip = ok c)
             \/ (exists p, Cart.removeItem now this p = ok c)
             \/ (exists p q, Cart.updateItemQuantity now this p q = ok c)
             \/ Cart.clearItems now this = ok c)
            \/ Cart.abandon now this = ok c \/ Cart.checkout now this = ok c) by tauto.
  clear H. destruct Hcases as [H | [H | H]].
  - apply item_mutator_inv in H. destruct H as [Hact _]. contradiction.
  - apply Cart_new_inv in H. destruct H as [-> _]. split; [discriminate | reflexivity].
  - unfold Cart.checkout in H. destruct (Cart.isEmpty this); [discriminate |].
    apply Cart_new_inv in H. destruct H as [-> _]. split; [discriminate | reflexivity].
Qed.

Lemma inactive_cart_is_frozen_witness :
  Cart.status (cartOf [] CHECKED_OUT EUR) <> ACTIVE
  /\ Cart.abandon 3 (cartOf [] CHECKED_OUT EUR)
     = ok (Cart.mk (CartProps.mk (CartId.mk sampleUuid) "user-123" [] ABANDONED EUR 0 3))
  /\ Cart.status (Cart.mk (CartProps.mk (CartId.mk sampleUuid) "user-123" [] ABANDONED EUR 0 3))
     <> ACTIVE.
Proof.
  split; [simpl; discriminate |]. split; [reflexivity |].
  apply (inactive_cart_is_frozen 3 (cartOf [] CHECKED_OUT EUR)
           (Cart.mk (CartProps.mk (CartId.mk sampleUuid) "user-123" [] ABANDONED EUR 0 3))).
  - simpl. discriminate.
  - right; right; right; right; left. reflexivity.
Defined.

(** ** Cart: effect of the item operations on items, total and count *)

Lemma sumCents_app (l1 l2 : list CartItem.t) :
  sumCents (l1 ++ l2) = sumCents l1 + sumCents l2.
Proof. induction l1 as [| i r IH]; simpl; [reflexivity | rewrite IH; lia]. Qed.

Lemma sumQuantities_app (l1 l2 : list CartItem.t) :
  sumQuantities (l1 ++ l2) = sumQuantities l1 + sumQuantities l2.
Proof. induction l1 as [| i r IH]; simpl; [reflexivity | rewrite IH; lia]. Qed.

Lemma Cart_total_value (c : Cart.t) :
  Cart.wf c = true ->
  sumCents (Cart.items c) <= MAX_SAFE_INTEGER ->
  Cart.total c = ok (Money.mk (sumCents (Cart.items c)) (Cart.currency c)).
Proof.
  intros Hwf Hmax. apply Cart_wf_parts in Hwf. destruct Hwf as [(_ & Hsame & _) Hall].
  unfold Cart.total. destruct (Cart.items c) as [| i r] eqn:E.
  - cbn [length_Z List.length Z.of_nat Z.eqb sumCents].
    unfold Money.zero. apply Money_new_ok. lia.
  - replace (length_Z (i :: r) =? 0) with false
      by (symmetry; apply Z.eqb_neq; unfold length_Z; simpl List.length; lia).
    unfold Money.zero. rewrite Money_new_ok by lia. cbn [bind ok].
    apply (total_fold (Cart.currency c) (i :: r) 0 Hall Hsame); lia.
Qed.

Lemma Cart_itemCount_value (c : Cart.t) :
  Cart.itemCount c = sumQuantities (Cart.items c).
Proof. unfold Cart.itemCount. apply itemCount_fold. Qed.

Lemma withItems_wf (now : Date) (c : Cart.t) (l : list CartItem.t) :
  Cart.wf c = true ->
  length_Z l <= 100 ->
  Forall (fun i => Money.currency (CartItem.unitPrice i) = Cart.currency c) l ->
  Forall (fun i => CartItem.wf i = true) l ->
  Cart.withUpdatedItems now c l
  = ok (Cart.mk (CartProps.mk (Cart.cartId c) (Cart.userId c) l (Cart.status c)
                   (Cart.currency c) (Cart.createdAt c) now))
  /\ Cart.wf (Cart.mk (CartProps.mk (Cart.cartId c) (Cart.userId c) l (Cart.status c)
                         (Cart.currency c) (Cart.createdAt c) now)) = true.
Proof.
  intros Hwf Hlen Hcur Hall. apply Cart_wf_parts in Hwf. destruct Hwf as [Hinv _].
  split.
  - apply withUpdatedItems_ok; assumption.
  - apply Cart_wf_intro; [| exact Hall].
    destruct Hinv as (_ & _ & Hu). repeat split; assumption.
Qed.

Lemma removeItem_found_path (now : Date) (c : Cart.t) (p : ProductId.t)
      (pre post : list CartItem.t) (x : CartItem.t) :
  Cart.isActive c = true ->
  Cart.items c = (pre ++ x :: post)%list ->
  existsb (hasProduct p) pre = false ->
  hasProduct p x = true ->
  Cart.removeItem now c p = Cart.withUpdatedItems now c (pre ++ post)%list.
Proof.
  intros Hact Hitems Hpre Hx. unfold Cart.removeItem.
  rewrite (ensureActive_ok c Hact). cbn [bind ok]. cbv zeta.
  rewrite Hitems. apply existsb_false_Forall in Hpre.
  rewrite (findIndex_first (fun item => ProductId.equals (CartItem.productId item) p)
             pre post x Hpre Hx).
  replace (length_Z pre =? -1) with false
    by (symmetry; apply Z.eqb_neq; unfold length_Z; lia).
  rewrite slice_to_middle, slice_from_middle. reflexivity.
Qed.

Lemma updateItemQuantity_found_path (now : Date) (c : Cart.t) (p : ProductId.t)
      (q : Quantity.t) (pre post : list CartItem.t) (x : CartItem.t) :
  Cart.isActive c = true ->
  Cart.items c = (pre ++ x :: post)%list ->
  existsb (hasProduct p) pre = false ->
  hasProduct p x = true ->
  Cart.updateItemQuantity now c p q
  = (updatedItem <- CartItem.updateQuantity x q ;;
     Cart.withUpdatedItems now c (pre ++ updatedItem :: post)%list).
Proof.
  intros Hact Hitems Hpre Hx. unfold Cart.updateItemQuantity.
  rewrite (ensureActive_ok c Hact). cbn [bind ok]. cbv zeta.
  rewrite Hitems. apply existsb_false_Forall in Hpre.
  rewrite (findIndex_first (fun item => ProductId.equals (CartItem.productId item) p)
             pre post x Hpre Hx).
  replace (length_Z pre =? -1) with false
    by (symmetry; apply Z.eqb_neq; unfold length_Z; lia).
  rewrite at_index_middle, slice_to_middle, slice_from_middle.
  destruct (CartItem.updateQuantity x q); reflexivity.
Qed.

Lemma Forall_middle {A : Type} (P : A -> Prop) (pre post : list A) (x : A) :
  Forall P (pre ++ x :: post) <-> Forall P pre /\ P x /\ Forall P post.
Proof.
  rewrite Forall_app. split.
  - intros [H1 H2]. inversion H2; subst. auto.
  - intros (H1 & H2 & H3). split; [exact H1 | constructor; assumption].
Qed.

Lemma length_Z_app {A : Type} (l1 l2 : list A) :
  length_Z (l1 ++ l2) = length_Z l1 + length_Z l2.
Proof. unfold length_Z. rewrite length_app. lia. Qed.

Lemma length_Z_cons {A : Type} (x : A) (l : list A) :
  length_Z (x :: l) = 1 + length_Z l.
Proof. unfold length_Z. simpl List.length. lia. Qed.

Lemma CartItem_wf_intro (p : CartItemProps.t) :
  acceptableItem (CartItemProps.productName p) (CartItemProps.unitPrice p) = true ->
  Money.wf (CartItemProps.unitPrice p) = true ->
  Quantity.wf (CartItemProps.quantity p) = true ->
  CartItem.wf (CartItem.mk p) = true.
Proof.
  intros Hacc Hm Hq. unfold CartItem.wf.
  apply CartItem_validate_ok_iff in Hacc. cbn [CartItem.props]. rewrite Hacc.
  unfold CartItem.unitPrice, CartItem.quantity. cbn [CartItem.props].
  rewrite Hm, Hq. reflexivity.
Qed.

Lemma CartItem_wf_requantified (x : CartItem.t) (q : Quantity.t) :
  CartItem.wf x = true -> Quantity.wf q = true ->
  CartItem.wf (CartItem.mk (CartItemProps.mk (CartItem.productId x) (CartItem.productName x) q
                                             (CartItem.unitPrice x))) = true.
Proof.
  intros Hx Hq. unfold CartItem.wf in *.
  apply andb_true_iff in Hx. destruct Hx as [Hx _].
  apply andb_true_iff in Hx. destruct Hx as [Hv Hm].
  apply is_ok_unit in Hv. apply CartItem_validate_ok_iff in Hv.
  apply CartItem_wf_intro; assumption.
Qed.

Lemma sumCents_middle (pre post : list CartItem.t) (x : CartItem.t) :
  sumCents (pre ++ x :: post)
  = sumCents pre
    + Money.amountInCents (CartItem.unitPrice x) * Quantity.value (CartItem.quantity x)
    + sumCents post.
Proof. rewrite sumCents_app. simpl. lia. Qed.

Lemma sumQuantities_middle (pre post : list CartItem.t) (x : CartItem.t) :
  sumQuantities (pre ++ x :: post)
  = sumQuantities pre + Quantity.value (CartItem.quantity x) + sumQuantities post.
Proof. rewrite sumQuantities_app. simpl. lia. Qed.

Lemma Cart_items_mk (cid : CartId.t) (uid : string) (l : list CartItem.t)
      (st : CartStatus) (cur : Currency) (ca ua : Date) :
  Cart.items (Cart.mk (CartProps.mk cid uid l st cur ca ua)) = l.
Proof. reflexivity. Qed.

(** X19. On an ACTIVE cart with fewer than 100 line items, [addItem] for
    a product that is not in the cart, with acceptable properties in the
    currency of the cart, appends the new line after the existing ones:
    the item count grows by the quantity and, as long as the new sum of
    unit price times quantity is at most [Number.MAX_SAFE_INTEGER] cents,
    the total grows by the unit price times the quantity. *)
Theorem addItem_appends_new_product (now : Date) (c : Cart.t) (ip : CartItemProps.t) :
  Cart.wf c = true ->
  Cart.isActive c = true ->
  Quantity.wf (CartItemProps.quantity ip) = true ->
  Money.wf (CartItemProps.unitPrice ip) = true ->
  Money.currency (CartItemProps.unitPrice ip) = Cart.currency c ->
  acceptableItem (CartItemProps.productName ip) (CartItemProps.unitPrice ip) = true ->
  existsb (hasProduct (CartItemProps.productId ip)) (Cart.items c) = false ->
  length_Z (Cart.items c) < 100 ->
  sumCents (Cart.items c)
  + Money.amountInCents (CartItemProps.unitPrice ip)
    * Quantity.value (CartItemProps.quantity ip) <= MAX_SAFE_INTEGER ->
  exists c' t t',
    Cart.addItem now c ip = ok c'
    /\ Cart.items c' = (Cart.items c ++ [CartItem.mk ip])%list
    /\ Cart.wf c' = true
    /\ Cart.itemCount c' = Cart.itemCount c + Quantity.value (CartItemProps.quantity ip)
    /\ Cart.total c = ok t /\ Cart.total c' = ok t'
    /\ Money.amountInCents t'
       = Money.amountInCents t
         + Money.amountInCents (CartItemProps.unitPrice ip)
           * Quantity.value (CartItemProps.quantity ip).
Proof.
  intros Hwf Hact Hq Hm Hcur Hacc Habs Hlen Hmax.
  pose proof (Cart_wf_parts c Hwf) as [(_ & Hsame & _) Hall].
  assert (Hline : 0 <= Money.amountInCents (CartItemProps.unitPrice ip)
                       * Quantity.value (CartItemProps.quantity ip)).
  { apply Money_wf_nonneg in Hm. apply Quantity_wf_range in Hq. nia. }
  pose proof (sumCents_nonneg _ Hall) as Hsum0.
  rewrite (addItem_append_path now c ip Hact Hcur Hacc Habs).
  replace (length_Z (Cart.items c) >=? 100) with false
    by (symmetry; rewrite Z.geb_leb; apply Z.leb_gt; lia).
  destruct (withItems_wf now c (Cart.items c ++ [CartItem.mk ip]) Hwf) as [Hok Hwf'].
  - rewrite length_Z_app, length_Z_cons. unfold length_Z at 2. simpl. lia.
  - apply Forall_app. split; [exact Hsame |]. constructor; [exact Hcur | constructor].
  - apply Forall_app. split; [exact Hall |].
    constructor; [apply CartItem_wf_intro; assumption | constructor].
  - rewrite Hok. eexists. eexists. eexists.
    split; [reflexivity |]. split; [reflexivity |]. split; [exact Hwf' |].
    split.
    + rewrite !Cart_itemCount_value. rewrite Cart_items_mk. rewrite sumQuantities_app.
      simpl. unfold CartItem.quantity. cbn [CartItem.props]. lia.
    + assert (Hnew : sumCents (Cart.items c ++ [CartItem.mk ip])
                     = sumCents (Cart.items c)
                       + Money.amountInCents (CartItemProps.unitPrice ip)
                         * Quantity.value (CartItemProps.quantity ip)).
      { rewrite sumCents_app. simpl.
        unfold CartItem.quantity, CartItem.unitPrice. cbn [CartItem.props]. lia. }
      split; [apply Cart_total_value; [exact Hwf | lia] |].
      split; [apply Cart_total_value; [exact Hwf' | rewrite Cart_items_mk; lia] |].
      rewrite Cart_items_mk. cbn [Money.amountInCents Money._amountInCents].
      exact Hnew.
Qed.

Lemma addItem_appends_new_product_witness :
  exists c', Cart.addItem 1 almostFullCart (itemProps "PROD-EXTRA" "Product" 2 1000 EUR) = ok c'
             /\ Cart.itemCount c' = Cart.itemCount almostFullCart + 2.
Proof.
  destruct (addItem_appends_new_product 1 almostFullCart
              (itemProps "PROD-EXTRA" "Product" 2 1000 EUR))
    as (c' & t & t' & Hadd & _ & _ & Hcount & _);
    [by_evaluation .. |].
  exists c'. split; [exact Hadd | exact Hcount].
Defined.

(** X20. When [addItem] merges into an existing line, the added units are
    charged at the unit price already in the cart, not at the price
    supplied with the call: the item count grows by the added quantity
    and, as long as the new sum of unit price times quantity is at most
    [Number.MAX_SAFE_INTEGER] cents, the total grows by the existing unit
    price times the added quantity. *)
Theorem addItem_merge_charges_existing_price
        (now : Date) (c : Cart.t) (ip : CartItemProps.t)
        (pre post : list CartItem.t) (existing : CartItem.t) :
  Cart.wf c = true ->
  Cart.isActive c = true ->
  Quantity.wf (CartItemProps.quantity ip) = true ->
  Money.currency (CartItemProps.unitPrice ip) = Cart.currency c ->
  acceptableItem (CartItemProps.productName ip) (CartItemProps.unitPrice ip) = true ->
  Cart.items c = (pre ++ existing :: post)%list ->
  existsb (hasProduct (CartItemProps.productId ip)) pre = false ->
  hasProduct (CartItemProps.productId ip) existing = true ->
  Quantity.value (CartItem.quantity existing) + Quantity.value (CartItemProps.quantity ip)
    <= 999 ->
  sumCents (Cart.items c)
  + Money.amountInCents (CartItem.unitPrice existing)
    * Quantity.value (CartItemProps.quantity ip) <= MAX_SAFE_INTEGER ->
  exists c' t t',
    Cart.addItem now c ip = ok c'
    /\ Cart.wf c' = true
    /\ Cart.itemCount c' = Cart.itemCount c + Quantity.value (CartItemProps.quantity ip)
    /\ Cart.total c = ok t /\ Cart.total c' = ok t'
    /\ Money.amountInCents t'
       = Money.amountInCents t
         + Money.amountInCents (CartItem.unitPrice existing)
           * Quantity.value (CartItemProps.quantity ip).
Proof.
  intros Hwf Hact Hq2 Hcur Hacc Hitems Hpre Hex Hsum Hmax.
  pose proof (Cart_wf_parts c Hwf) as [(Hlen & Hsame & _) Hall].
  pose proof (sumCents_nonneg _ Hall) as Hsum0.
  rewrite Hitems in Hall, Hsame, Hlen.
  apply Forall_middle in Hall. destruct Hall as (Hall1 & Hexwf & Hall2).
  apply Forall_middle in Hsame. destruct Hsame as (Hs1 & Hsx & Hs2).
  pose proof (CartItem_wf_parts existing Hexwf) as (Hval & Hprice & Hq1).
  pose proof Hq2 as Hq2r. apply Quantity_wf_range in Hq2r.
  rewrite (addItem_merge_path now c ip pre post existing Hact Hcur Hacc Hitems Hpre Hex).
  unfold CartItem.increaseQuantity, Quantity.add.
  fold (Quantity.value (CartItem.quantity existing)).
  fold (Quantity.value (CartItemProps.quantity ip)).
  rewrite Quantity_from_ok by lia. cbn [bind ok].
  rewrite (CartItem_updateQuantity_ok existing _ Hval). cbn [bind ok].
  set (merged := CartItem.mk _).
  assert (Hmwf : CartItem.wf merged = true).
  { apply CartItem_wf_requantified; [exact Hexwf |].
    apply Quantity_wf_range. cbn. lia. }
  destruct (withItems_wf now c (pre ++ merged :: post) Hwf) as [Hok Hwf'].
  - rewrite length_Z_app, length_Z_cons in *. lia.
  - apply Forall_middle. repeat split; assumption.
  - apply Forall_middle. repeat split; assumption.
  - rewrite Hok. eexists. eexists. eexists.
    split; [reflexivity |]. split; [exact Hwf' |].
    split.
    + rewrite !Cart_itemCount_value. rewrite Cart_items_mk. rewrite Hitems, !sumQuantities_middle.
      subst merged. cbn. lia.
    + assert (Hnew : sumCents (pre ++ merged :: post)
                     = sumCents (Cart.items c)
                       + Money.amountInCents (CartItem.unitPrice existing)
                         * Quantity.value (CartItemProps.quantity ip)).
      { rewrite Hitems, !sumCents_middle. subst merged. cbn.
        unfold Money.amountInCents, Quantity.value. lia. }
      split; [apply Cart_total_value; [exact Hwf | nia] |].
      split; [apply Cart_total_value; [exact Hwf' | rewrite Cart_items_mk; lia] |].
      rewrite Cart_items_mk. cbn [Money.amountInCents Money._amountInCents].
      exact Hnew.
Qed.

Lemma addItem_merge_charges_existing_price_witness :
  exists c' t',
    Cart.addItem 3 (cartOf [CartItem.mk (itemProps "PROD-001" "Blue Widget" 2 2999 EUR)] ACTIVE EUR)
                 (itemProps "PROD-001" "Green Widget" 3 3500 EUR) = ok c'
    /\ Cart.total c' = ok t'
    /\ Money.amountInCents t' = 5998 + 2999 * 3.
Proof.
  destruct (addItem_merge_charges_existing_price 3
              (cartOf [CartItem.mk (itemProps "PROD-001" "Blue Widget" 2 2999 EUR)] ACTIVE EUR)
              (itemProps "PROD-001" "Green Widget" 3 3500 EUR)
              [] [] (CartItem.mk (itemProps "PROD-001" "Blue Widget" 2 2999 EUR)))
    as (c' & t & t' & Hadd & _ & _ & Ht & Ht' & Hsum);
    [by_evaluation .. |].
  exists c', t'. split; [exact Hadd |]. split; [exact Ht' |].
  rewrite Hsum. vm_compute in Ht. inversion Ht. reflexivity.
Defined.

(** X21. On an ACTIVE cart, [removeItem] for a product that is in the cart
    removes its first line and keeps every other line in order: there is
    one line less, the item count drops by the quantity of that line and,
    as long as the sum of unit price times quantity over the cart is at
    most [Number.MAX_SAFE_INTEGER] cents, the total drops by its unit
    price times its quantity. *)
Theorem removeItem_removes_line (now : Date) (c : Cart.t) (p : ProductId.t)
        (pre post : list CartItem.t) (x : CartItem.t) :
  Cart.wf c = true ->
  Cart.isActive c = true ->
  Cart.items c = (pre ++ x :: post)%list ->
  existsb (hasProduct p) pre = false ->
  hasProduct p x = true ->
  sumCents (Cart.items c) <= MAX_SAFE_INTEGER ->
  exists c' t t',
    Cart.removeItem now c p = ok c'
    /\ Cart.items c' = (pre ++ post)%list
    /\ length_Z (Cart.items c') = length_Z (Cart.items c) - 1
    /\ Cart.wf c' = true
    /\ Cart.itemCount c' = Cart.itemCount c - Quantity.value (CartItem.quantity x)
    /\ Cart.total c = ok t /\ Cart.total c' = ok t'
    /\ Money.amountInCents t'
       = Money.amountInCents t
         - Money.amountInCents (CartItem.unitPrice x) * Quantity.value (CartItem.quantity x).
Proof.
  intros Hwf Hact Hitems Hpre Hx Hmax.
  pose proof (Cart_wf_parts c Hwf) as [(Hlen & Hsame & _) Hall].
  rewrite Hitems in Hall, Hsame, Hlen.
  apply Forall_middle in Hall. destruct Hall as (Hall1 & Hxwf & Hall2).
  pose proof (CartItem_wf_parts x Hxwf) as (_ & Hprice & Hqx).
  apply Forall_middle in Hsame. destruct Hsame as (Hs1 & _ & Hs2).
  rewrite (removeItem_found_path now c p pre post x Hact Hitems Hpre Hx).
  destruct (withItems_wf now c (pre ++ post) Hwf) as [Hok Hwf'].
  - rewrite length_Z_app, length_Z_cons in Hlen. rewrite length_Z_app. lia.
  - apply Forall_app. split; assumption.
  - apply Forall_app. split; assumption.
  - rewrite Hok. eexists. eexists. eexists.
    split; [reflexivity |]. split; [reflexivity |].
    split.
    { rewrite Cart_items_mk.
      rewrite Hitems, !length_Z_app, length_Z_cons. lia. }
    split; [exact Hwf' |].
    split.
    + rewrite !Cart_itemCount_value. rewrite Cart_items_mk. rewrite Hitems, sumQuantities_middle,
        sumQuantities_app. lia.
    + assert (Hnew : sumCents (pre ++ post)
                     = sumCents (Cart.items c)
                       - Money.amountInCents (CartItem.unitPrice x)
                         * Quantity.value (CartItem.quantity x)).
      { rewrite Hitems, sumCents_middle, sumCents_app. lia. }
      split; [apply Cart_total_value; [exact Hwf | exact Hmax] |].
      split; [apply Cart_total_value; [exact Hwf' | rewrite Cart_items_mk; nia] |].
      rewrite Cart_items_mk. cbn [Money.amountInCents Money._amountInCents].
      exact Hnew.
Qed.

Lemma removeItem_removes_line_witness :
  exists c', Cart.removeItem 4 saturatedCart (ProductId.mk "PROD-123") = ok c'
             /\ Cart.items c' = [].
Proof.
  destruct (removeItem_removes_line 4 saturatedCart (ProductId.mk "PROD-123") [] []
              (CartItem.mk (itemProps "PROD-123" "Blue Widget" 999 1999 EUR)))
    as (c' & t & t' & Hrem & Hitems & _); [by_evaluation .. |].
  exists c'. split; assumption.
Defined.

(** X22. On an ACTIVE cart, [removeItem] and [updateItemQuantity] for a
    product that is not in the cart throw [InvalidCartError] "Item not
    found in cart", whose context names the cart and the product. *)
Theorem item_not_found (now : Date) (c : Cart.t) (p : ProductId.t) (q : Quantity.t) :
  Cart.isActive c = true ->
  existsb (hasProduct p) (Cart.items c) = false ->
  exists e,
    e = InvalidCartError "Item not found in cart"
          (Some [("cartId", JStr (CartId.value (Cart.cartId c)));
                 ("productId", JStr (ProductId.value p))])
    /\ Cart.removeItem now c p = throw e
    /\ Cart.updateItemQuantity now c p q = throw e.
Proof.
  intros Hact Habs. eexists. split; [reflexivity |].
  unfold Cart.removeItem, Cart.updateItemQuantity.
  rewrite (ensureActive_ok c Hact). cbn [bind ok]. cbv zeta.
  apply existsb_false_Forall in Habs.
  rewrite (findIndex_absent (fun item => ProductId.equals (CartItem.productId item) p)
             (Cart.items c) Habs).
  split; reflexivity.
Qed.

Lemma item_not_found_witness :
  Cart.removeItem 1 (cartOf [] ACTIVE EUR) (ProductId.mk "PROD-999")
  = throw (InvalidCartError "Item not found in cart"
             (Some [("cartId", JStr sampleUuid); ("productId", JStr "PROD-999")])).
Proof.
  destruct (item_not_found 1 (cartOf [] ACTIVE EUR) (ProductId.mk "PROD-999") (Quantity.mk 1))
    as (e & He & Hrem & _); [reflexivity .. |].
  rewrite Hrem, He. reflexivity.
Defined.

(** X23. On an ACTIVE cart, [updateItemQuantity] for a product that is in
    the cart replaces the quantity of its first line by the new quantity
    (it does not add to it) and keeps the position, the name and the unit
    price of that line and every other line; as long as the sum of unit
    price times quantity is at most [Number.MAX_SAFE_INTEGER] cents before
    and after, the total changes by the unit price times the difference of
    the quantities. *)
Theorem updateItemQuantity_replaces_quantity
        (now : Date) (c : Cart.t) (p : ProductId.t) (q : Quantity.t)
        (pre post : list CartItem.t) (x : CartItem.t) :
  Cart.wf c = true ->
  Cart.isActive c = true ->
  Quantity.wf q = true ->
  Cart.items c = (pre ++ x :: post)%list ->
  existsb (hasProduct p) pre = false ->
  hasProduct p x = true ->
  sumCents (Cart.items c) <= MAX_SAFE_INTEGER ->
  sumCents (Cart.items c)
  + Money.amountInCents (CartItem.unitPrice x)
    * (Quantity.value q - Quantity.value (CartItem.quantity x)) <= MAX_SAFE_INTEGER ->
  exists c' x' t t',
    Cart.updateItemQuantity now c p q = ok c'
    /\ Cart.items c' = (pre ++ x' :: post)%list
    /\ CartItem.quantity x' = q
    /\ CartItem.productId x' = CartItem.productId x
    /\ CartItem.productName x' = CartItem.productName x
    /\ CartItem.unitPrice x' = CartItem.unitPrice x
    /\ Cart.wf c' = true
    /\ Cart.total c = ok t /\ Cart.total c' = ok t'
    /\ Money.amountInCents t'
       = Money.amountInCents t
         + Money.amountInCents (CartItem.unitPrice x)
           * (Quantity.value q - Quantity.value (CartItem.quantity x)).
Proof.
  intros Hwf Hact Hq Hitems Hpre Hx Hmax Hmax'.
  pose proof (Cart_wf_parts c Hwf) as [(Hlen & Hsame & _) Hall].
  rewrite Hitems in Hall, Hsame, Hlen.
  apply Forall_middle in Hall. destruct Hall as (Hall1 & Hxwf & Hall2).
  apply Forall_middle in Hsame. destruct Hsame as (Hs1 & Hsx & Hs2).
  pose proof (CartItem_wf_parts x Hxwf) as (Hval & _ & _).
  rewrite (updateItemQuantity_found_path now c p q pre post x Hact Hitems Hpre Hx).
  rewrite (CartItem_updateQuantity_ok x q Hval). cbn [bind ok].
  set (x' := CartItem.mk _).
  assert (Hx'wf : CartItem.wf x' = true) by (apply CartItem_wf_requantified; assumption).
  destruct (withItems_wf now c (pre ++ x' :: post) Hwf) as [Hok Hwf'].
  - rewrite length_Z_app, length_Z_cons in *. lia.
  - apply Forall_middle. repeat split; assumption.
  - apply Forall_middle. repeat split; assumption.
  - rewrite Hok. eexists. exists x'. eexists. eexists.
    split; [reflexivity |]. split; [reflexivity |].
    split; [reflexivity |]. split; [reflexivity |].
    split; [reflexivity |]. split; [reflexivity |].
    split; [exact Hwf' |].
    assert (Hnew : sumCents (pre ++ x' :: post)
                   = sumCents (Cart.items c)
                     + Money.amountInCents (CartItem.unitPrice x)
                       * (Quantity.value q - Quantity.value (CartItem.quantity x))).
    { rewrite Hitems, !sumCents_middle. subst x'. cbn.
      unfold Money.amountInCents, Quantity.value. lia. }
    split; [apply Cart_total_value; [exact Hwf | exact Hmax] |].
    split; [apply Cart_total_value; [exact Hwf' | rewrite Cart_items_mk; lia] |].
    rewrite Cart_items_mk. cbn [Money.amountInCents Money._amountInCents].
    exact Hnew.
Qed.

Lemma updateItemQuantity_replaces_quantity_witness :
  exists c', Cart.updateItemQuantity 4 saturatedCart (ProductId.mk "PROD-123") (Quantity.mk 5)
             = ok c'
             /\ Cart.items c' = [CartItem.mk (itemProps "PROD-123" "Blue Widget" 5 1999 EUR)].
Proof.
  destruct (updateItemQuantity_replaces_quantity 4 saturatedCart (ProductId.mk "PROD-123")
              (Quantity.mk 5) [] []
              (CartItem.mk (itemProps "PROD-123" "Blue Widget" 999 1999 EUR)))
    as (c' & x' & t & t' & Hup & Hitems & Hq & Hp & Hn & Hu & _); [by_evaluation .. |].
  exists c'. split; [exact Hup |]. rewrite Hitems. simpl.
  destruct x' as [[xp xn xq xu]].
  unfold CartItem.productId, CartItem.productName, CartItem.unitPrice, CartItem.quantity in *;
    simpl in *.
  subst. reflexivity.
Defined.

(** X24. On an ACTIVE cart, [clearItems] returns a cart without items,
    whose total is zero in the currency of the cart and whose item count
    is 0; [checkout] on that cart throws [InvalidCartError] "Cannot
    checkout empty cart". *)
Theorem clearItems_empties_cart (now later : Date) (c : Cart.t) :
  Cart.wf c = true ->
  Cart.isActive c = true ->
  exists c',
    Cart.clearItems now c = ok c'
    /\ Cart.items c' = []
    /\ Cart.isEmpty c' = true
    /\ Cart.itemCount c' = 0
    /\ Cart.total c' = ok (Money.mk 0 (Cart.currency c))
    /\ Cart.checkout later c'
       = throw (InvalidCartError "Cannot checkout empty cart"
                  (Some [("cartId", JStr (CartId.value (Cart.cartId c)))])).
Proof.
  intros Hwf Hact. unfold Cart.clearItems.
  rewrite (ensureActive_ok c Hact). cbn [bind ok].
  destruct (withItems_wf now c [] Hwf) as [Hok Hwf'].
  - unfold length_Z. simpl. lia.
  - constructor.
  - constructor.
  - rewrite Hok. eexists. split; [reflexivity |].
    split; [reflexivity |]. split; [reflexivity |]. split; [reflexivity |].
    split; [| reflexivity].
    rewrite (Cart_total_value _ Hwf') by (apply Z.leb_le; reflexivity).
    reflexivity.
Qed.

Lemma clearItems_empties_cart_witness :
  exists c', Cart.clearItems 5 saturatedCart = ok c' /\ Cart.items c' = [].
Proof.
  destruct (clearItems_empties_cart 5 6 saturatedCart) as (c' & Hc & Hi & _);
    [reflexivity .. |].
  exists c'. split; assumption.
Defined.

(** X25. [removeItem] undoes the [addItem] of a new product: after adding
    a product that was not in the cart and removing it again, the cart has
    the line items it had before. *)
Theorem addItem_removeItem_roundtrip (now later : Date) (c : Cart.t) (ip : CartItemProps.t) :
  Cart.wf c = true ->
  Cart.isActive c = true ->
  Quantity.wf (CartItemProps.quantity ip) = true ->
  Money.wf (CartItemProps.unitPrice ip) = true ->
  Money.currency (CartItemProps.unitPrice ip) = Cart.currency c ->
  acceptableItem (CartItemProps.productName ip) (CartItemProps.unitPrice ip) = true ->
  existsb (hasProduct (CartItemProps.productId ip)) (Cart.items c) = false ->
  length_Z (Cart.items c) < 100 ->
  exists c1 c2,
    Cart.addItem now c ip = ok c1
    /\ Cart.removeItem later c1 (CartItemProps.productId ip) = ok c2
    /\ Cart.items c2 = Cart.items c
    /\ Cart.status c2 = Cart.status c
    /\ Cart.currency c2 = Cart.currency c.
Proof.
  intros Hwf Hact Hq Hm Hcur Hacc Habs Hlen.
  pose proof (Cart_wf_parts c Hwf) as [(_ & Hsame & _) Hall].
  rewrite (addItem_append_path now c ip Hact Hcur Hacc Habs).
  replace (length_Z (Cart.items c) >=? 100) with false
    by (symmetry; rewrite Z.geb_leb; apply Z.leb_gt; lia).
  destruct (withItems_wf now c (Cart.items c ++ [CartItem.mk ip]) Hwf) as [Hok Hwf1].
  - rewrite length_Z_app, length_Z_cons. unfold length_Z at 2. simpl. lia.
  - apply Forall_app. split; [exact Hsame |]. constructor; [exact Hcur | constructor].
  - apply Forall_app. split; [exact Hall |].
    constructor; [apply CartItem_wf_intro; assumption | constructor].
  - rewrite Hok. set (c1 := Cart.mk _) in *.
    assert (Hact1 : Cart.isActive c1 = true) by exact Hact.
    assert (Hself : hasProduct (CartItemProps.productId ip) (CartItem.mk ip) = true)
      by apply ProductId_equals_refl.
    exists c1.
    rewrite (removeItem_found_path later c1 (CartItemProps.productId ip)
               (Cart.items c) [] (CartItem.mk ip) Hact1 eq_refl Habs Hself).
    rewrite app_nil_r.
    destruct (withItems_wf later c1 (Cart.items c) Hwf1) as [Hok2 _].
    + lia.
    + exact Hsame.
    + exact Hall.
    + rewrite Hok2. eexists. split; [reflexivity |].
      split; [reflexivity |]. repeat split.
Qed.

Lemma addItem_removeItem_roundtrip_witness :
  exists c1 c2,
    Cart.addItem 1 (cartOf [] ACTIVE EUR) (itemProps "PROD-001" "Blue Widget" 2 2999 EUR) = ok c1
    /\ Cart.removeItem 2 c1 (ProductId.mk "PROD-001") = ok c2
    /\ Cart.items c2 = [].
Proof.
  destruct (addItem_removeItem_roundtrip 1 2 (cartOf [] ACTIVE EUR)
              (itemProps "PROD-001" "Blue Widget" 2 2999 EUR))
    as (c1 & c2 & H1 & H2 & H3 & _); [reflexivity .. |].
  exists c1, c2. repeat split; assumption.
Defined.

(** ** Cart: distinct products *)

Lemma hasProduct_sym (a b : CartItem.t) :
  hasProduct (CartItem.productId a) b = hasProduct (CartItem.productId b) a.
Proof. unfold hasProduct, ProductId.equals. apply String.eqb_sym. Qed.

Lemma existsb_hasProduct_ids (p : ProductId.t) (l1 l2 : list CartItem.t) :
  map CartItem.productId l1 = map CartItem.productId l2 ->
  existsb (hasProduct p) l1 = existsb (hasProduct p) l2.
Proof.
  revert l2. induction l1 as [| a r IH]; intros [| b r2]; simpl; try discriminate.
  - reflexivity.
  - intros H. inversion H as [[Hab Hr]].
    unfold hasProduct at 1 3. rewrite Hab. f_equal. apply IH. exact Hr.
Qed.

Lemma distinctProducts_ids (l1 l2 : list CartItem.t) :
  map CartItem.productId l1 = map CartItem.productId l2 ->
  distinctProducts l1 = distinctProducts l2.
Proof.
  revert l2. induction l1 as [| a r IH]; intros [| b r2]; simpl; try discriminate.
  - reflexivity.
  - intros H. inversion H as [[Hab Hr]].
    rewrite Hab, (existsb_hasProduct_ids (CartItem.productId b) r r2 Hr), (IH r2 Hr).
    reflexivity.
Qed.

Lemma distinctProducts_remove (pre post : list CartItem.t) (x : CartItem.t) :
  distinctProducts (pre ++ x :: post) = true -> distinctProducts (pre ++ post) = true.
Proof.
  induction pre as [| a r IH]; simpl.
  - rewrite andb_true_iff. tauto.
  - rewrite !andb_true_iff, !negb_true_iff, !existsb_app. simpl.
    rewrite !orb_false_iff. intros [(H1 & _ & H2) H3]. auto.
Qed.

Lemma distinctProducts_snoc (l : list CartItem.t) (x : CartItem.t) :
  distinctProducts l = true ->
  existsb (hasProduct (CartItem.productId x)) l = false ->
  distinctProducts (l ++ [x]) = true.
Proof.
  induction l as [| a r IH]; simpl.
  - reflexivity.
  - rewrite !andb_true_iff, !negb_true_iff, !orb_false_iff, existsb_app. simpl.
    intros [H1 H2] [H3 H4]. split.
    + rewrite H1, orb_false_r. simpl. rewrite hasProduct_sym. exact H3.
    + apply IH; assumption.
Qed.

Lemma CartItem_create_inv (p : CartItemProps.t) (i : CartItem.t) :
  CartItem.create p = ok i -> i = CartItem.mk p.
Proof.
  unfold CartItem.create, CartItem.new. intros H.
  apply bind_ok in H. destruct H as (_ & _ & H). inversion H. reflexivity.
Qed.

(** What [addItem] did to the items when it returned a cart. *)
Lemma addItem_items_inv (now : Date) (this c : Cart.t) (ip : CartItemProps.t) :
  Cart.addItem now this ip = ok c ->
  (exists pre existing post merged,
      Cart.items this = (pre ++ existing :: post)%list
      /\ CartItem.productId merged = CartItem.productId existing
      /\ Cart.items c = (pre ++ merged :: post)%list)
  \/ (existsb (hasProduct (CartItemProps.productId ip)) (Cart.items this) = false
      /\ Cart.items c = (Cart.items this ++ [CartItem.mk ip])%list).
Proof.
  unfold Cart.addItem. intros H.
  apply bind_ok in H. destruct H as (_ & _ & H).
  destruct (negb _); [discriminate |].
  apply bind_ok in H. destruct H as (newItem & Hnew & H).
  apply CartItem_create_inv in Hnew. subst newItem.
  apply bind_ok in H. destruct H as (newItems & Hitems & H).
  apply withUpdatedItems_eq in H. subst c. rewrite Cart_items_mk.
  cbv zeta in Hitems.
  change (fun item => ProductId.equals (CartItem.productId item)
                                       (CartItem.productId (CartItem.mk ip)))
    with (hasProduct (CartItemProps.productId ip)) in Hitems.
  destruct (findIndex (hasProduct (CartItemProps.productId ip)) (Cart.items this) >=? 0) eqn:E.
  - left. rewrite Z.geb_leb in E. apply Z.leb_le in E.
    destruct (findIndex_found _ _ E) as (pre & x & post & Hl & _ & _ & Hi).
    rewrite Hi, Hl in Hitems.
    rewrite at_index_middle, slice_to_middle, slice_from_middle in Hitems.
    apply bind_ok in Hitems. destruct Hitems as (merged & Hm & Hitems).
    inversion Hitems; subst newItems; clear Hitems.
    exists pre, x, post, merged. split; [exact Hl |]. split; [| reflexivity].
    unfold CartItem.increaseQuantity in Hm. apply bind_ok in Hm.
    destruct Hm as (q' & _ & Hm). apply CartItem_updateQuantity_inv in Hm.
    subst merged. reflexivity.
  - right. rewrite Z.geb_leb in E. apply Z.leb_gt in E.
    destruct (length_Z (Cart.items this) >=? DOMAIN_CONSTANTS.MAX_CART_ITEMS);
      [discriminate |].
    inversion Hitems; subst newItems; clear Hitems.
    split; [| reflexivity].
    apply existsb_false_Forall. apply findIndex_absent_inv.
    destruct (findIndex_range (hasProduct (CartItemProps.productId ip)) (Cart.items this));
      lia.
Qed.

Lemma removeItem_items_inv (now : Date) (this c : Cart.t) (p : ProductId.t) :
  Cart.removeItem now this p = ok c ->
  exists pre x post,
    Cart.items this = (pre ++ x :: post)%list /\ Cart.items c = (pre ++ post)%list.
Proof.
  unfold Cart.removeItem. intros H.
  apply bind_ok in H. destruct H as (_ & _ & H). cbv zeta in H.
  destruct (findIndex _ (Cart.items this) =? -1) eqn:E; [discriminate |].
  apply Z.eqb_neq in E.
  apply withUpdatedItems_eq in H. subst c. rewrite Cart_items_mk.
  destruct (findIndex_range (fun item => ProductId.equals (CartItem.productId item) p)
              (Cart.items this)) as [Hr | Hr]; [contradiction |].
  destruct (findIndex_found _ _ (proj1 Hr)) as (pre & x & post & Hl & _ & _ & Hi).
  exists pre, x, post. split; [exact Hl |].
  rewrite Hi. rewrite Hl at 1 2.
  rewrite slice_to_middle, slice_from_middle. reflexivity.
Qed.

Lemma updateItemQuantity_items_inv (now : Date) (this c : Cart.t) (p : ProductId.t)
      (q : Quantity.t) :
  Cart.updateItemQuantity now this p q = ok c ->
  exists pre x post x',
    Cart.items this = (pre ++ x :: post)%list
    /\ CartItem.productId x' = CartItem.productId x
    /\ Cart.items c = (pre ++ x' :: post)%list.
Proof.
  unfold Cart.updateItemQuantity. intros H.
  apply bind_ok in H. destruct H as (_ & _ & H). cbv zeta in H.
  destruct (findIndex _ (Cart.items this) =? -1) eqn:E; [discriminate |].
  apply Z.eqb_neq in E.
  destruct (findIndex_range (fun item => ProductId.equals (CartItem.productId item) p)
              (Cart.items this)) as [Hr | Hr]; [contradiction |].
  destruct (findIndex_found _ _ (proj1 Hr)) as (pre & x & post & Hl & _ & _ & Hi).
  rewrite Hi in H. rewrite Hl in H.
  rewrite at_index_middle, slice_to_middle, slice_from_middle in H.
  apply bind_ok in H. destruct H as (x' & Hx' & H).
  apply withUpdatedItems_eq in H. subst c. rewrite Cart_items_mk.
  exists pre, x, post, x'. split; [exact Hl |]. split; [| reflexivity].
  apply CartItem_updateQuantity_inv in Hx'. subst x'. reflexivity.
Qed.

Lemma map_productId_middle (pre post : list CartItem.t) (x x' : CartItem.t) :
  CartItem.productId x' = CartItem.productId x ->
  map CartItem.productId (pre ++ x' :: post) = map CartItem.productId (pre ++ x :: post).
Proof. intros H. rewrite !map_app. simpl. rewrite H. reflexivity. Qed.

(** X26. A cart reached from [create] by [addItem], [removeItem],
    [updateItemQuantity], [clearItems], [abandon] and [checkout] never
    holds two line items for the same product. *)
Theorem cart_products_stay_distinct (c : Cart.t) :
  fromCreate c -> distinctProducts (Cart.items c) = true.
Proof.
  induction 1 as
    [fresh now uid cur c H | now this ip c _ IH H | now this p c _ IH H
    | now this p q c _ IH H | now this c _ IH H | now this c _ IH H | now this c _ IH H].
  - apply Cart_new_inv in H. destruct H as [-> _]. reflexivity.
  - apply addItem_items_inv in H.
    destruct H as [(pre & x & post & merged & Hl & Hid & Hc) | [Habs Hc]].
    + rewrite Hc, (distinctProducts_ids _ _ (map_productId_middle pre post x merged Hid)).
      rewrite <- Hl. exact IH.
    + rewrite Hc. apply distinctProducts_snoc; assumption.
  - apply removeItem_items_inv in H. destruct H as (pre & x & post & Hl & Hc).
    rewrite Hc. apply (distinctProducts_remove pre post x). rewrite <- Hl. exact IH.
  - apply updateItemQuantity_items_inv in H.
    destruct H as (pre & x & post & x' & Hl & Hid & Hc).
    rewrite Hc, (distinctProducts_ids _ _ (map_productId_middle pre post x x' Hid)).
    rewrite <- Hl. exact IH.
  - unfold Cart.clearItems in H. apply bind_ok in H. destruct H as (_ & _ & H).
    apply withUpdatedItems_eq in H. subst c. reflexivity.
  - apply Cart_new_inv in H. destruct H as [-> _]. exact IH.
  - unfold Cart.checkout in H. destruct (Cart.isEmpty this); [discriminate |].
    apply Cart_new_inv in H. destruct H as [-> _]. exact IH.
Qed.

Lemma cart_products_stay_distinct_witness :
  distinctProducts
    (Cart.items
       (Cart.mk (CartProps.mk (CartId.mk sampleUuid) "user-123"
                   [CartItem.mk (itemProps "PROD-001" "Blue Widget" 5 2999 EUR)]
                   ACTIVE EUR 0 2))) = true.
Proof.
  apply cart_products_stay_distinct.
  apply (fc_addItem 2
           (Cart.mk (CartProps.mk (CartId.mk sampleUuid) "user-123"
                       [CartItem.mk (itemProps "PROD-001" "Blue Widget" 2 2999 EUR)]
                       ACTIVE EUR 0 1))
           (itemProps "PROD-001" "Green Widget" 3 3500 EUR)); [| reflexivity].
  apply (fc_addItem 1 (cartOf [] ACTIVE EUR)
           (itemProps "PROD-001" "Blue Widget" 2 2999 EUR)); [| reflexivity].
  apply (fc_create sampleUuid 0 "user-123" (Some EUR)). reflexivity.
Defined.

(** ** Cart: bounds on item count and total *)

Lemma CartItem_wf_price_positive (i : CartItem.t) :
  CartItem.wf i = true -> 1 <= Money.amountInCents (CartItem.unitPrice i).
Proof.
  intros Hwf. apply CartItem_wf_parts in Hwf. destruct Hwf as (Hv & Hm & _).
  apply CartItem_validate_ok_iff in Hv. unfold acceptableItem in Hv.
  apply andb_true_iff in Hv. destruct Hv as [_ Hz].
  apply negb_true_iff in Hz. unfold Money.isZero in Hz. apply Z.eqb_neq in Hz.
  unfold CartItem.unitPrice, Money.amountInCents in *. lia.
Qed.

Lemma sums_bounds (l : list CartItem.t) :
  Forall (fun i => CartItem.wf i = true) l ->
  length_Z l <= sumQuantities l <= 999 * length_Z l
  /\ sumQuantities l <= sumCents l.
Proof.
  induction 1 as [| i r Hi _ IH]; cbn [sumQuantities sumCents].
  - unfold length_Z. simpl. lia.
  - rewrite length_Z_cons.
    pose proof (CartItem_wf_price_positive i Hi) as Hp.
    apply CartItem_wf_parts in Hi. destruct Hi as (_ & _ & Hq). nia.
Qed.

(** X27. For every constructed cart the item count is at least the number
    of line items and at most 999 times that number, hence at most 99900;
    when the sum of unit price times quantity over the line items is at
    most [Number.MAX_SAFE_INTEGER] cents, the total is at least one cent
    per unit, so a cart that is not empty does not have a zero total. *)
Theorem cart_count_and_total_bounds (c : Cart.t) :
  Cart.wf c = true ->
  length_Z (Cart.items c) <= Cart.itemCount c <= 999 * length_Z (Cart.items c)
  /\ Cart.itemCount c <= 99900
  /\ (sumCents (Cart.items c) <= MAX_SAFE_INTEGER ->
      exists t, Cart.total c = ok t
                /\ Cart.itemCount c <= Money.amountInCents t
                /\ (Cart.isEmpty c = false -> 0 < Money.amountInCents t)).
Proof.
  intros Hwf. pose proof (Cart_wf_parts c Hwf) as [(Hlen & _) Hall].
  pose proof (sums_bounds (Cart.items c) Hall) as [Hq Hc].
  rewrite Cart_itemCount_value.
  split; [exact Hq |]. split; [lia |].
  intros Hmax.
  eexists. split; [apply Cart_total_value; [exact Hwf | exact Hmax] |].
  cbn [Money.amountInCents Money._amountInCents]. split; [exact Hc |].
  unfold Cart.isEmpty. intros He. apply Z.eqb_neq in He.
  assert (0 <= length_Z (Cart.items c)) by (unfold length_Z; lia). lia.
Qed.

Lemma cart_count_and_total_bounds_witness :
  Cart.itemCount fullCart <= 99900
  /\ exists t, Cart.total fullCart = ok t /\ 100 <= Money.amountInCents t.
Proof.
  destruct (cart_count_and_total_bounds fullCart) as (_ & Hcount & Htotal);
    [by_evaluation |].
  split; [exact Hcount |].
  destruct Htotal as (t & Ht & Hle & _); [by_evaluation |].
  exists t. split; [exact Ht |].
  replace 100 with (Cart.itemCount fullCart) by (vm_compute; reflexivity).
  exact Hle.
Defined.

(** X28. [Cart.fromProps] checks, in this order, that the user id is not
    blank, that there are at most 100 items and that every item is priced
    in the currency of the cart; it throws [InvalidCartError] for the first
    check that fails, the last one listing the product ids of the offending
    items in order, and otherwise returns a cart holding exactly the given
    properties, whatever the status. *)
Theorem Cart_fromProps_cases (p : CartProps.t) :
  (isBlank (CartProps.userId p) = true ->
   Cart.fromProps p
   = throw (InvalidCartError "User ID is required"
              (Some [("cartId", JStr (CartId.value (CartProps.cartId p)))])))
  /\ (isBlank (CartProps.userId p) = false ->
      100 < length_Z (CartProps.items p) ->
      Cart.fromProps p
      = throw (InvalidCartError "Cart cannot have more than 100 items"
                 (Some [("cartId", JStr (CartId.value (CartProps.cartId p)));
                        ("itemCount", JNum (inject_Z (length_Z (CartProps.items p))))])))
  /\ (isBlank (CartProps.userId p) = false ->
      length_Z (CartProps.items p) <= 100 ->
      forall bad,
        bad = filter (fun i => negb (Currency_eqb (Money.currency (CartItem.unitPrice i))
                                                  (CartProps.currency p)))
                     (CartProps.items p) ->
        (bad <> [] ->
         Cart.fromProps p
         = throw (InvalidCartError "All items must have the same currency as the cart"
                    (Some [("cartId", JStr (CartId.value (CartProps.cartId p)));
                           ("cartCurrency", JStr (Currency_toString (CartProps.currency p)));
                           ("invalidItems",
                            JArr (map (fun i => JStr (ProductId.value (CartItem.productId i)))
                                      bad))])))
        /\ (bad = [] -> Cart.fromProps p = ok (Cart.mk p))).
Proof.
  unfold Cart.fromProps, Cart.new, Cart.validate. rewrite blank_guard.
  unfold DOMAIN_CONSTANTS.MAX_CART_ITEMS. rewrite !Z.gtb_ltb.
  split; [| split].
  - intros ->. reflexivity.
  - intros -> H. apply Z.ltb_lt in H. rewrite H. reflexivity.
  - intros -> H bad Hbad. apply Z.ltb_ge in H. rewrite H. cbv zeta.
    rewrite <- Hbad. destruct bad as [| b r].
    + split; [congruence | reflexivity].
    + split; [| discriminate]. intros _.
      replace (0 <? length_Z (b :: r)) with true
        by (symmetry; apply Z.ltb_lt; rewrite length_Z_cons; unfold length_Z; lia).
      reflexivity.
Qed.

Lemma Cart_fromProps_cases_witness :
  Cart.fromProps (CartProps.mk (CartId.mk sampleUuid) "  " [] ACTIVE EUR 0 0)
  = throw (InvalidCartError "User ID is required" (Some [("cartId", JStr sampleUuid)])).
Proof.
  apply (proj1 (Cart_fromProps_cases
                  (CartProps.mk (CartId.mk sampleUuid) "  " [] ACTIVE EUR 0 0))).
  reflexivity.
Defined.

(** ** Product *)

(** X29. [Product.create] checks, in this order, that the name is not
    blank, that it has at most 200 characters, that a description, when
    present and not empty, has at most 1000 characters, and that the price
    is not zero; it throws [InvalidProductError] with the message of the
    first check that fails and otherwise returns a product holding exactly
    the given properties, active or not. *)
Theorem Product_create_cases (p : ProductProps.t) :
  (isBlank (ProductProps.name p) = true ->
   Product.create p
   = throw (InvalidProductError "Product name cannot be empty"
              (Some [("productId", JStr (ProductId.value (ProductProps.productId p)))])))
  /\ (isBlank (ProductProps.name p) = false ->
      200 < strlen (ProductProps.name p) ->
      Product.create p
      = throw (InvalidProductError "Product name cannot exceed 200 characters"
                 (Some [("productId", JStr (ProductId.value (ProductProps.productId p)));
                        ("name", JStr (ProductProps.name p))])))
  /\ (isBlank (ProductProps.name p) = false ->
      strlen (ProductProps.name p) <= 200 ->
      (forall d, ProductProps.description p = Some d -> 1000 < strlen d ->
                 Product.create p
                 = throw (InvalidProductError
                            "Product description cannot exceed 1000 characters"
                            (Some [("productId",
                                    JStr (ProductId.value (ProductProps.productId p)))])))
      /\ ((forall d, ProductProps.description p = Some d -> strlen d <= 1000) ->
          (Money.isZero (ProductProps.price p) = true ->
           Product.create p
           = throw (InvalidProductError "Product price must be greater than zero"
                      (Some [("productId",
                              JStr (ProductId.value (ProductProps.productId p)));
                             ("price", Money.toJSON (ProductProps.price p))])))
          /\ (Money.isZero (ProductProps.price p) = false ->
              Product.create p = ok (Product.mk p)))).
Proof.
  unfold Product.create, Product.new, Product.validate. rewrite blank_guard.
  rewrite Z.gtb_ltb.
  split; [| split].
  - intros ->. reflexivity.
  - intros -> H. apply Z.ltb_lt in H. rewrite H. reflexivity.
  - intros -> H. apply Z.ltb_ge in H. rewrite H. split.
    + intros d -> Hd.
      assert (Hne : (strlen d =? 0) = false) by (apply Z.eqb_neq; lia).
      rewrite Hne, Z.gtb_ltb. apply Z.ltb_lt in Hd. rewrite Hd. reflexivity.
    + intros Hdesc.
      assert (Hd : match ProductProps.description p with
                   | Some d => negb (strlen d =? 0) && (strlen d >? 1000)
                   | None => false
                   end = false).
      { destruct (ProductProps.description p) as [d |]; [| reflexivity].
        specialize (Hdesc d eq_refl). rewrite Z.gtb_ltb.
        replace (1000 <? strlen d) with false by (symmetry; apply Z.ltb_ge; lia).
        apply andb_false_r. }
      rewrite Hd. split; intros ->; reflexivity.
Qed.

Lemma Product_create_cases_witness :
  Product.create (ProductProps.mk (ProductId.mk "PROD-001") "Blue Widget" (Some "")
                                  (Money.mk 1999 EUR) true)
  = ok (Product.mk (ProductProps.mk (ProductId.mk "PROD-001") "Blue Widget" (Some "")
                                    (Money.mk 1999 EUR) true)).
Proof.
  destruct (Product_create_cases
              (ProductProps.mk (ProductId.mk "PROD-001") "Blue Widget" (Some "")
                               (Money.mk 1999 EUR) true)) as (_ & _ & H).
  destruct H as [_ H]; [reflexivity | vm_compute; discriminate |].
  destruct H as [_ H].
  - intros d Hd. inversion Hd. subst d. vm_compute. discriminate.
  - apply H. reflexivity.
Defined.

Lemma Product_create_inv (p : ProductProps.t) (pr : Product.t) :
  Product.create p = ok pr -> pr = Product.mk p /\ Product.validate p = ok tt.
Proof.
  unfold Product.create, Product.new. intros H.
  apply bind_ok in H. destruct H as ([] & Hv & H). inversion H. auto.
Qed.

(** X30. The catalogue and the cart agree on what a sellable line is: the
    name and the price of any product built by [Product.create] are
    accepted by [CartItem.create], whatever the quantity, so a line item
    for a constructed product always exists. *)
Theorem product_makes_cart_item (p : ProductProps.t) (pr : Product.t) (q : Quantity.t) :
  Product.create p = ok pr ->
  CartItem.create (CartItemProps.mk (Product.productId pr) (Product.name pr) q
                                    (Product.price pr))
  = ok (CartItem.mk (CartItemProps.mk (Product.productId pr) (Product.name pr) q
                                      (Product.price pr))).
Proof.
  intros H. apply Product_create_inv in H. destruct H as [-> Hv].
  apply CartItem_create_ok. apply CartItem_validate_ok_iff.
  unfold acceptableItem. cbn [CartItemProps.productName CartItemProps.unitPrice].
  unfold Product.name, Product.price. cbn [Product.props].
  unfold Product.validate in Hv. rewrite blank_guard in Hv.
  destruct (isBlank (ProductProps.name p)); [discriminate |].
  rewrite Z.gtb_ltb in Hv.
  destruct (200 <? strlen (ProductProps.name p)) eqn:E; [discriminate |].
  apply Z.ltb_ge in E.
  destruct (match ProductProps.description p with
            | Some d => negb (strlen d =? 0) && (strlen d >? 1000)
            | None => false
            end); [discriminate |].
  destruct (Money.isZero (ProductProps.price p)); [discriminate |].
  apply Z.leb_le in E. rewrite E. reflexivity.
Qed.

Lemma product_makes_cart_item_witness :
  CartItem.create (itemProps "PROD-001" "Blue Widget" 2 1999 EUR)
  = ok (CartItem.mk (itemProps "PROD-001" "Blue Widget" 2 1999 EUR)).
Proof.
  apply (product_makes_cart_item
           (ProductProps.mk (ProductId.mk "PROD-001") "Blue Widget" None
                            (Money.mk 1999 EUR) true)
           (Product.mk (ProductProps.mk (ProductId.mk "PROD-001") "Blue Widget" None
                                        (Money.mk 1999 EUR) true))
           (Quantity.mk 2)).
  reflexivity.
Defined.
